(* ===== verification/_CoqProject ===== *)
-Q . S2P
Prelude.v
JsString.v
JsNumber.v
Json.v
Regex.v
NodePath.v
Codec.v
Express.v
Convert.v
Upload.v
Server.v
Deploy.v
Url.v
Static.v
ClientFormat.v
ClientUI.v
ClientBatch.v
ClientPage.v
ClientDownloads.v
Contract.v
App.v
