(* ===== verification/Prelude.v ===== *)
(** * convert-image: a verification development

    The program (Graphandco/convert-image) is an image conversion web
    service in two parts that talk over one HTTP endpoint:

    - [src/server.js]: an Express server.  A multer upload layer (memory
      storage, 50 MiB limit, file-name filter) parses a multipart request
      and hands one file plus the text fields [format], [quality] and
      [maxWidth] to the handler of [POST /api/convert].  The handler
      validates the fields, builds a sharp pipeline (optional
      bounding-box resize, then an encoder), or for [ico] runs sharp-ico
      through a temporary file, and answers with the bytes and the
      headers [Content-Type] and [Content-Disposition]; its [catch] turns
      any exception into a 500.  A final error middleware turns the
      upload layer's errors into 400 or 500 JSON answers.
    - [src/public/app.js]: the browser page.  It keeps a selection of
      files (input or drop), renders a metadata table whose dimensions
      are decoded asynchronously, posts one request per file under
      [Promise.all], writes the converted values next to the original
      ones, shows a banner and triggers downloads.
    - [src/bs-config.docker.js]: the browser-sync configuration of the
      Docker dev set-up: it serves the page on port 3008 and proxies the
      page's requests to [localhost:3009]; the server listens on [PORT]
      (default 3008, server.js lines 10 and 136-138).

    ** Files, in dependency order

    - [Prelude] (this file): the [js_scope] notation [+++] for string
      append, the hint databases [js] and [js_rw], the tactics
      [bool_to_prop], [js_arith] and [case_tests], generic string lemmas.
    - [JsString], [JsNumber]: the ECMAScript primitives the code calls:
      [toLowerCase], [toUpperCase], [trim], truthiness and [ToString] of a
      body field ([JsVal]), [split(".").pop()], [parseInt(s, 10)],
      [Math.round] of a rational, [String(n)] and [toFixed(1)]; the round
      trip [parse_int_dec_app] ([parseInt(String(n) + t)] is [n]).
    - [Json]: [JSON.stringify] of the error body and [JSON.parse] (a lexer
      that is a state machine over code units and a stack parser over
      tokens, total without fuel), [ToBoolean]/[ToString] of parsed
      values; [json_error_roundtrip].
    - [Regex]: the regular-expression fragment of the code, a
      backtracking matcher [rmatch] proved equal to the relational
      semantics [rm] ([rmatch_spec]), [test] and first-match [replace];
      the closed forms of [IMG_REG] (server.js line 16, app.js line 17)
      and of [/\.[^.]+$/] (app.js line 227).
    - [NodePath]: [path.extname] and [path.basename(p, ext)].
    - [Codec]: sharp and sharp-ico as a typeclass [Codec] with laws
      [CodecLaws] (output format, bounding-box geometry, icon format); a
      reference instance [RefCodec] that satisfies them and a
      [DiskFullCodec] whose icon write fails part-way.
    - [Express]: the response object ([status], [setHeader] with Node's
      header-character check, [json] that keeps a [Content-Type] already
      set ([type_or]), [send]), [fs.promises] and
      [console.error], in a state-and-exception monad [M] over a [World]
      (response, file system as a [gmap], log).
    - [Convert]: the [/api/convert] handler (server.js lines 26-122)
      statement by statement ([convert], [convert_body], [ico_branch],
      [sharp_branch], [convert_catch]); its pure contract
      [convert_contract]/[convert_fs] and the refinement theorem
      [convert_refines]; an error answer carries the type it is sent
      with ([json_type], or the image type when [Content-Disposition] was
      refused after [Content-Type] was set); the handler's properties.
    - [Upload]: multer and busboy on a multipart body as a step function
      over parts ([upload_part], [multer_single]) with the application's
      [fileFilter] and limits (lines 12-21); its invariant
      [multer_single_ok] and the exact shape of [req.body]
      ([fields_body_spec]).
    - [Server]: the middleware chain ([post_convert]: body parsers,
      handler, error middleware of lines 124-134), its contract and
      refinement [post_refines], the types of its responses
      ([post_response_typed]), the upload-layer answers, two end-to-end
      runs of spec section 8.
    - [Deploy]: the start-up of server.js (line 10, [process.env.PORT ||
      3008]; lines 136-138, [app.listen(PORT, "0.0.0.0")]) with Node's
      [net.Server.listen] (a string that is not a non-negative number is
      a local socket path, a number that is not a port throws) and
      ECMAScript's [Number()] of a string ([js_to_number]), and the
      browser-sync record of bs-config.docker.js; [listen_decimal]
      ([Number(String(n))] is [n]), [dev_proxy_port] (the server is
      behind the dev proxy exactly when [Number(PORT)] is 3009, never
      by default), [listen_port_misread] (which [PORT] strings become a
      socket path, a start-up error or a TCP port).
    - [Url]: what every request's URL goes through: [parseurl]'s fast
      path ([url_pathname], [url_search]), [decodeURIComponent] as a
      state machine [dstep] over the characters (escapes and UTF-8
      sequences, a code point above U+00FF flagged [DecWide]),
      [encodeurl] and [escape-html]; [decode_pct_encode] (decoding
      inverts percent-encoding) and [encode_url_printable].
    - [Static]: [express.static] of line 24 (serve-static over send):
      GET and HEAD only, [decode], the NUL check, [path.posix.normalize]
      over segments ([norm_seg]), the up-path and dot-file checks,
      [index.html] for a trailing slash, the 301 of a directory, and
      fall-through ([SNext]) on every error below 500; the public
      directory is a [gmap] from relative paths to entries.  It is a
      library model: the theorems use only its fall-through for a POST,
      which puts the route after it in [App].
    - [App]: the application as a whole ([app_handle], lines 23-26):
      [express.json], then [express.static], then the router with the
      path-to-regexp pattern of ["/api/convert"] ([route_re], equivalent
      to a case-insensitive comparison with an optional slash:
      [route_match_spec]), its automatic OPTIONS answer, and
      finalhandler's 404 page.  [app_post_route] lifts the refinement of
      [Server] to the whole application; [not_found_no_markup] shows the
      404 page echoes no markup.
    - [ClientFormat]: [formatBytes], [formatLabel] and the format labels,
      the name a result is saved under, the texts of the page.
    - [ClientUI]: the page as a state machine ([UI], [Event], [step],
      [run]): every handler, and every continuation after an [await], is
      one event, so a list of events is an interleaving; the image
      decoder and the server are parameters.  Invariants by induction on
      runs ([run_table_inv], [quiet_no_double_submit]), the [finally]
      ([settle_reenables]) and the runs that contradict the spec.
    - [ClientBatch]: one batch under any schedule of its continuations
      ([enabled], [valid_run]): a work measure (two per file fetching,
      one per file decoding) that every continuation lowers bounds every
      schedule ([valid_run_progress]); an invariant ([batch_ok]) gives
      liveness ([batch_settles]: the batch can always go on or has
      settled with the button enabled).
    - [ClientPage]: the listeners of app.js lines 86-129 over the page
      state ([Page] = [UI] and the [Chrome]: the quality label, the zone
      and overlay classes, the file dialogs opened): [dom_step] runs the
      target's listener and then the document's as the event bubbles,
      with what was done to the default action; [file_drag_handled],
      [zone_drop_twice], [zone_highlight_files], [quality_label_run].
    - [ClientDownloads]: the browser resources of app.js lines 49-74 and
      184-188 over a [Browser] state (the blob URL store as a [gmap] whose
      fresh key [createObjectURL] returns, the anchors of
      [document.body], the files saved): [trigger_download] and the
      [Image] of [getImageDimensions] ([image_start], [image_onload],
      [image_onerror]); the timers of "download all" fire in order of
      delay (HTML's timer ordering, a stable insertion).  Under the
      invariant [fresh_ok]: the images loading in any order each resolve
      with their own blob's size and revoke every URL ([images_any_order],
      which justifies the page's decoder parameter), and the bulk download
      saves the files in order and leaves no URL or anchor
      ([download_all_order]).
    - [Contract]: the page and the server together: the form as the body
      multer parses, the response as the bytes the page reads; the error
      channel ([error_reaches_page], [page_shows_server_error]) and the
      saved names ([names_agree], [names_differ]).

    ** What the theorems show

    Refinement: the handler, the route and the whole application (for a
    POST the route takes) refine pure contracts (answer with its type,
    file-system effect, log), and the image loads of the page refine its
    decoder parameter.  Equivalence: the route's pattern is a case-insensitive
    comparison with [/api/convert] and an optional slash.  Type: every
    response declares its body's type, with the one exception the code
    has.  Round trips: [JSON.parse] of the error body, [parseInt] and
    [Number] of [String(n)].  Liveness of a batch of the page under any
    completion order.  Start-up: the port the server listens on for
    every value of [PORT], against the port the dev proxy targets.  Functional behaviour of every
    validation branch and error path (400 for a missing file or an
    unknown format, 500 with the message for codec, header, type and
    upload errors), of the defaults (quality 80, format webp, maxWidth
    ignored), of the output (magic bytes match [Content-Type], resize
    stays in the box without enlarging and keeps the aspect ratio, name
    is stem.format).  Bounds: quality in [1,100], PNG level in [0,9].
    Invariants: multer's output, the page's table, the button during a
    batch.  Divergences from the spec are proved as theorems too (ICO
    leak, filter error as 500, completion-order table, double submission,
    stale dimensions, unfiltered input, name mismatches).

    ** Conventions, bounds and fuel

    A JavaScript string is a [String.string] of Latin-1 code units (one
    [ascii] per UTF-16 code unit in 0..255), which is what busboy's
    latin1 parameter decoding gives for file names; accented letters of
    the messages are written with [latin1], and the page's non-Latin-1
    symbols ("…", "—", "→") are constructors of its display model.  A
    [\u] escape above U+00FF in a JSON text is flagged
    ([ParseBeyondLatin1]) rather than represented.  Integers read by
    [parseInt] are exact [Z]: the code compares them with 1, 100 and 8000
    and passes on only values in [1, 8000], where a double is exact.
    [Math.round(9 - ((q - 5) / 95) * 9)] is computed over the rationals;
    [Convert.png_level_float_safe] shows that any approximation within
    1/190 rounds alike, so the source's floating-point error cannot
    change the level.  Fuel: the regex star uses the input length
    ([star_m_spec] shows it is enough); [String(n)] uses the bit length
    of [n] ([js_dec_fuel]); the JSON parser and the page need none.
    [Number()] of a port string is exact on literals of at most fifteen
    significant digits and decimal exponents within 300, where a double
    represents integers exactly and no non-integer rounds to one; longer
    literals are flagged ([NumBeyond]).  A batch needs no fuel either:
    its work measure bounds every schedule ([valid_run_progress]).

    ** Not modelled

    Pixel-level coding (the [Codec] interface with laws stands for it),
    what [send] does with request headers (conditional GET, ranges) and
    the headers it derives from the file's times and size ([ETag],
    [Last-Modified], [Content-Length]), request targets [parseurl] hands
    to [url.parse] (not starting with [/], or holding a space, a [#] or
    a control character), the contents of [public/] other than
    [app.js] (the page's HTML and CSS are not under [src/]; the
    directory is a parameter), the pixel decoding behind
    [img.onload] (a parameter of [ClientDownloads]), the wall clock of
    the timers (only their order is modelled), the markup and CSS the
    listeners toggle classes on, and multer's bracketed field names.
    Library behaviour (Node's [path] and [net.Server.listen],
    multer/busboy, Express, V8 messages, [JSON], [Number()]) is modelled
    from its documentation and marked
    [spec_modelled] in the manifest; repository code is translated line
    by line. *)
From stdpp Require Export base list strings.
From Stdlib Require Export String Ascii ZArith Lia Bool.

Declare Scope js_scope.
Delimit Scope js_scope with js.
(** String concatenation ([a + b] on strings in the source). *)
Infix "+++" := String.append (at level 60, right associativity) : js_scope.
Open Scope js_scope.

Create HintDb js.
Create Rewrite HintDb js_rw.

(** ** Strings *)

(** stdpp declares [String.append] [simpl never]; proofs unfold it with
    [cbn [String.append]] or rewrite with [js_append_cons]. *)
Lemma js_append_cons (c : ascii) (a b : string) :
  String c a +++ b = String c (a +++ b).
Proof. done. Qed.

Lemma js_append_nil_l (s : string) : "" +++ s = s.
Proof. done. Qed.

Lemma js_append_nil_r (s : string) : s +++ "" = s.
Proof. induction s as [|c s IH]; [done | rewrite js_append_cons, IH; done]. Qed.

Lemma js_append_assoc (a b c : string) : (a +++ b) +++ c = a +++ (b +++ c).
Proof. induction a as [|x a IH]; [done | rewrite !js_append_cons, IH; done]. Qed.

Lemma js_length_append (a b : string) :
  String.length (a +++ b) = String.length a + String.length b.
Proof. induction a as [|x a IH]; [done | rewrite js_append_cons; simpl; rewrite IH; done]. Qed.

#[export] Hint Rewrite js_append_nil_r js_append_assoc js_length_append : js_rw.

Lemma js_append_inv_l (p a b : string) : p +++ a = p +++ b -> a = b.
Proof. induction p as [|c p IH]; [done | rewrite !js_append_cons; intros H; injection H; auto]. Qed.

Lemma js_append_eq_nil (a b : string) : a +++ b = "" -> a = "" /\ b = "".
Proof. destruct a; [done | discriminate]. Qed.

(** Two decompositions of one string, the first prefix shorter. *)
Lemma js_append_eq_longer (a b c d : string) :
  a +++ b = c +++ d -> (String.length a <= String.length c)%nat ->
  exists m, c = a +++ m /\ b = m +++ d.
Proof.
  revert c. induction a as [|x a IH]; intros c Heq Hle.
  - by exists c.
  - destruct c as [|y c]; [simpl in Hle; lia|].
    rewrite !js_append_cons in Heq. injection Heq as -> Heq.
    destruct (IH c Heq) as [m [-> ->]]; [simpl in Hle; lia|]. by exists m.
Qed.

Lemma js_append_same_length (a b c d : string) :
  a +++ b = c +++ d -> String.length a = String.length c -> a = c /\ b = d.
Proof.
  intros Heq Hl. destruct (js_append_eq_longer a b c d Heq) as [m [-> ->]]; [lia|].
  rewrite js_length_append in Hl. destruct m; [|simpl in Hl; lia].
  by rewrite js_append_nil_r.
Qed.

(** [s.includes(c)] for one code unit. *)
Fixpoint str_has (c : ascii) (s : string) : bool :=
  match s with
  | EmptyString => false
  | String d s' => Ascii.eqb d c || str_has c s'
  end.

Lemma str_has_append (c : ascii) (a b : string) :
  str_has c (a +++ b) = str_has c a || str_has c b.
Proof. induction a as [|d a IH]; [done|]. rewrite js_append_cons. simpl. rewrite IH. by rewrite orb_assoc. Qed.

#[export] Hint Rewrite str_has_append : js_rw.

(** Two ways to end a string with a dot and a dot-free extension agree. *)
Lemma last_ext_unique (p e p' e' : string) :
  p +++ "." +++ e = p' +++ "." +++ e' ->
  str_has "." e = false -> str_has "." e' = false -> p = p' /\ e = e'.
Proof.
  intros Heq He He'.
  assert (Hl : String.length p = String.length p').
  { destruct (Nat.lt_total (String.length p) (String.length p')) as [Hlt | [Hlt | Hlt]]; [| done |].
    - destruct (js_append_eq_longer _ _ _ _ Heq) as [m [-> Hm]]; [lia|].
      destruct m as [|c m]; [rewrite js_append_nil_r in Hlt; lia|].
      rewrite !js_append_cons in Hm. injection Hm as <- Hm. rewrite js_append_nil_l in Hm.
      rewrite Hm, str_has_append in He. simpl in He. by rewrite orb_true_r in He.
    - symmetry in Heq. destruct (js_append_eq_longer _ _ _ _ Heq) as [m [-> Hm]]; [lia|].
      destruct m as [|c m]; [rewrite js_append_nil_r in Hlt; lia|].
      rewrite !js_append_cons in Hm. injection Hm as <- Hm. rewrite js_append_nil_l in Hm.
      rewrite Hm, str_has_append in He'. simpl in He'. by rewrite orb_true_r in He'. }
  destruct (js_append_same_length _ _ _ _ Heq Hl) as [-> Hr].
  rewrite !js_append_cons in Hr. by injection Hr.
Qed.

(** The character code of a code unit ([charCodeAt]). *)
Definition code (c : ascii) : nat := nat_of_ascii c.

Lemma code_inj (a b : ascii) : code a = code b -> a = b.
Proof.
  unfold code. intros H.
  by rewrite <- (ascii_nat_embedding a), <- (ascii_nat_embedding b), H.
Qed.

Lemma code_lt_256 (c : ascii) : code c < 256.
Proof. destruct c as [[] [] [] [] [] [] [] []]; vm_compute; lia. Qed.

(** ** Booleans and integers *)

Lemma Z_ltb_false (a b : Z) : (a <? b)%Z = false <-> (b <= a)%Z.
Proof. rewrite Z.ltb_ge. done. Qed.

(** [bool_to_prop] turns the boolean tests of a hypothesis or goal into
    propositions; [js_arith] then closes arithmetic goals. *)
Ltac bool_to_prop :=
  repeat match goal with
  | H : (_ && _) = true |- _ => apply andb_true_iff in H as [? ?]
  | H : (_ || _) = false |- _ => apply orb_false_iff in H as [? ?]
  | H : (_ <? _)%Z = true |- _ => apply Z.ltb_lt in H
  | H : (_ <? _)%Z = false |- _ => apply Z.ltb_ge in H
  | H : (_ <=? _)%Z = true |- _ => apply Z.leb_le in H
  | H : (_ <=? _)%Z = false |- _ => apply Z.leb_gt in H
  | H : (_ =? _)%Z = true |- _ => apply Z.eqb_eq in H
  | H : (_ =? _)%Z = false |- _ => apply Z.eqb_neq in H
  | H : (_ <? _)%nat = true |- _ => apply Nat.ltb_lt in H
  | H : (_ <? _)%nat = false |- _ => apply Nat.ltb_ge in H
  | H : (_ <=? _)%nat = true |- _ => apply Nat.leb_le in H
  | H : (_ <=? _)%nat = false |- _ => apply Nat.leb_gt in H
  | H : (_ =? _)%nat = true |- _ => apply Nat.eqb_eq in H
  | H : (_ =? _)%nat = false |- _ => apply Nat.eqb_neq in H
  | H : String.eqb _ _ = true |- _ => apply String.eqb_eq in H
  | H : String.eqb _ _ = false |- _ => apply String.eqb_neq in H
  end.

Ltac js_arith := bool_to_prop; lia.

(** Case analysis on every boolean comparison of the goal, as the
    handlers' [if] chains need. *)
Ltac case_tests :=
  repeat match goal with
  | |- context [if ?b then _ else _] => let E := fresh "E" in destruct b eqn:E
  end; bool_to_prop.
