(* ===== verification/JsString.v ===== *)
(** ECMAScript string primitives called by [src/server.js] and
    [src/public/app.js], on Latin-1 code units: case mapping, white space,
    truthiness and [ToString] of request-body values, [split(".").pop()],
    [trim()] and the replacement of the first occurrence of a character. *)
From S2P Require Import Prelude.

(** A double quote, which a Rocq string literal cannot hold without
    doubling. *)
Definition dq : string := String (ascii_of_nat 34) "".

(** ** Case mapping (Unicode default case mapping restricted to 0..255) *)

Definition is_upper_code (n : nat) : bool :=
  ((65 <=? n) && (n <=? 90)) || ((192 <=? n) && (n <=? 222) && negb (n =? 215)).

Definition is_lower_code (n : nat) : bool :=
  ((97 <=? n) && (n <=? 122)) || ((224 <=? n) && (n <=? 254) && negb (n =? 247)).

Definition char_lower (c : ascii) : ascii :=
  if is_upper_code (code c) then ascii_of_nat (code c + 32) else c.

(** [String.prototype.toLowerCase]: every Latin-1 upper-case letter maps
    to a Latin-1 letter, so the result stays in the model. *)
Fixpoint to_lower (s : string) : string :=
  match s with
  | EmptyString => EmptyString
  | String c s' => String (char_lower c) (to_lower s')
  end.

(** [String.prototype.toUpperCase] leaves Latin-1 for two code units:
    U+00FF maps to U+0178 and U+00B5 to U+039C.  The model returns [None]
    for them; U+00DF maps to the two units "SS". *)
Definition char_upper (c : ascii) : option string :=
  let n := code c in
  if (n =? 255) || (n =? 181) then None
  else if n =? 223 then Some "SS"
  else if is_lower_code n then Some (String (ascii_of_nat (n - 32)) "")
  else Some (String c "").

Fixpoint to_upper (s : string) : option string :=
  match s with
  | EmptyString => Some EmptyString
  | String c s' =>
      match char_upper c, to_upper s' with
      | Some u, Some r => Some (u +++ r)
      | _, _ => None
      end
  end.

(** ** White space (StrWhiteSpaceChar: WhiteSpace and LineTerminator) *)

Definition is_js_space (c : ascii) : bool :=
  let n := code c in
  (9 <=? n) && (n <=? 13) || (n =? 32) || (n =? 160).

Fixpoint trim_start (s : string) : string :=
  match s with
  | EmptyString => EmptyString
  | String c s' => if is_js_space c then trim_start s' else s
  end.

Definition rev_string (s : string) : string :=
  string_of_list_ascii (rev (list_ascii_of_string s)).

(** [String.prototype.trim]: both ends. *)
Definition js_trim (s : string) : string :=
  rev_string (trim_start (rev_string (trim_start s))).

(** ** Request-body values

    multer's [req.body] maps a field name to a string, to an array of
    strings when the field is repeated, or to [undefined]. *)
Inductive JsVal :=
  | JUndefined
  | JStr (s : string)
  | JArr (items : list string).

(** ToBoolean. *)
Definition js_truthy (v : JsVal) : bool :=
  match v with
  | JUndefined => false
  | JStr s => negb (String.eqb s "")
  | JArr _ => true
  end.

(** ToString ([Array.prototype.join] with "," for arrays). *)
Definition js_to_string (v : JsVal) : string :=
  match v with
  | JUndefined => "undefined"
  | JStr s => s
  | JArr l => String.concat "," l
  end.

(** [v || d]. *)
Definition js_or (v d : JsVal) : JsVal := if js_truthy v then v else d.

(** ** [split(".").pop()] *)

Fixpoint js_split (sep : ascii) (s : string) : list string :=
  match s with
  | EmptyString => [EmptyString]
  | String c s' =>
      let rest := js_split sep s' in
      if Ascii.eqb c sep then EmptyString :: rest
      else match rest with
           | x :: xs => String c x :: xs
           | [] => [String c EmptyString]
           end
  end.

(** [Array.prototype.pop] on the (never empty) result of [split]. *)
Definition js_split_pop (sep : ascii) (s : string) : string :=
  List.last (js_split sep s) EmptyString.

(** [s.replace(a, b)] with one-character string arguments: the first
    occurrence only. *)
Fixpoint replace_first_char (a b : ascii) (s : string) : string :=
  match s with
  | EmptyString => EmptyString
  | String c s' => if Ascii.eqb c a then String b s' else String c (replace_first_char a b s')
  end.

(** ** Lemmas *)

Lemma replace_first_char_app (a b : ascii) (s t : string) :
  str_has a s = false -> replace_first_char a b (s +++ t) = s +++ replace_first_char a b t.
Proof.
  induction s as [|c s IH]; intros Hs; [done|]. simpl in Hs. apply orb_false_iff in Hs as [Hc Hs].
  rewrite !js_append_cons. simpl. rewrite Hc, IH by done. done.
Qed.

(** [split] of a text without the separator is that text alone. *)
Lemma js_split_none (sep : ascii) (s : string) : str_has sep s = false -> js_split sep s = [s].
Proof.
  induction s as [|c s IH]; intros Hs; [done|]. simpl in Hs. apply orb_false_iff in Hs as [Hc Hs].
  simpl. rewrite Hc, IH by done. done.
Qed.

Lemma js_split_app_sep (sep : ascii) (p a : string) :
  str_has sep a = false -> exists l, l <> [] /\ js_split sep (p +++ String sep a) = l ++ [a].
Proof.
  intros Ha. induction p as [|c p IH].
  - exists [EmptyString]. simpl. rewrite Ascii.eqb_refl, js_split_none by done. done.
  - destruct IH as ([|y ys] & Hne & E); [done|]. rewrite js_append_cons. simpl. rewrite E.
    destruct (Ascii.eqb c sep).
    + by exists (EmptyString :: y :: ys).
    + by exists (String c y :: ys).
Qed.

(** [name.split(".").pop()] is the text after the last dot. *)
Lemma js_split_pop_ext (p a : string) :
  str_has "." a = false -> js_split_pop "." (p +++ "." +++ a) = a.
Proof.
  intros Ha. unfold js_split_pop. change ("." +++ a) with (String "." a).
  destruct (js_split_app_sep "." p a Ha) as (l & _ & ->).
  apply List.last_last.
Qed.

(** A Latin-1 code unit as a one-unit string, for the accented letters of
    the French messages. *)
Definition latin1 (n : nat) : string := String (ascii_of_nat n) "".
