(* ===== verification/JsNumber.v ===== *)
(** ECMAScript number primitives called by the code: [parseInt(s, 10)]
    ([None] is NaN), [Math.round] of a rational, the decimal [ToString]
    of a non-negative integer and [Number.prototype.toFixed(1)] of a
    non-negative rational. *)
From S2P Require Import Prelude JsString.

Local Open Scope Z_scope.

(** ** parseInt(string, 10) *)

Definition is_digit (c : ascii) : bool := (48 <=? code c)%nat && (code c <=? 57)%nat.

Definition digit_value (c : ascii) : Z := Z.of_nat (code c) - 48.

(** The maximal prefix of decimal digits. *)
Fixpoint digit_prefix (s : string) : list Z :=
  match s with
  | EmptyString => []
  | String c s' => if is_digit c then digit_value c :: digit_prefix s' else []
  end.

Definition digits_value (ds : list Z) : Z := fold_left (fun acc d => 10 * acc + d) ds 0.

(** Trim leading white space, read an optional sign, read the maximal run
    of decimal digits; no digit is NaN.  [-0] is represented by [0]. *)
Definition js_parse_int10 (s : string) : option Z :=
  let t := trim_start s in
  let '(sign, u) :=
    match t with
    | String c u => if Ascii.eqb c "-" then (-1, u)
                    else if Ascii.eqb c "+" then (1, u) else (1, t)
    | EmptyString => (1, t)
    end in
  match digit_prefix u with
  | [] => None
  | ds => Some (sign * digits_value ds)
  end.

(** ** Math.round(n / d), d > 0: the closest integer, halves toward +oo. *)
Definition js_round_div (n d : Z) : Z := (2 * n + d) / (2 * d).

(** ** Decimal ToString of a non-negative integer *)

Definition digit_char (d : Z) : ascii := ascii_of_nat (Z.to_nat d + 48).

Fixpoint dec_digits (fuel : nat) (n : Z) (acc : string) : string :=
  match fuel with
  | O => String (digit_char n) acc
  | S f => if n <? 10 then String (digit_char n) acc
           else dec_digits f (n / 10) (String (digit_char (n mod 10)) acc)
  end.

(** The fuel is the bit length of [n]: every step divides by ten. *)
Definition js_dec (n : Z) : string := dec_digits (Z.to_nat (Z.log2 n) + 1) n "".

(** ** toFixed(1) of num / den (den > 0, 0 <= num / den < 1e21)

    The integer [k] with [k / 10] closest to the value (the larger on a
    tie), printed with one digit after the point. *)
Definition to_fixed1 (num den : Z) : string :=
  let k := (20 * num + den) / (2 * den) in
  js_dec (k / 10) +++ "." +++ String (digit_char (k mod 10)) "".

(** ** Printing and reading back *)

Lemma digit_char_ok (d : Z) : 0 <= d < 10 -> is_digit (digit_char d) = true /\ digit_value (digit_char d) = d.
Proof.
  intros Hd. assert (d = 0 \/ d = 1 \/ d = 2 \/ d = 3 \/ d = 4 \/ d = 5 \/ d = 6 \/ d = 7 \/ d = 8 \/ d = 9) by lia.
  repeat destruct H as [-> | H]; [..| subst d]; split; reflexivity.
Qed.

Lemma digits_value_snoc (ds : list Z) (d : Z) : digits_value (ds ++ [d]) = 10 * digits_value ds + d.
Proof. unfold digits_value. by rewrite fold_left_app. Qed.

(** [dec_digits] puts the digits of [n] in front of [acc]. *)
Lemma dec_digits_spec (fuel : nat) (n : Z) (acc : string) :
  0 <= n < 10 ^ Z.of_nat (S fuel) ->
  exists ds, ds <> [] /\ digit_prefix (dec_digits fuel n acc) = ds ++ digit_prefix acc /\ digits_value ds = n.
Proof.
  revert n acc. induction fuel as [|f IH]; intros n acc Hn; simpl.
  - destruct (digit_char_ok n) as [Hd Hv]; [simpl in Hn; lia|].
    exists [n]. simpl. rewrite Hd, Hv. done.
  - destruct (Z.ltb_spec n 10) as [Hlt | Hge].
    + destruct (digit_char_ok n) as [Hd Hv]; [lia|]. exists [n]. simpl. rewrite Hd, Hv. done.
    + assert (Hpow : 10 ^ Z.of_nat (S (S f)) = 10 * 10 ^ Z.of_nat (S f)) by (rewrite !Nat2Z.inj_succ, Z.pow_succ_r; lia).
      destruct (IH (n / 10) (String (digit_char (n mod 10)) acc)) as (ds & Hne & Hp & Hv).
      { split; [apply Z.div_pos; lia | apply Z.div_lt_upper_bound; lia]. }
      destruct (digit_char_ok (n mod 10)) as [Hd Hdv]; [apply Z.mod_pos_bound; lia|].
      exists (ds ++ [n mod 10]). split; [by destruct ds|]. split.
      * rewrite Hp. simpl. rewrite Hd, Hdv. by rewrite <- app_assoc.
      * rewrite digits_value_snoc, Hv. pose proof (Z.div_mod n 10). lia.
Qed.

Lemma js_dec_fuel (n : Z) : 0 <= n -> 0 <= n < 10 ^ Z.of_nat (S (Z.to_nat (Z.log2 n) + 1)).
Proof.
  intros Hn. split; [done|]. destruct (Z.eq_dec n 0) as [-> | Hn0]; [simpl; lia|].
  pose proof (Z.log2_spec n ltac:(lia)) as [_ Hl].
  assert (2 ^ Z.succ (Z.log2 n) <= 10 ^ Z.of_nat (S (Z.to_nat (Z.log2 n) + 1))).
  { rewrite Nat2Z.inj_succ, Nat2Z.inj_add, Z2Nat.id by apply Z.log2_nonneg.
    transitivity (10 ^ Z.succ (Z.log2 n)); [apply Z.pow_le_mono_l; pose proof (Z.log2_nonneg n); lia|].
    apply Z.pow_le_mono_r; lia. }
  lia.
Qed.

Lemma js_dec_digits (n : Z) :
  0 <= n -> exists ds, ds <> [] /\ digit_prefix (js_dec n) = ds /\ digits_value ds = n.
Proof.
  intros Hn. unfold js_dec.
  destruct (dec_digits_spec (Z.to_nat (Z.log2 n) + 1) n "" (js_dec_fuel n Hn)) as (ds & Hne & Hp & Hv).
  exists ds. rewrite Hp. simpl. by rewrite app_nil_r.
Qed.

Lemma digit_char_not_dot (d : Z) : 0 <= d < 10 -> Ascii.eqb (digit_char d) "." = false.
Proof.
  intros Hd. destruct (digit_char_ok d Hd) as [Hc _]. apply Ascii.eqb_neq. intros He.
  rewrite He in Hc. discriminate.
Qed.

(** [dec_digits] prepends a dot-free text. *)
Lemma dec_digits_shape (fuel : nat) (n : Z) (acc : string) :
  0 <= n < 10 ^ Z.of_nat (S fuel) ->
  exists pre, dec_digits fuel n acc = pre +++ acc /\ str_has "." pre = false.
Proof.
  revert n acc. induction fuel as [|f IH]; intros n acc Hn; simpl.
  - exists (String (digit_char n) ""). simpl in Hn. simpl. rewrite digit_char_not_dot by lia. done.
  - destruct (Z.ltb_spec n 10) as [Hlt | Hge].
    + exists (String (digit_char n) ""). simpl. rewrite digit_char_not_dot by lia. done.
    + assert (Hpow : 10 ^ Z.of_nat (S (S f)) = 10 * 10 ^ Z.of_nat (S f)) by (rewrite !Nat2Z.inj_succ, Z.pow_succ_r; lia).
      destruct (IH (n / 10) (String (digit_char (n mod 10)) acc)) as (pre & Hp & Hd).
      { split; [apply Z.div_pos; lia | apply Z.div_lt_upper_bound; lia]. }
      exists (pre +++ String (digit_char (n mod 10)) ""). rewrite Hp, js_append_assoc, js_append_cons. split; [done|].
      rewrite str_has_append, Hd. simpl. rewrite digit_char_not_dot; [done|]. apply Z.mod_pos_bound. lia.
Qed.

Lemma js_dec_no_dot (n : Z) : 0 <= n -> str_has "." (js_dec n) = false.
Proof.
  intros Hn. unfold js_dec.
  destruct (dec_digits_shape _ n "" (js_dec_fuel n Hn)) as (pre & -> & Hd). by rewrite js_append_nil_r.
Qed.

Lemma dec_digits_app (fuel : nat) (n : Z) (acc t : string) :
  dec_digits fuel n (acc +++ t) = dec_digits fuel n acc +++ t.
Proof.
  revert n acc. induction fuel as [|f IH]; intros n acc; simpl; [by rewrite js_append_cons|].
  destruct (n <? 10); [by rewrite js_append_cons|]. by rewrite <- IH, js_append_cons.
Qed.

(** [parseInt(String(n) + t, 10)] is [n] when [t] does not continue the
    digits. *)
(** A digit is not white space. *)
Lemma digit_not_space (c : ascii) : is_digit c = true -> is_js_space c = false.
Proof.
  unfold is_digit, is_js_space. intros Hc. apply andb_true_iff in Hc as [H1 H2]. apply Nat.leb_le in H1, H2.
  cbv zeta. destruct (Nat.leb_spec 9 (code c)), (Nat.leb_spec (code c) 13), (Nat.eqb_spec (code c) 32),
    (Nat.eqb_spec (code c) 160); simpl; try reflexivity; lia.
Qed.

Lemma parse_int_dec_app (n : Z) (t : string) :
  0 <= n -> digit_prefix t = [] -> js_parse_int10 (js_dec n +++ t) = Some n.
Proof.
  intros Hn Ht. unfold js_dec. rewrite <- dec_digits_app, js_append_nil_l.
  destruct (dec_digits_spec _ n t (js_dec_fuel n Hn)) as (ds & Hne & Hp & Hv). rewrite Ht, app_nil_r in Hp.
  unfold js_parse_int10.
  destruct (dec_digits _ n t) as [|c u] eqn:E; [by subst ds|].
  simpl in Hp. destruct (is_digit c) eqn:Hc; [|by subst ds].
  pose proof (digit_not_space c Hc) as Hs.
  assert (Hm : Ascii.eqb c "-" = false /\ Ascii.eqb c "+" = false).
  { split; apply Ascii.eqb_neq; intros ->; discriminate. }
  simpl. rewrite Hs, (proj1 Hm), (proj2 Hm). cbn. rewrite Hc.
  rewrite Z.mul_1_l, <- Hv, <- Hp. reflexivity.
Qed.

(** [parseInt(String(n), 10)] is [n]. *)
Lemma parse_int_js_dec (n : Z) : 0 <= n -> js_parse_int10 (js_dec n) = Some n.
Proof. intros Hn. rewrite <- (js_append_nil_r (js_dec n)). by apply parse_int_dec_app. Qed.

(** ** toFixed(1) *)

Lemma to_fixed1_spec (num den : Z) :
  0 < den -> 0 <= num ->
  let k := (20 * num + den) / (2 * den) in
  to_fixed1 num den = js_dec (k / 10) +++ "." +++ String (digit_char (k mod 10)) "" /\
  0 <= k /\ Z.abs (20 * num - 2 * den * k) <= den.
Proof.
  intros Hd Hn k. split; [done|].
  pose proof (Z.div_mod (20 * num + den) (2 * den) ltac:(lia)).
  pose proof (Z.mod_pos_bound (20 * num + den) (2 * den) ltac:(lia)).
  assert (0 <= k) by (apply Z.div_pos; lia). fold k in H, H0. lia.
Qed.
