(* ===== verification/Json.v ===== *)
(** JSON as the two ends of the error channel use it: [JSON.stringify] of
    [{ error: msg }] in Express's [res.json] (server.js lines 29, 37, 120,
    129, 133) and [JSON.parse] of the response text in the page (app.js
    line 222).  The parser is ECMAScript's [JSON.parse] grammar, written as
    a lexer that reads one code unit at a time and a parser over the
    tokens with an explicit stack, so both run to completion on every
    input without fuel.  Strings are Latin-1 code units: a [\u] escape
    above [00FF] is read, and flagged, so that a text using one is
    reported as outside the model rather than rejected. *)
From S2P Require Import Prelude JsString JsNumber.

Local Open Scope Z_scope.

Local Set Warnings "-register-all".

(** ** Values *)

Inductive json :=
  | JNull
  | JBool (b : bool)
  | JNumber (lexeme : string)
  | JString (s : string)
  | JArray (items : list json)
  | JObject (fields : list (string * json)).

(** ** JSON.stringify of a string (QuoteJSONString) *)

Definition hex_digit (n : Z) : ascii := if n <? 10 then digit_char n else ascii_of_nat (Z.to_nat n + 87).

Definition bs : ascii := ascii_of_nat 92.

Definition escape_char (c : ascii) : string :=
  let n := Z.of_nat (code c) in
  if n =? 34 then String bs dq
  else if n =? 92 then String bs (String bs "")
  else if n =? 8 then String bs "b"
  else if n =? 9 then String bs "t"
  else if n =? 10 then String bs "n"
  else if n =? 12 then String bs "f"
  else if n =? 13 then String bs "r"
  else if n <? 32 then String bs ("u00" +++ String (hex_digit (n / 16)) (String (hex_digit (n mod 16)) ""))
  else String c "".

Fixpoint escape (s : string) : string :=
  match s with
  | EmptyString => EmptyString
  | String c s' => escape_char c +++ escape s'
  end.

Definition quote (s : string) : string := dq +++ escape s +++ dq.

(** [JSON.stringify({ error: msg })]. *)
Definition error_json_text (msg : string) : string := "{" +++ quote "error" +++ ":" +++ quote msg +++ "}".

(** ** Tokens *)

Inductive token :=
  | TLBrace | TRBrace | TLBracket | TRBracket | TColon | TComma
  | TStr (s : string)
  | TNum (lexeme : string)
  | TTrue | TFalse | TNull.

(** The phases of the number grammar [-? (0 | [1-9][0-9]* ) (. [0-9]+)? ([eE] [+-]? [0-9]+)?]. *)
Inductive num_phase := NMinus | NZero | NInt | NDot | NFrac | NExp | NExpSign | NExpDigits.

Definition num_accepting (ph : num_phase) : bool :=
  match ph with NZero | NInt | NFrac | NExpDigits => true | _ => false end.

Definition is_json_digit (c : ascii) : bool := is_digit c.

(** The phase after reading [c], if [c] continues the number. *)
Definition num_next (ph : num_phase) (c : ascii) : option num_phase :=
  let d := is_json_digit c in
  match ph with
  | NMinus => if Ascii.eqb c "0" then Some NZero else if d then Some NInt else None
  | NZero => if Ascii.eqb c "." then Some NDot else if Ascii.eqb c "e" || Ascii.eqb c "E" then Some NExp else None
  | NInt => if d then Some NInt else if Ascii.eqb c "." then Some NDot
            else if Ascii.eqb c "e" || Ascii.eqb c "E" then Some NExp else None
  | NDot => if d then Some NFrac else None
  | NFrac => if d then Some NFrac else if Ascii.eqb c "e" || Ascii.eqb c "E" then Some NExp else None
  | NExp => if Ascii.eqb c "+" || Ascii.eqb c "-" then Some NExpSign else if d then Some NExpDigits else None
  | NExpSign | NExpDigits => if d then Some NExpDigits else None
  end.

Definition hex_value (c : ascii) : option Z :=
  let n := Z.of_nat (code c) in
  if (48 <=? n) && (n <=? 57) then Some (n - 48)
  else if (97 <=? n) && (n <=? 102) then Some (n - 87)
  else if (65 <=? n) && (n <=? 70) then Some (n - 55)
  else None.

Inductive lex_state :=
  | LNormal
  | LString (acc : string)
  | LEscape (acc : string)
  | LUnicode (acc : string) (k : nat) (v : Z)
  | LNumber (lexeme : string) (ph : num_phase)
  | LWord (expected : string) (tok : token).

Definition snoc (s : string) (c : ascii) : string := s +++ String c "".

(** JSON white space. *)
Definition is_json_ws (c : ascii) : bool :=
  let n := code c in (n =? 32)%nat || (n =? 9)%nat || (n =? 10)%nat || (n =? 13)%nat.

(** One code unit outside any token: the new state, the tokens it ends. *)
Definition normal_step (c : ascii) : option (lex_state * list token) :=
  if is_json_ws c then Some (LNormal, [])
  else if Ascii.eqb c "{" then Some (LNormal, [TLBrace])
  else if Ascii.eqb c "}" then Some (LNormal, [TRBrace])
  else if Ascii.eqb c "[" then Some (LNormal, [TLBracket])
  else if Ascii.eqb c "]" then Some (LNormal, [TRBracket])
  else if Ascii.eqb c ":" then Some (LNormal, [TColon])
  else if Ascii.eqb c "," then Some (LNormal, [TComma])
  else if (code c =? 34)%nat then Some (LString "", [])
  else if Ascii.eqb c "-" then Some (LNumber "-" NMinus, [])
  else if Ascii.eqb c "0" then Some (LNumber "0" NZero, [])
  else if is_json_digit c then Some (LNumber (String c "") NInt, [])
  else if Ascii.eqb c "t" then Some (LWord "rue" TTrue, [])
  else if Ascii.eqb c "f" then Some (LWord "alse" TFalse, [])
  else if Ascii.eqb c "n" then Some (LWord "ull" TNull, [])
  else None.

(** The escape letters and the code unit each stands for. *)
Definition simple_escape (e : ascii) : option ascii :=
  let n := code e in
  if (n =? 34)%nat then Some e
  else if (n =? 92)%nat then Some e
  else if Ascii.eqb e "/" then Some e
  else if Ascii.eqb e "b" then Some (ascii_of_nat 8)
  else if Ascii.eqb e "f" then Some (ascii_of_nat 12)
  else if Ascii.eqb e "n" then Some (ascii_of_nat 10)
  else if Ascii.eqb e "r" then Some (ascii_of_nat 13)
  else if Ascii.eqb e "t" then Some (ascii_of_nat 9)
  else None.

(** One code unit in state [st]: the new state, the tokens emitted, and
    whether a code unit beyond Latin-1 was read. *)
Definition lex_step (st : lex_state) (c : ascii) : option (lex_state * list token * bool) :=
  match st with
  | LNormal => option_map (fun r => (r.1, r.2, false)) (normal_step c)
  | LString acc =>
      if (code c =? 34)%nat then Some (LNormal, [TStr acc], false)
      else if (code c =? 92)%nat then Some (LEscape acc, [], false)
      else if (code c <? 32)%nat then None
      else Some (LString (snoc acc c), [], false)
  | LEscape acc =>
      if Ascii.eqb c "u" then Some (LUnicode acc 0 0, [], false)
      else option_map (fun e => (LString (snoc acc e), [], false)) (simple_escape c)
  | LUnicode acc k v =>
      match hex_value c with
      | None => None
      | Some h =>
          let v' := 16 * v + h in
          if (k =? 3)%nat then
            if v' <? 256 then Some (LString (snoc acc (ascii_of_nat (Z.to_nat v'))), [], false)
            else Some (LString (snoc acc "?"), [], true)
          else Some (LUnicode acc (S k) v', [], false)
      end
  | LNumber lx ph =>
      match num_next ph c with
      | Some ph' => Some (LNumber (snoc lx c) ph', [], false)
      | None =>
          if num_accepting ph then
            option_map (fun r => (r.1, TNum lx :: r.2, false)) (normal_step c)
          else None
      end
  | LWord exp tok =>
      match exp with
      | String e EmptyString => if Ascii.eqb c e then Some (LNormal, [tok], false) else None
      | String e rest => if Ascii.eqb c e then Some (LWord rest tok, [], false) else None
      | EmptyString => None
      end
  end.

(** The end of the text. *)
Definition lex_finish (st : lex_state) : option (list token) :=
  match st with
  | LNormal => Some []
  | LNumber lx ph => if num_accepting ph then Some [TNum lx] else None
  | _ => None
  end.

Fixpoint lex_from (st : lex_state) (s : string) : option (list token * bool) :=
  match s with
  | EmptyString => option_map (fun ts => (ts, false)) (lex_finish st)
  | String c s' =>
      match lex_step st c with
      | None => None
      | Some (st', ts, b) =>
          match lex_from st' s' with
          | None => None
          | Some (ts', b') => Some (ts ++ ts', b || b')
          end
      end
  end.

Definition lex (s : string) : option (list token * bool) := lex_from LNormal s.

(** ** Parsing the tokens *)

Inductive frame :=
  | FArr (items : list json)
  | FObj (fields : list (string * json)) (key : string).

Inductive pmode :=
  | PValue (empty_ok : bool)   (** a value, or []] right after [[] *)
  | PKey (empty_ok : bool)     (** a key, or [}] right after [{] *)
  | PColon
  | PSep                       (** [,] or the closing bracket *)
  | PDone (v : json).

Record pstate := mkPState { p_stack : list frame; p_mode : pmode }.

(** A value is complete: it goes into the enclosing container, or is the
    result. *)
Definition complete (v : json) (stack : list frame) : pstate :=
  match stack with
  | [] => mkPState [] (PDone v)
  | FArr items :: r => mkPState (FArr (items ++ [v]) :: r) PSep
  | FObj fs k :: r => mkPState (FObj (fs ++ [(k, v)]) "" :: r) PSep
  end.

Definition scalar (t : token) : option json :=
  match t with
  | TStr s => Some (JString s)
  | TNum lx => Some (JNumber lx)
  | TTrue => Some (JBool true)
  | TFalse => Some (JBool false)
  | TNull => Some JNull
  | _ => None
  end.

Definition parse_step (st : pstate) (t : token) : option pstate :=
  let stack := p_stack st in
  match p_mode st, t with
  | PValue _, TLBracket => Some (mkPState (FArr [] :: stack) (PValue true))
  | PValue _, TLBrace => Some (mkPState (FObj [] "" :: stack) (PKey true))
  | PValue true, TRBracket =>
      match stack with FArr items :: r => Some (complete (JArray items) r) | _ => None end
  | PValue _, t => option_map (fun v => complete v stack) (scalar t)
  | PKey _, TStr k =>
      match stack with FObj fs _ :: r => Some (mkPState (FObj fs k :: r) PColon) | _ => None end
  | PKey true, TRBrace =>
      match stack with FObj fs _ :: r => Some (complete (JObject fs) r) | _ => None end
  | PColon, TColon => Some (mkPState stack (PValue false))
  | PSep, TComma =>
      match stack with
      | FArr _ :: _ => Some (mkPState stack (PValue false))
      | FObj _ _ :: _ => Some (mkPState stack (PKey false))
      | [] => None
      end
  | PSep, TRBracket =>
      match stack with FArr items :: r => Some (complete (JArray items) r) | _ => None end
  | PSep, TRBrace =>
      match stack with FObj fs _ :: r => Some (complete (JObject fs) r) | _ => None end
  | _, _ => None
  end.

Fixpoint parse_tokens (st : pstate) (ts : list token) : option json :=
  match ts with
  | [] => match p_mode st with PDone v => Some v | _ => None end
  | t :: ts' => match parse_step st t with Some st' => parse_tokens st' ts' | None => None end
  end.

Inductive parse_result :=
  | ParseOk (v : json)
  | ParseError                (** JSON.parse throws a SyntaxError *)
  | ParseBeyondLatin1.        (** valid, but holds a code unit above U+00FF *)

(** [JSON.parse(text)]. *)
Definition json_parse (text : string) : parse_result :=
  match lex text with
  | None => ParseError
  | Some (ts, beyond) =>
      match parse_tokens (mkPState [] (PValue false)) ts with
      | None => ParseError
      | Some v => if beyond then ParseBeyondLatin1 else ParseOk v
      end
  end.

(** [obj[key]] on a parsed object: the last member with that key. *)
Definition json_get (fs : list (string * json)) (key : string) : option json :=
  fold_left (fun acc kv => if String.eqb kv.1 key then Some kv.2 else acc) fs None.

(** ** Running the lexer over a prefix *)

Fixpoint lex_run (st : lex_state) (s : string) : option (lex_state * list token * bool) :=
  match s with
  | EmptyString => Some (st, [], false)
  | String c s' =>
      match lex_step st c with
      | None => None
      | Some (st1, ts1, b1) =>
          match lex_run st1 s' with
          | None => None
          | Some (st2, ts2, b2) => Some (st2, ts1 ++ ts2, b1 || b2)
          end
      end
  end.

Lemma lex_from_run (st : lex_state) (s t : string) :
  lex_from st (s +++ t) =
  match lex_run st s with
  | None => None
  | Some (st', ts, b) =>
      match lex_from st' t with None => None | Some (ts', b') => Some (ts ++ ts', b || b') end
  end.
Proof.
  revert st. induction s as [|c s IH]; intros st; [rewrite js_append_nil_l | rewrite js_append_cons]; simpl.
  - by destruct (lex_from st t) as [[ts b]|].
  - destruct (lex_step st c) as [[[st1 ts1] b1]|]; [|done]. rewrite IH.
    destruct (lex_run st1 s) as [[[st2 ts2] b2]|]; [|done].
    destruct (lex_from st2 t) as [[ts' b']|]; [|done]. by rewrite app_assoc, orb_assoc.
Qed.

Lemma lex_run_app (st : lex_state) (s t : string) :
  lex_run st (s +++ t) =
  match lex_run st s with
  | None => None
  | Some (st1, ts1, b1) =>
      match lex_run st1 t with None => None | Some (st2, ts2, b2) => Some (st2, ts1 ++ ts2, b1 || b2) end
  end.
Proof.
  revert st. induction s as [|c s IH]; intros st; [rewrite js_append_nil_l | rewrite js_append_cons]; simpl.
  - by destruct (lex_run st t) as [[[st2 ts2] b2]|].
  - destruct (lex_step st c) as [[[st1 ts1] b1]|]; [|done]. rewrite IH.
    destruct (lex_run st1 s) as [[[st2 ts2] b2]|]; [|done].
    destruct (lex_run st2 t) as [[[st3 ts3] b3]|]; [|done]. by rewrite app_assoc, orb_assoc.
Qed.

(** Every escaped code unit is read back as itself. *)
Lemma lex_escape_char (acc : string) (c : ascii) :
  lex_run (LString acc) (escape_char c) = Some (LString (snoc acc c), [], false).
Proof. destruct c as [[] [] [] [] [] [] [] []]; reflexivity. Qed.

Lemma lex_escape (acc s : string) : lex_run (LString acc) (escape s) = Some (LString (acc +++ s), [], false).
Proof.
  revert acc. induction s as [|c s IH]; intros acc; simpl; [by rewrite js_append_nil_r|].
  rewrite lex_run_app, lex_escape_char, IH. unfold snoc. by rewrite js_append_assoc.
Qed.

(** [JSON.parse] inverts [JSON.stringify] on the error body: for every
    message, the page parses the server's [{"error": ...}] text back to
    an object whose [error] is exactly that message. *)
Theorem json_error_roundtrip (msg : string) :
  json_parse (error_json_text msg) = ParseOk (JObject [("error", JString msg)]).
Proof.
  assert (E : error_json_text msg =
              ("{" +++ dq +++ escape "error" +++ dq +++ ":" +++ dq) +++ (escape msg +++ (dq +++ "}"))).
  { unfold error_json_text, quote. rewrite !js_append_assoc. reflexivity. }
  unfold json_parse, lex. rewrite E, lex_from_run.
  change (lex_run LNormal ("{" +++ dq +++ escape "error" +++ dq +++ ":" +++ dq))
    with (Some (LString "", [TLBrace; TStr "error"; TColon], false)).
  cbv iota beta. rewrite lex_from_run, lex_escape. reflexivity.
Qed.

(** ** Parsed values as JavaScript values *)

(** Whether a number lexeme denotes zero: every digit of its mantissa is
    [0]. *)
Fixpoint mantissa_zero (lx : string) : bool :=
  match lx with
  | EmptyString => true
  | String c s =>
      if Ascii.eqb c "e" || Ascii.eqb c "E" then true
      else if Ascii.eqb c "-" || Ascii.eqb c "." || Ascii.eqb c "0" then mantissa_zero s
      else false
  end.

(** ToBoolean. *)
Definition json_truthy (v : json) : bool :=
  match v with
  | JNull => false
  | JBool b => b
  | JNumber lx => negb (mantissa_zero lx)
  | JString s => negb (String.eqb s "")
  | JArray _ | JObject _ => true
  end.

(** Number::toString of a lexeme, for integers of at most 2^53 in size
    (which a double holds exactly and prints without exponent); [None]
    for a fraction, an exponent or a larger integer, which the model does
    not print. *)
Definition number_to_string (lx : string) : option string :=
  if str_has "." lx || str_has "e" lx || str_has "E" lx then None
  else match js_parse_int10 lx with
       | Some v => if Z.abs v <=? 2 ^ 53 then
                     Some (if v <? 0 then "-" +++ js_dec (- v) else js_dec v)
                   else None
       | None => None
       end.

(** ToString, [Array.prototype.join] for arrays (null items print as
    empty). *)
Fixpoint json_to_string (v : json) : option string :=
  match v with
  | JNull => Some "null"
  | JBool b => Some (if b then "true" else "false")
  | JNumber lx => number_to_string lx
  | JString s => Some s
  | JArray items =>
      let fix go (l : list json) : option (list string) :=
        match l with
        | [] => Some []
        | x :: xs =>
            match (match x with JNull => Some EmptyString | _ => json_to_string x end), go xs with
            | Some a, Some r => Some (a :: r)
            | _, _ => None
            end
        end in
      option_map (String.concat ",") (go items)
  | JObject _ => Some "[object Object]"
  end.
