(* ===== verification/Regex.v ===== *)
(** The regular expressions of the code, [/\.(jpe?g|png|webp|avif)$/i]
    (server.js line 16, app.js line 17) and [/\.[^.]+$/] (app.js line 227):
    their syntax, an executable backtracking matcher following the
    ECMAScript pattern semantics (alternatives left to right, greedy
    quantifiers, the empty-iteration check), a relational reference
    semantics, the equivalence of the two, [RegExp.prototype.test] and the
    first-match [String.prototype.replace]. *)
From S2P Require Import Prelude JsString.

Inductive regex :=
  | REps                        (** the empty alternative *)
  | RChar (c : ascii)           (** a pattern character *)
  | RNotChar (c : ascii)        (** [[^c]] *)
  | RSeq (r1 r2 : regex)
  | RAlt (r1 r2 : regex)        (** [r1|r2] *)
  | ROpt (r : regex)            (** [r?], greedy *)
  | RPlus (r : regex)           (** [r+], greedy *)
  | REnd.                       (** [$] without the m flag *)

(** Canonicalize (ignoreCase, no u flag) as a code: the upper-case form
    when it is one code unit, and the unit itself when a non-ASCII unit
    would map into ASCII (never in 0..255). *)
Definition canon (c : ascii) : nat :=
  let n := code c in
  if n =? 255 then 376 else if n =? 181 then 924
  else if is_lower_code n then n - 32 else n.

Section Matcher.
(** The i flag. *)
Variable ci : bool.

Definition char_eq (a b : ascii) : bool :=
  if ci then canon a =? canon b else Ascii.eqb a b.

(** Greedy iteration after the first one: each iteration must consume
    input; the fuel is the length of the input, which bounds the number
    of iterations ([star_m_spec]). *)
Fixpoint star_m (fuel : nat) (step : string -> list string) (s : string) : list string :=
  match fuel with
  | O => [s]
  | S f =>
      flat_map (fun t => if (String.length t <? String.length s)%nat then star_m f step t else [])
               (step s) ++ [s]
  end.

(** All the remainders of the input after a match of [r] at its start,
    in backtracking priority order. *)
Fixpoint rmatch (r : regex) (s : string) : list string :=
  match r with
  | REps => [s]
  | RChar c =>
      match s with String d s' => if char_eq c d then [s'] else [] | EmptyString => [] end
  | RNotChar c =>
      match s with String d s' => if char_eq c d then [] else [s'] | EmptyString => [] end
  | RSeq r1 r2 => flat_map (rmatch r2) (rmatch r1 s)
  | RAlt r1 r2 => rmatch r1 s ++ rmatch r2 s
  | ROpt r1 =>
      List.filter (fun t => (String.length t <? String.length s)%nat) (rmatch r1 s) ++ [s]
  | RPlus r1 => flat_map (fun t => star_m (String.length t) (rmatch r1) t) (rmatch r1 s)
  | REnd => match s with EmptyString => [EmptyString] | String _ _ => [] end
  end.

(** The reference semantics: [rm r s t] when [r] can match a prefix of
    [s] leaving [t]. *)
Inductive rm : regex -> string -> string -> Prop :=
  | rm_eps s : rm REps s s
  | rm_char c d s : char_eq c d = true -> rm (RChar c) (String d s) s
  | rm_not c d s : char_eq c d = false -> rm (RNotChar c) (String d s) s
  | rm_seq r1 r2 s t u : rm r1 s t -> rm r2 t u -> rm (RSeq r1 r2) s u
  | rm_alt_l r1 r2 s t : rm r1 s t -> rm (RAlt r1 r2) s t
  | rm_alt_r r1 r2 s t : rm r2 s t -> rm (RAlt r1 r2) s t
  | rm_opt_some r s t : rm r s t -> (String.length t < String.length s)%nat -> rm (ROpt r) s t
  | rm_opt_none r s : rm (ROpt r) s s
  | rm_plus r s t u : rm r s t -> rm_star r t u -> rm (RPlus r) s u
  | rm_end : rm REnd EmptyString EmptyString
with rm_star : regex -> string -> string -> Prop :=
  | rs_refl r s : rm_star r s s
  | rs_step r s t u :
      rm r s t -> (String.length t < String.length s)%nat -> rm_star r t u -> rm_star r s u.

(** Iteration is complete and sound for any fuel above the length. *)
Lemma star_m_spec (r : regex) (step : string -> list string) :
  (forall s t, In t (step s) <-> rm r s t) ->
  forall fuel s u, (String.length s <= fuel)%nat ->
    (In u (star_m fuel step s) <-> rm_star r s u).
Proof.
  intros Hstep fuel. induction fuel as [|f IH]; intros s u Hlen; simpl.
  - split.
    + intros [<- | []]. constructor.
    + intros Hs. inversion Hs; subst; [by left|]. lia.
  - rewrite in_app_iff, in_flat_map. simpl. split.
    + intros [[t [Ht Hu]] | [<- | []]]; [|constructor].
      destruct (String.length t <? String.length s)%nat eqn:E; [|done].
      bool_to_prop. apply (rs_step _ _ t); [by apply Hstep | done |].
      apply IH; [lia | done].
    + intros Hs. inversion Hs as [|? ? t ? Hr Hlt Hrest]; subst; [by right; left|].
      left. exists t. split; [by apply Hstep|].
      apply Nat.ltb_lt in Hlt as Hlt'. rewrite Hlt'. apply IH; [lia | done].
Qed.

(** The matcher computes exactly the reference semantics. *)
Theorem rmatch_spec (r : regex) : forall s t, In t (rmatch r s) <-> rm r s t.
Proof.
  induction r as [| c | c | r1 IH1 r2 IH2 | r1 IH1 r2 IH2 | r1 IH1 | r1 IH1 |];
    intros s t; simpl.
  - split; [intros [<- | []]; constructor | intros H; inversion H; by left].
  - destruct s as [|d s'].
    + split; [done | intros H; inversion H].
    + destruct (char_eq c d) eqn:E; simpl.
      * split; [intros [<- | []]; by constructor | intros H; inversion H; by left].
      * split; [done | intros H; inversion H; congruence].
  - destruct s as [|d s'].
    + split; [done | intros H; inversion H].
    + destruct (char_eq c d) eqn:E; simpl.
      * split; [done | intros H; inversion H; congruence].
      * split; [intros [<- | []]; by constructor | intros H; inversion H; by left].
  - rewrite in_flat_map. split.
    + intros [m [Hm Ht]]. apply (rm_seq _ _ _ m); [by apply IH1 | by apply IH2].
    + intros H. inversion H as [| | | ? ? ? m ? H1 H2 | | | | | |]; subst.
      exists m. split; [by apply IH1 | by apply IH2].
  - rewrite in_app_iff, IH1, IH2. split.
    + intros [H | H]; [by apply rm_alt_l | by apply rm_alt_r].
    + intros H. by inversion H; subst; [left | right].
  - rewrite in_app_iff, filter_In, IH1. simpl. split.
    + intros [[H Hl] | [<- | []]].
      * apply Nat.ltb_lt in Hl. by apply rm_opt_some.
      * apply rm_opt_none.
    + intros H. inversion H as [| | | | | | ? ? ? Hm Hl | | |]; subst.
      * left. split; [done|]. by apply Nat.ltb_lt.
      * by right; left.
  - rewrite in_flat_map. split.
    + intros [m [Hm Ht]]. apply (rm_plus _ _ m); [by apply IH1|].
      by apply (star_m_spec r1 (rmatch r1) IH1 (String.length m)).
    + intros H. inversion H as [| | | | | | | | ? ? m ? H1 H2 |]; subst.
      exists m. split; [by apply IH1|].
      by apply (star_m_spec r1 (rmatch r1) IH1 (String.length m)).
  - destruct s as [|d s'].
    + split; [intros [<- | []]; constructor | intros H; inversion H; by left].
    + split; [done | intros H; inversion H].
Qed.
End Matcher.

Section Search.
Variable ci : bool.

(** The leftmost position where [r] matches, with the remainder of the
    first (highest-priority) match there: RegExpBuiltinExec without the
    g and y flags. *)
Fixpoint search (r : regex) (s : string) {struct s} : option (string * string) :=
  match rmatch ci r s with
  | t :: _ => Some (EmptyString, t)
  | [] =>
      match s with
      | EmptyString => None
      | String c s' =>
          match search r s' with
          | Some (p, t) => Some (String c p, t)
          | None => None
          end
      end
  end.

(** [RegExp.prototype.test]. *)
Definition test (r : regex) (s : string) : bool :=
  match search r s with Some _ => true | None => false end.

(** [String.prototype.replace(regex, rep)] without the g flag and
    without [$] patterns in [rep]. *)
Definition replace_first (r : regex) (s rep : string) : string :=
  match search r s with Some (p, t) => p +++ rep +++ t | None => s end.

Lemma search_sound (r : regex) (s p t : string) :
  search r s = Some (p, t) -> exists q, s = p +++ q /\ rm ci r q t.
Proof.
  revert p t. induction s as [|c s IH]; intros p t; simpl.
  - destruct (rmatch ci r "") as [|t' ts] eqn:E; [done|].
    intros [= <- <-]. exists "". split; [done|]. apply rmatch_spec. rewrite E. by left.
  - destruct (rmatch ci r (String c s)) as [|t' ts] eqn:E.
    + destruct (search r s) as [[p' t'']|] eqn:Es; [|done]. intros [= <- <-].
      destruct (IH p' t'' eq_refl) as [q [-> Hq]]. by exists q.
    + intros [= <- <-]. exists (String c s). split; [done|].
      apply rmatch_spec. rewrite E. by left.
Qed.

(** No match starts before the reported position. *)
Lemma search_leftmost (r : regex) (s p t : string) :
  search r s = Some (p, t) ->
  forall p' q', s = p' +++ q' -> (String.length p' < String.length p)%nat ->
  rmatch ci r q' = [].
Proof.
  revert p t. induction s as [|c s IH]; intros p t Hs p' q' Heq Hlt; simpl in Hs.
  - destruct (rmatch ci r ""); [done|]. injection Hs as <- <-. simpl in Hlt. lia.
  - destruct (rmatch ci r (String c s)) as [|t' ts] eqn:E.
    + destruct (search r s) as [[p0 t0]|] eqn:Es; [|done]. injection Hs as <- <-.
      destruct p' as [|c' p'].
      * rewrite js_append_nil_l in Heq. by subst q'.
      * rewrite js_append_cons in Heq. injection Heq as <- Heq.
        apply (IH p0 t0 eq_refl p'); [done | simpl in Hlt; lia].
    + injection Hs as <- <-. simpl in Hlt. lia.
Qed.

Lemma search_none (r : regex) (s : string) :
  search r s = None -> forall p q, s = p +++ q -> rmatch ci r q = [].
Proof.
  induction s as [|c s IH]; intros Hs p q Heq; simpl in Hs.
  - destruct (rmatch ci r "") eqn:E; [|done].
    symmetry in Heq. apply js_append_eq_nil in Heq as [-> ->]. done.
  - destruct (rmatch ci r (String c s)) as [|t' ts] eqn:E; [|done].
    destruct (search r s) as [[p0 t0]|]; [done|].
    destruct p as [|c' p]; [rewrite js_append_nil_l in Heq; by subst q|].
    rewrite js_append_cons in Heq. injection Heq as <- Heq. by apply (IH eq_refl p).
Qed.

(** [test] holds exactly when some suffix of the input starts a match. *)
Theorem test_spec (r : regex) (s : string) :
  test r s = true <-> exists p q t, s = p +++ q /\ rm ci r q t.
Proof.
  unfold test. split.
  - destruct (search r s) as [[p t]|] eqn:E; [|done]. intros _.
    destruct (search_sound r s p t E) as [q [-> Hq]]. by exists p, q, t.
  - intros (p & q & t & -> & Hm). destruct (search r (p +++ q)) eqn:E; [done|].
    apply rmatch_spec in Hm. by rewrite (search_none r _ E p q eq_refl) in Hm.
Qed.
End Search.

(** ** Star-free patterns denote finite sets of words *)
Section Words.
Variable ci : bool.

(** [e] matches the word [w] character by character. *)
Fixpoint str_eq_ci (e w : string) : bool :=
  match e, w with
  | EmptyString, EmptyString => true
  | String a e', String b w' => char_eq ci b a && str_eq_ci e' w'
  | _, _ => false
  end.

Fixpoint star_free (r : regex) : bool :=
  match r with
  | REps | RChar _ => true
  | RSeq r1 r2 | RAlt r1 r2 => star_free r1 && star_free r2
  | ROpt r1 => star_free r1
  | RNotChar _ | RPlus _ | REnd => false
  end.

Fixpoint words (r : regex) : list string :=
  match r with
  | REps => [EmptyString]
  | RChar c => [String c EmptyString]
  | RSeq r1 r2 => flat_map (fun a => map (fun b => a +++ b) (words r2)) (words r1)
  | RAlt r1 r2 => words r1 ++ words r2
  | ROpt r1 => words r1 ++ [EmptyString]
  | RNotChar _ | RPlus _ | REnd => []
  end.

Lemma str_eq_ci_length (e w : string) :
  str_eq_ci e w = true -> String.length e = String.length w.
Proof.
  revert w. induction e as [|a e IH]; intros [|b w]; simpl; try done.
  intros H. bool_to_prop. f_equal. by apply IH.
Qed.

Lemma str_eq_ci_app (e1 e2 w1 w2 : string) :
  str_eq_ci e1 w1 = true -> str_eq_ci e2 w2 = true -> str_eq_ci (e1 +++ e2) (w1 +++ w2) = true.
Proof.
  revert w1. induction e1 as [|a e1 IH]; intros [|b w1]; simpl; try done.
  intros H1 H2. rewrite ?js_append_cons. simpl. bool_to_prop.
  apply andb_true_iff. split; [done | by apply IH].
Qed.

Lemma str_eq_ci_split (e w1 w2 : string) :
  str_eq_ci e (w1 +++ w2) = true ->
  exists e1 e2, e = e1 +++ e2 /\ str_eq_ci e1 w1 = true /\ str_eq_ci e2 w2 = true.
Proof.
  revert e. induction w1 as [|b w1 IH]; intros e H.
  - exists EmptyString, e. split; [done|]. split; [by destruct e|done].
  - destruct e as [|a e]; [done|]. rewrite ?js_append_cons in H. simpl in H. bool_to_prop.
    destruct (IH e H0) as (e1 & e2 & -> & H1 & H2).
    exists (String a e1), e2. split; [done|]. simpl. rewrite H, H1. done.
Qed.

Theorem rm_star_free (r : regex) :
  star_free r = true ->
  forall q t, rm ci r q t <-> exists w e, In w (words r) /\ q = e +++ t /\ str_eq_ci e w = true.
Proof.
  induction r as [| c | c | r1 IH1 r2 IH2 | r1 IH1 r2 IH2 | r1 IH1 | r1 IH1 |];
    simpl; intros Hf q t; bool_to_prop; try done.
  - split.
    + intros Hr. inversion Hr; subst. exists EmptyString, EmptyString. simpl. tauto.
    + intros (w & e & [<- | []] & -> & He). destruct e; [constructor | done].
  - split.
    + intros Hr. inversion Hr as [| ? d ? Hc | | | | | | | |]; subst.
      exists (String c ""), (String d ""). simpl. rewrite Hc. split; [by left | done].
    + intros (w & e & [<- | []] & -> & He).
      destruct e as [|d [|d' e]]; simpl in He; bool_to_prop; try done.
      by apply rm_char.
  - split.
    + intros Hr. inversion Hr as [| | | ? ? ? m ? H1 H2 | | | | | |]; subst.
      apply IH1 in H1 as (w1 & e1 & Hw1 & -> & He1); [|done].
      apply IH2 in H2 as (w2 & e2 & Hw2 & -> & He2); [|done].
      exists (w1 +++ w2), (e1 +++ e2). rewrite in_flat_map, js_append_assoc.
      split; [exists w1; split; [done | by apply in_map] | split; [done | by apply str_eq_ci_app]].
    + intros (w & e & Hw & -> & He). apply in_flat_map in Hw as (w1 & Hw1 & Hw).
      apply in_map_iff in Hw as (w2 & <- & Hw2).
      destruct (str_eq_ci_split e w1 w2 He) as (e1 & e2 & -> & He1 & He2).
      apply (rm_seq _ _ _ _ (e2 +++ t)).
      * apply IH1; [done|]. exists w1, e1. by rewrite js_append_assoc.
      * apply IH2; [done|]. by exists w2, e2.
  - split.
    + intros Hr. inversion Hr as [| | | | ? ? ? ? Hm | ? ? ? ? Hm | | | |]; subst.
      * apply IH1 in Hm as (w & e & ? & ? & ?); [|done]. exists w, e. rewrite in_app_iff. tauto.
      * apply IH2 in Hm as (w & e & ? & ? & ?); [|done]. exists w, e. rewrite in_app_iff. tauto.
    + intros (w & e & Hw & Hq & He). apply in_app_iff in Hw as [Hw | Hw].
      * apply rm_alt_l, IH1; [done|]. by exists w, e.
      * apply rm_alt_r, IH2; [done|]. by exists w, e.
  - split.
    + intros Hr. inversion Hr as [| | | | | | ? ? ? Hm Hl | | |]; subst.
      * apply IH1 in Hm as (w & e & ? & ? & ?); [|done]. exists w, e. rewrite in_app_iff. tauto.
      * exists EmptyString, EmptyString. rewrite in_app_iff. simpl. tauto.
    + intros (w & e & Hw & -> & He). destruct e as [|a e]; [apply rm_opt_none|].
      apply in_app_iff in Hw as [Hw | [<- | []]]; [|done].
      apply rm_opt_some; [apply IH1; [done | by exists w, (String a e)]|].
      rewrite js_length_append. simpl. lia.
Qed.
End Words.

(** ** Anchored patterns *)

Lemma rm_seq_end (ci : bool) (r : regex) (q t : string) :
  rm ci (RSeq r REnd) q t <-> t = EmptyString /\ rm ci r q EmptyString.
Proof.
  split.
  - intros Hr. inversion Hr as [| | | ? ? ? m ? H1 H2 | | | | | |]; subst.
    inversion H2; subst. by split.
  - intros [-> H]. apply (rm_seq _ _ _ _ EmptyString); [done | constructor].
Qed.

(** ** Case-insensitive comparison with a lower-case word *)

Definition all_chars : list ascii := map ascii_of_nat (seq 0 256).

Lemma all_chars_complete (a : ascii) : In a all_chars.
Proof.
  apply in_map_iff. exists (code a). split; [apply ascii_nat_embedding|].
  apply in_seq. pose proof (code_lt_256 a). lia.
Qed.

(** Lower-case ASCII letters, the full stop and the slash. *)
Definition plain_char (b : ascii) : bool :=
  ((97 <=? code b) && (code b <=? 122)) || (code b =? 46) || (code b =? 47).

Fixpoint plain_word (w : string) : bool :=
  match w with EmptyString => true | String b w' => plain_char b && plain_word w' end.

Lemma char_eq_plain_check :
  forallb (fun b => implb (plain_char b)
             (forallb (fun a => Bool.eqb (char_eq true b a) (Ascii.eqb (char_lower a) b)) all_chars))
          all_chars = true.
Proof. vm_compute. reflexivity. Qed.

Lemma char_eq_plain (a b : ascii) :
  plain_char b = true -> char_eq true b a = Ascii.eqb (char_lower a) b.
Proof.
  intros Hb. pose proof char_eq_plain_check as H.
  rewrite forallb_forall in H. specialize (H b (all_chars_complete b)).
  rewrite Hb in H. cbn [implb] in H. rewrite forallb_forall in H.
  apply eqb_prop, H, all_chars_complete.
Qed.

Lemma str_eq_ci_plain (e w : string) :
  plain_word w = true -> str_eq_ci true e w = String.eqb (to_lower e) w.
Proof.
  revert w. induction e as [|a e IH]; intros [|b w] Hw; try done.
  cbn [str_eq_ci plain_word to_lower] in Hw |- *. bool_to_prop. rewrite char_eq_plain, IH by done.
  destruct (Ascii.eqb_spec (char_lower a) b);
    destruct (String.eqb_spec (to_lower e) w);
    destruct (String.eqb_spec (String (char_lower a) (to_lower e)) (String b w)) as [Heq|Hne];
    simpl; try done; try (injection Heq; congruence); congruence.
Qed.

(** ** The regexes of the code *)

Fixpoint word (w : string) : regex :=
  match w with EmptyString => REps | String c w' => RSeq (RChar c) (word w') end.

(** [/\.(jpe?g|png|webp|avif)$/i] (server.js line 16, app.js line 17). *)
Definition IMG_REG : regex :=
  RSeq (RSeq (RChar ".")
             (RAlt (RSeq (RChar "j") (RSeq (RChar "p") (RSeq (ROpt (RChar "e")) (RChar "g"))))
                   (RAlt (word "png") (RAlt (word "webp") (word "avif")))))
       REnd.

Definition img_reg_test (s : string) : bool := test true IMG_REG s.

(** [/\.[^.]+$/] (app.js line 227). *)
Definition EXT_REG : regex := RSeq (RSeq (RChar ".") (RPlus (RNotChar "."))) REnd.

Definition image_suffixes : list string := [".jpeg"; ".jpg"; ".png"; ".webp"; ".avif"].

Lemma img_reg_words :
  words (RSeq (RChar ".")
              (RAlt (RSeq (RChar "j") (RSeq (RChar "p") (RSeq (ROpt (RChar "e")) (RChar "g"))))
                    (RAlt (word "png") (RAlt (word "webp") (word "avif"))))) = image_suffixes.
Proof. reflexivity. Qed.

(** [IMG_REG.test] as a suffix test. *)
Lemma img_reg_test_iff (s : string) :
  img_reg_test s = true <->
  exists p e, s = p +++ e /\ In (to_lower e) image_suffixes.
Proof.
  unfold img_reg_test. rewrite test_spec. split.
  - intros (p & q & t & -> & Hm). apply rm_seq_end in Hm as [-> Hm].
    apply rm_star_free in Hm as (w & e & Hw & -> & He); [|done].
    rewrite img_reg_words in Hw. exists p, e. rewrite js_append_nil_r. split; [done|].
    rewrite str_eq_ci_plain in He by (simpl in Hw; repeat destruct Hw as [<- | Hw]; done).
    apply String.eqb_eq in He. by subst w.
  - intros (p & e & -> & He). exists p, e, EmptyString. split; [done|].
    apply rm_seq_end. split; [done|]. apply rm_star_free; [done|].
    exists (to_lower e), e. rewrite img_reg_words, js_append_nil_r. split; [done|]. split; [done|].
    rewrite str_eq_ci_plain; [apply String.eqb_refl|].
    simpl in He. repeat destruct He as [<- | He]; done.
Qed.

(** C37: The file-name test accepts exactly the names with a suffix that is,
    in lower case, one of the five image extensions. *)
Theorem img_reg_test_spec (s : string) :
  img_reg_test s = true <->
  exists p e, s = p +++ e /\ In (to_lower e) image_suffixes.
Proof. exact (img_reg_test_iff s). Qed.

(** ** [/\.[^.]+$/]: the last extension *)

Lemma rm_star_notdot (q t : string) :
  rm_star false (RNotChar ".") q t <-> exists e, q = e +++ t /\ str_has "." e = false.
Proof.
  split.
  - intros H. remember (RNotChar ".") as r eqn:Er.
    induction H as [? s | ? s m u Hr Hl Hs IH]; subst.
    + by exists EmptyString.
    + inversion Hr as [| | ? d ? Hd | | | | | | |]; subst.
      destruct IH as [e [-> He]]; [done|]. exists (String d e). split; [done|].
      simpl. unfold char_eq in Hd. rewrite Ascii.eqb_sym in Hd. by rewrite Hd, He.
  - intros [e [-> He]]. induction e as [|d e IH]; [constructor|].
    simpl in He. apply orb_false_iff in He as [Hd He].
    apply (rs_step _ _ _ (e +++ t)).
    + apply rm_not. unfold char_eq. by rewrite Ascii.eqb_sym.
    + rewrite js_append_cons. simpl. lia.
    + by apply IH.
Qed.

Lemma rm_ext_reg (q t : string) :
  rm false EXT_REG q t <->
  t = EmptyString /\ exists e, q = "." +++ e /\ e <> EmptyString /\ str_has "." e = false.
Proof.
  unfold EXT_REG. rewrite rm_seq_end. apply and_iff_compat_l. split.
  - intros Hr. inversion Hr as [| | | ? ? ? m ? H1 H2 | | | | | |]; subst.
    inversion H1 as [| ? d ? Hd | | | | | | | |]; subst.
    inversion H2 as [| | | | | | | | ? ? m' ? H3 H4 |]; subst.
    inversion H3 as [| | ? d' ? Hd' | | | | | | |]; subst.
    apply rm_star_notdot in H4 as [e [He Hn]]. rewrite js_append_nil_r in He. subst.
    unfold char_eq in Hd. apply Ascii.eqb_eq in Hd. subst d.
    exists (String d' e). split; [done|]. split; [done|].
    simpl. unfold char_eq in Hd'. rewrite Ascii.eqb_sym in Hd'. by rewrite Hd', Hn.
  - intros (e & -> & Hne & He). destruct e as [|d e]; [done|].
    simpl in He. apply orb_false_iff in He as [Hd He].
    apply (rm_seq _ _ _ _ (String d e)); [by apply rm_char|].
    apply (rm_plus _ _ _ e).
    + apply rm_not. unfold char_eq. by rewrite Ascii.eqb_sym.
    + apply rm_star_notdot. exists e. by rewrite js_append_nil_r.
Qed.

(** [s.replace(/\.[^.]+$/, "")] removes the last dot and what follows it
    when that is a non-empty dot-free extension ... *)
Theorem replace_ext_reg_strip (p e : string) :
  e <> EmptyString -> str_has "." e = false ->
  replace_first false EXT_REG (p +++ "." +++ e) "" = p.
Proof.
  intros Hne He. unfold replace_first.
  destruct (search false EXT_REG (p +++ "." +++ e)) as [[p' t]|] eqn:Es.
  - destruct (search_sound _ _ _ _ _ Es) as [q [Hq Hm]].
    apply rm_ext_reg in Hm as [-> (e' & -> & Hne' & He')].
    destruct (last_ext_unique _ _ _ _ Hq He He') as [<- _].
    by rewrite js_append_nil_l, js_append_nil_r.
  - exfalso. assert (Hm : rm false EXT_REG ("." +++ e) EmptyString) by (apply rm_ext_reg; eauto).
    apply rmatch_spec in Hm. by rewrite (search_none _ _ _ Es p ("." +++ e) eq_refl) in Hm.
Qed.

(** ... and leaves every other string unchanged. *)
Theorem replace_ext_reg_keep (s : string) :
  (forall p e, s = p +++ "." +++ e -> e = EmptyString \/ str_has "." e = true) ->
  replace_first false EXT_REG s "" = s.
Proof.
  intros Hs. unfold replace_first.
  destruct (search false EXT_REG s) as [[p t]|] eqn:Es; [|done].
  destruct (search_sound _ _ _ _ _ Es) as [q [-> Hm]].
  apply rm_ext_reg in Hm as [-> (e & -> & Hne & He)].
  destruct (Hs p e eq_refl) as [? | ?]; congruence.
Qed.

Lemma replace_ext_reg_strip_witness : replace_first false EXT_REG ("photo" +++ "." +++ "png") "" = "photo".
Proof. apply replace_ext_reg_strip; [discriminate | reflexivity]. Defined.
