(* ===== verification/NodePath.v ===== *)
(** Node's [path.extname(p)] and [path.basename(p, ext)] (posix), as the
    handler calls them on [req.file.originalname] (server.js lines 50-53).
    busboy strips every directory part from an upload's file name
    ([Upload.busboy_basename]), so the names reaching these functions have
    no '/'; the definitions below are Node's algorithms restricted to such
    names. *)
From S2P Require Import Prelude.

(** [Some (b, a)] when [s = b +++ "." +++ a] and [a] has no dot. *)
Fixpoint split_last_dot (s : string) : option (string * string) :=
  match s with
  | EmptyString => None
  | String c s' =>
      match split_last_dot s' with
      | Some (b, a) => Some (String c b, a)
      | None => if Ascii.eqb c "." then Some (EmptyString, s') else None
      end
  end.

(** [path.extname]: from the last dot to the end, unless there is no dot,
    the dot is the first character, or the name is [".."]. *)
Definition extname (p : string) : string :=
  match split_last_dot p with
  | None => EmptyString
  | Some (b, a) =>
      if String.eqb b "" then EmptyString
      else if String.eqb p ".." then EmptyString
      else "." +++ a
  end.

(** [Some b] when [s = b +++ suf]. *)
Fixpoint strip_suffix (suf s : string) : option string :=
  if String.eqb s suf then Some EmptyString
  else match s with
       | EmptyString => None
       | String c s' => option_map (String c) (strip_suffix suf s')
       end.

(** [path.basename(p, ext)]: [p] without the suffix [ext] when [ext] is a
    non-empty proper suffix, [""] when [ext] is all of [p]. *)
Definition basename_ext (p ext : string) : string :=
  if (0 <? String.length ext)%nat && (String.length ext <=? String.length p)%nat then
    if String.eqb ext p then EmptyString
    else match strip_suffix ext p with Some b => b | None => p end
  else p.

(** ** Lemmas *)

Lemma split_last_dot_none (s : string) : split_last_dot s = None <-> str_has "." s = false.
Proof.
  induction s as [|c s IH]; simpl; [done|].
  destruct (split_last_dot s) as [[b a]|]; [split; [done|]; intros H; apply orb_false_iff in H as [_ H]; by apply IH in H|].
  destruct (Ascii.eqb c ".") eqn:E; simpl; [done|]. by rewrite <- IH.
Qed.

Lemma split_last_dot_sound (s b a : string) :
  split_last_dot s = Some (b, a) -> s = b +++ "." +++ a /\ str_has "." a = false.
Proof.
  revert b a. induction s as [|c s IH]; intros b a; simpl; [done|].
  destruct (split_last_dot s) as [[b' a']|] eqn:E.
  - intros [= <- <-]. destruct (IH b' a' eq_refl) as [-> Ha]. by split.
  - destruct (Ascii.eqb_spec c ".") as [-> |]; [|done]. intros [= <- <-].
    split; [done|]. by apply split_last_dot_none.
Qed.

Lemma split_last_dot_complete (b a : string) :
  str_has "." a = false -> split_last_dot (b +++ "." +++ a) = Some (b, a).
Proof.
  intros Ha. destruct (split_last_dot (b +++ "." +++ a)) as [[b' a']|] eqn:E.
  - apply split_last_dot_sound in E as [Heq Ha'].
    by destruct (last_ext_unique _ _ _ _ Heq Ha Ha') as [-> ->].
  - apply split_last_dot_none in E. rewrite str_has_append in E. simpl in E.
    by rewrite orb_true_r in E.
Qed.

Lemma strip_suffix_unfold (suf s : string) :
  strip_suffix suf s =
  if String.eqb s suf then Some EmptyString
  else match s with
       | EmptyString => None
       | String c s' => option_map (String c) (strip_suffix suf s')
       end.
Proof. by destruct s. Qed.

Lemma strip_suffix_app (b suf : string) : strip_suffix suf (b +++ suf) = Some b.
Proof.
  induction b as [|c b IH]; rewrite strip_suffix_unfold.
  - by rewrite js_append_nil_l, String.eqb_refl.
  - rewrite js_append_cons.
    destruct (String.eqb_spec (String c (b +++ suf)) suf) as [Heq|].
    + exfalso. apply (f_equal String.length) in Heq. simpl in Heq.
      rewrite js_length_append in Heq. lia.
    + by rewrite IH.
Qed.

(** ** [path.basename(p, path.extname(p))] *)

Lemma extname_dot (b a : string) :
  b <> EmptyString -> str_has "." a = false -> b +++ "." +++ a <> ".." ->
  extname (b +++ "." +++ a) = "." +++ a.
Proof.
  intros Hb Ha Hp. unfold extname. rewrite split_last_dot_complete by done.
  destruct (String.eqb_spec b "") as [|_]; [done|].
  by destruct (String.eqb_spec (b +++ "." +++ a) "..").
Qed.

Lemma extname_no_dot (p : string) : str_has "." p = false -> extname p = EmptyString.
Proof. intros H. unfold extname. by rewrite (proj2 (split_last_dot_none p) H). Qed.

Lemma extname_leading_dot (a : string) :
  str_has "." a = false -> extname ("." +++ a) = EmptyString.
Proof.
  intros Ha. unfold extname. pose proof (split_last_dot_complete "" a Ha) as H.
  rewrite js_append_nil_l in H. by rewrite H.
Qed.

Lemma basename_ext_empty (p : string) : basename_ext p EmptyString = p.
Proof. done. Qed.

(** A name with a non-empty stem before its last dot loses the extension. *)
Lemma basename_extname_stem (b a : string) :
  b <> EmptyString -> str_has "." a = false -> b +++ "." +++ a <> ".." ->
  basename_ext (b +++ "." +++ a) (extname (b +++ "." +++ a)) = b.
Proof.
  intros Hb Ha Hp. rewrite extname_dot by done. unfold basename_ext.
  assert (Hlen : String.length (b +++ "." +++ a) = String.length b + S (String.length a))
    by (rewrite js_length_append; done).
  assert (Hb' : (0 < String.length b)%nat) by (destruct b; [done | simpl; lia]).
  destruct ((0 <? String.length ("." +++ a)) && (String.length ("." +++ a) <=? String.length (b +++ "." +++ a)))%nat eqn:Hc.
  - destruct (String.eqb_spec ("." +++ a) (b +++ "." +++ a)) as [Heq|].
    + apply (f_equal String.length) in Heq. rewrite Hlen, js_length_append in Heq. simpl in Heq. lia.
    + by rewrite strip_suffix_app.
  - exfalso. apply andb_false_iff in Hc as [Hc | Hc].
    + apply Nat.ltb_ge in Hc. rewrite js_length_append in Hc. simpl in Hc. lia.
    + apply Nat.leb_gt in Hc. rewrite Hlen, js_length_append in Hc. simpl in Hc. lia.
Qed.

(** Names without a usable extension are kept whole. *)
Lemma basename_extname_keep (p : string) :
  extname p = EmptyString -> basename_ext p (extname p) = p.
Proof. intros ->. done. Qed.
