(* ===== verification/Codec.v ===== *)
(** The image libraries the handler delegates to, as an interface.

    sharp is a pipeline builder: [sharp(buf)] starts a description,
    [.resize(w, h, opts)] and [.webp/.avif/.jpeg/.png(opts)] record a step,
    [.toBuffer()] runs it.  The handler's work is to build the right
    description, so the description is data here ([Pipeline]), built by
    the same calls as in server.js; running it is the [Codec] class.
    sharp-ico's [sharpsToIco] encodes an icon and writes it to a path; its
    three observable outcomes are [IcoResult].  The laws of [CodecLaws]
    are what the specification promises of the codecs (magic bytes of the
    output, bounding-box geometry); [RefCodec] is an instance that
    satisfies them, so they are consistent, and [DiskFullCodec] is the
    same codec on a disk that fills up while the icon is written. *)
From S2P Require Import Prelude JsNumber.

Local Open Scope Z_scope.

(** ** Buffers *)

Abbreviation Buffer := (list Byte.byte).

#[export] Instance byte_eq_dec : EqDecision Byte.byte.
Proof.
  intros a b. destruct (decide (Byte.to_nat a = Byte.to_nat b)) as [H|H].
  - left. apply (f_equal Byte.of_nat) in H. rewrite !Byte.of_to_nat in H. by injection H.
  - right. intros ->. done.
Defined.

(** ** The pipeline description *)

(** sharp's [fit] option. *)
Inductive Fit := FitCover | FitContain | FitFill | FitInside | FitOutside.

Record ResizeOpts := mkResize {
  rz_width : Z;
  rz_height : Z;
  rz_fit : Fit;
  rz_without_enlargement : bool
}.

(** The output encoders, with the option the handler passes. *)
Inductive Encoder :=
  | EncWebp (quality : Z)
  | EncAvif (quality : Z)
  | EncJpeg (quality : Z)
  | EncPng (compression_level : Z).

Record Pipeline := mkPipeline {
  pl_input : Buffer;
  pl_resize : option ResizeOpts;
  pl_encoder : option Encoder
}.

(** [sharp(buf)]. *)
Definition sharp (input : Buffer) : Pipeline := mkPipeline input None None.

(** [pipeline.resize(w, h, {fit, withoutEnlargement})]: the last call wins. *)
Definition resize (w h : Z) (fit : Fit) (we : bool) (p : Pipeline) : Pipeline :=
  mkPipeline (pl_input p) (Some (mkResize w h fit we)) (pl_encoder p).

(** [pipeline.webp(...)] and the other output-format calls. *)
Definition encode (e : Encoder) (p : Pipeline) : Pipeline :=
  mkPipeline (pl_input p) (pl_resize p) (Some e).

(** sharp-ico: the file is written, nothing is written, or writing failed
    after the file was created. *)
Inductive IcoResult :=
  | IcoWritten (data : Buffer)
  | IcoFailed (msg : string)
  | IcoWriteFailed (msg : string) (partial : Buffer).

(** ** The codec interface *)

Class Codec := {
  (** [pipeline.toBuffer()]: the encoded bytes or the error's message. *)
  to_buffer : Pipeline -> string + Buffer;
  (** [sharpsToIco(pipelines, path, {sizes})]. *)
  sharps_to_ico : list Pipeline -> list Z -> IcoResult;
  (** The dimensions a decoder reads from a buffer. *)
  image_dims : Buffer -> option (Z * Z)
}.

(** ** Formats by their magic bytes *)

Inductive ImgFormat := FmtWebp | FmtAvif | FmtJpeg | FmtPng | FmtIco.

#[export] Instance img_format_eq_dec : EqDecision ImgFormat.
Proof. solve_decision. Defined.

Definition b (n : nat) : Byte.byte := match Byte.of_nat n with Some x => x | None => Byte.x00 end.

Definition magic_jpeg : Buffer := [b 255; b 216; b 255].
Definition magic_png : Buffer := [b 137; b 80; b 78; b 71; b 13; b 10; b 26; b 10].
Definition magic_ico : Buffer := [b 0; b 0; b 1; b 0].
Definition riff : Buffer := [b 82; b 73; b 70; b 70].
Definition webp_tag : Buffer := [b 87; b 69; b 66; b 80].
Definition ftyp_avif : Buffer := [b 102; b 116; b 121; b 112; b 97; b 118; b 105; b 102].

(** Sniff a format: RIFF....WEBP, ....ftypavif, FF D8 FF, the PNG
    signature, the ICO header. *)
Definition sniff (buf : Buffer) : option ImgFormat :=
  if decide (take 4 buf = riff /\ take 4 (drop 8 buf) = webp_tag) then Some FmtWebp
  else if decide (take 8 (drop 4 buf) = ftyp_avif) then Some FmtAvif
  else if decide (take 3 buf = magic_jpeg) then Some FmtJpeg
  else if decide (take 8 buf = magic_png) then Some FmtPng
  else if decide (take 4 buf = magic_ico) then Some FmtIco
  else None.

Definition encoder_format (e : Encoder) : ImgFormat :=
  match e with
  | EncWebp _ => FmtWebp
  | EncAvif _ => FmtAvif
  | EncJpeg _ => FmtJpeg
  | EncPng _ => FmtPng
  end.

(** ** Bounding-box geometry of [resize(w, h, {fit: "inside"})]

    The image is scaled by [min(w/W, h/H)] (not above 1 with
    [withoutEnlargement]), the binding side gets the box size exactly and
    the other side is rounded, never below one pixel. *)
Definition fit_inside_dims (w h : Z) (we : bool) (d : Z * Z) : Z * Z :=
  let '(W, H) := d in
  if we && (W <=? w) && (H <=? h) then (W, H)
  else if H * w <=? W * h then (w, Z.max 1 (js_round_div (H * w) W))
  else (Z.max 1 (js_round_div (W * h) H), h).

(** The dimensions a pipeline's resize step promises; no promise for the
    fits the code does not use. *)
Definition expected_dims (o : option ResizeOpts) (d : Z * Z) : option (Z * Z) :=
  match o with
  | None => Some d
  | Some r =>
      match rz_fit r with
      | FitInside => Some (fit_inside_dims (rz_width r) (rz_height r) (rz_without_enlargement r) d)
      | _ => None
      end
  end.

Lemma js_round_div_spec (n d : Z) :
  0 < d -> 2 * d * js_round_div n d <= 2 * n + d < 2 * d * js_round_div n d + 2 * d.
Proof.
  intros Hd. unfold js_round_div.
  pose proof (Z.div_mod (2 * n + d) (2 * d) ltac:(lia)).
  pose proof (Z.mod_pos_bound (2 * n + d) (2 * d) ltac:(lia)). lia.
Qed.

Section FitInside.
Context (W H m : Z) (HW : 1 <= W) (HH : 1 <= H) (Hm : 1 <= m).

(** The output fits the [m x m] box, is no larger than the source and
    has at least one pixel on each side. *)
Lemma fit_inside_bounded :
  let '(w', h') := fit_inside_dims m m true (W, H) in
  1 <= w' <= Z.min m W /\ 1 <= h' <= Z.min m H.
Proof.
  unfold fit_inside_dims. case_tests; simpl in *.
  - lia.
  - pose proof (js_round_div_spec (H * m) W ltac:(lia)). nia.
  - pose proof (js_round_div_spec (W * m) H ltac:(lia)). nia.
Qed.

(** The aspect ratio is kept up to the rounding of one side:
    [|w' H - h' W| <= max W H]. *)
Lemma fit_inside_aspect :
  let '(w', h') := fit_inside_dims m m true (W, H) in
  Z.abs (w' * H - h' * W) <= Z.max W H.
Proof.
  unfold fit_inside_dims. case_tests; simpl in *.
  - rewrite Z.mul_comm. lia.
  - pose proof (js_round_div_spec (H * m) W ltac:(lia)). nia.
  - pose proof (js_round_div_spec (W * m) H ltac:(lia)). nia.
Qed.

(** An image that already fits is not resized. *)
Lemma fit_inside_small : W <= m -> H <= m -> fit_inside_dims m m true (W, H) = (W, H).
Proof. intros. unfold fit_inside_dims. case_tests; simpl in *; [done | lia..]. Qed.

(** Otherwise its larger side becomes exactly [m]. *)
Lemma fit_inside_large :
  m < Z.max W H -> Z.max (fit_inside_dims m m true (W, H)).1 (fit_inside_dims m m true (W, H)).2 = m.
Proof.
  intros Hl. pose proof fit_inside_bounded as Hb. unfold fit_inside_dims in *.
  case_tests; simpl in *; lia.
Qed.
End FitInside.

(** ** What the handler relies on *)

Class CodecLaws `{Codec} := {
  (** The bytes [toBuffer] produces carry the magic of the chosen encoder. *)
  to_buffer_format : forall p e out,
    pl_encoder p = Some e -> to_buffer p = inr out -> sniff out = Some (encoder_format e);
  (** Their dimensions are the input's after the resize step. *)
  to_buffer_dims : forall p out d d',
    to_buffer p = inr out -> image_dims (pl_input p) = Some d ->
    expected_dims (pl_resize p) d = Some d' -> image_dims out = Some d';
  (** An icon written by sharp-ico is an ICO container. *)
  ico_format : forall ps sizes data,
    sharps_to_ico ps sizes = IcoWritten data -> sniff data = Some FmtIco
}.

(** ** A reference codec

    Images are a 16-byte header naming the format followed by the width
    and the height on two bytes each. *)
Module RefCodec.
Definition header (f : ImgFormat) : Buffer :=
  match f with
  | FmtWebp => riff ++ [b 0; b 0; b 0; b 0] ++ webp_tag ++ [b 0; b 0; b 0; b 0]
  | FmtAvif => [b 0; b 0; b 0; b 28] ++ ftyp_avif ++ [b 0; b 0; b 0; b 0]
  | FmtJpeg => magic_jpeg ++ replicate 13 (b 0)
  | FmtPng => magic_png ++ replicate 8 (b 0)
  | FmtIco => magic_ico ++ replicate 12 (b 0)
  end.

Definition in_range (d : Z * Z) : bool :=
  (0 <=? d.1) && (d.1 <? 65536) && (0 <=? d.2) && (d.2 <? 65536).

Definition z2 (n : Z) : Buffer := [b (Z.to_nat (n / 256)); b (Z.to_nat (n mod 256))].

Definition image (f : ImgFormat) (d : Z * Z) : Buffer := header f ++ z2 d.1 ++ z2 d.2.

Definition read2 (x y : Byte.byte) : Z := 256 * Z.of_nat (Byte.to_nat x) + Z.of_nat (Byte.to_nat y).

Definition dims (buf : Buffer) : option (Z * Z) :=
  match sniff buf, drop 16 buf with
  | Some _, [w1; w2; h1; h2] => Some (read2 w1 w2, read2 h1 h2)
  | _, _ => None
  end.

Definition unsupported : string := "Input buffer contains unsupported image format".

Definition run (p : Pipeline) : string + Buffer :=
  match sniff (pl_input p), dims (pl_input p) with
  | Some f, Some d =>
      let d' := match expected_dims (pl_resize p) d with Some d' => d' | None => d end in
      if in_range d' then
        inr (image (match pl_encoder p with Some e => encoder_format e | None => f end) d')
      else inl "Processed image is too large"
  | _, _ => inl unsupported
  end.

Definition ico (ps : list Pipeline) (sizes : list Z) : IcoResult :=
  match ps with
  | [p] => match dims (pl_input p) with
           | Some _ => IcoWritten (image FmtIco (256, 256))
           | None => IcoFailed unsupported
           end
  | _ => IcoFailed unsupported
  end.

#[export] Instance ref_codec : Codec := {| to_buffer := run; sharps_to_ico := ico; image_dims := dims |}.

Lemma b_to_nat (n : nat) : (n < 256)%nat -> Byte.to_nat (b n) = n.
Proof.
  intros Hn. unfold b. destruct (Byte.of_nat n) as [x|] eqn:E.
  - by apply Byte.to_of_nat.
  - pose proof (Byte.to_of_nat_option_map n) as H. rewrite E in H. simpl in H.
    destruct (Nat.leb_spec n 255); [done | lia].
Qed.

Lemma read2_z2 (n : Z) : 0 <= n < 65536 -> read2 (b (Z.to_nat (n / 256))) (b (Z.to_nat (n mod 256))) = n.
Proof.
  intros Hn. unfold read2.
  pose proof (Z.div_mod n 256 ltac:(lia)). pose proof (Z.mod_pos_bound n 256 ltac:(lia)).
  assert (0 <= n / 256 < 256) by (split; [apply Z.div_pos | apply Z.div_lt_upper_bound]; lia).
  rewrite !b_to_nat by lia. rewrite !Z2Nat.id by lia. lia.
Qed.

Lemma sniff_image (f : ImgFormat) (d : Z * Z) : sniff (image f d) = Some f.
Proof. by destruct f. Qed.

Lemma dims_image (f : ImgFormat) (d : Z * Z) : in_range d = true -> dims (image f d) = Some d.
Proof.
  intros Hd. unfold dims. rewrite sniff_image. unfold in_range in Hd. bool_to_prop.
  destruct d as [w h]; simpl in *.
  assert (Hdrop : drop 16 (image f (w, h)) = z2 w ++ z2 h) by (by destruct f).
  rewrite Hdrop. simpl. rewrite !read2_z2 by lia. done.
Qed.

#[export] Instance ref_codec_laws : CodecLaws.
Proof.
  split; simpl.
  - intros p e out He. unfold run. rewrite He.
    destruct (sniff (pl_input p)), (dims (pl_input p)) as [d|]; try done.
    destruct (in_range _); [|done]. intros [= <-]. apply sniff_image.
  - intros p out d d' Hrun Hd Hexp. unfold run in Hrun. rewrite Hd, Hexp in Hrun.
    destruct (sniff (pl_input p)); [|done].
    destruct (in_range d') eqn:Hr; [|done]. injection Hrun as <-. by apply dims_image.
  - intros ps sizes data. unfold ico. destruct ps as [|p [|]]; try done.
    destruct (dims (pl_input p)); [|done]. intros [= <-]. apply sniff_image.
Qed.
End RefCodec.

(** A codec on a full disk: the reference encoders, but sharp-ico's write
    stream fails with [ENOSPC] after the first bytes of the icon have
    reached the temporary file. *)
Module DiskFullCodec.
Definition enospc : string := "ENOSPC: no space left on device, write".

Definition ico (ps : list Pipeline) (sizes : list Z) : IcoResult :=
  match RefCodec.ico ps sizes with
  | IcoWritten data => IcoWriteFailed enospc (take 6 data)
  | r => r
  end.

#[export] Instance disk_full_codec : Codec :=
  {| to_buffer := RefCodec.run; sharps_to_ico := ico; image_dims := RefCodec.dims |}.
End DiskFullCodec.
