(* ===== verification/Express.v ===== *)
(** The effects of a request handler: Express's response object, the
    file system the ICO path writes to, and the server log, threaded
    through a state-and-exception monad [M].  A JavaScript [throw] (or a
    rejected [await]) is [Throw msg], carrying the error's [message]. *)
From stdpp Require Import gmap.
From S2P Require Import Prelude JsString Codec.

Local Open Scope Z_scope.

(** ** The response *)

(** A sent body: bytes ([res.send(buffer)]) or the JSON object
    [{ error: msg }] ([res.json]); JSON.stringify/JSON.parse round-trip
    strings exactly, so the object is kept structured. *)
Inductive Body :=
  | BodyBytes (buf : Buffer)
  | BodyJsonError (msg : string).

Record Response := mkResponse {
  res_status : Z;
  res_headers : list (string * string);   (** lower-case names, in order of first setting *)
  res_body : option Body                  (** [None] until sent *)
}.

Definition fresh_response : Response := mkResponse 200 [] None.

Fixpoint header_lookup (name : string) (hs : list (string * string)) : option string :=
  match hs with
  | [] => None
  | (n, v) :: hs' => if String.eqb n name then Some v else header_lookup name hs'
  end.

Fixpoint header_store (name v : string) (hs : list (string * string)) : list (string * string) :=
  match hs with
  | [] => [(name, v)]
  | (n, v') :: hs' => if String.eqb n name then (n, v) :: hs' else (n, v') :: header_store name v hs'
  end.

(** Node's [checkInvalidHeaderChar]: [/[^\t\x20-\x7e\x80-\xff]/]. *)
Definition valid_header_char (c : ascii) : bool :=
  let n := code c in (n =? 9)%nat || ((32 <=? n) && (n <=? 126))%nat || ((128 <=? n) && (n <=? 255))%nat.

Fixpoint valid_header_value (s : string) : bool :=
  match s with
  | EmptyString => true
  | String c s' => valid_header_char c && valid_header_value s'
  end.

(** The [ERR_INVALID_CHAR] message of [setHeader]. *)
Definition invalid_char_msg (name : string) : string :=
  "Invalid character in header content [" +++ dq +++ name +++ dq +++ "]".

(** ** The world and the monad *)

Record World := mkWorld {
  w_res : Response;
  w_fs : gmap string Buffer;
  w_log : list string
}.

Inductive Outcome (A : Type) :=
  | Ret (a : A)
  | Throw (msg : string).
Arguments Ret {A} a.
Arguments Throw {A} msg.

Definition M (A : Type) : Type := World -> Outcome A * World.

Definition m_ret {A} (a : A) : M A := fun w => (Ret a, w).
Definition m_throw {A} (msg : string) : M A := fun w => (Throw msg, w).

Definition m_bind {A B} (m : M A) (k : A -> M B) : M B :=
  fun w => match m w with
           | (Ret a, w') => k a w'
           | (Throw e, w') => (Throw e, w')
           end.

(** [try { m } catch (err) { h(err.message) }]: effects of [m] before the
    throw are kept. *)
Definition m_catch {A} (m : M A) (h : string -> M A) : M A :=
  fun w => match m w with
           | (Ret a, w') => (Ret a, w')
           | (Throw e, w') => h e w'
           end.

Declare Scope m_scope.
Delimit Scope m_scope with M.
Notation "x <- m ;; k" := (m_bind m (fun x => k)) (at level 100, m at next level, right associativity) : m_scope.
Notation "m ;; k" := (m_bind m (fun _ => k)) (at level 100, right associativity) : m_scope.
Open Scope m_scope.

Definition modify_res (f : Response -> Response) : M unit :=
  fun w => (Ret tt, mkWorld (f (w_res w)) (w_fs w) (w_log w)).

Definition get_res : M Response := fun w => (Ret (w_res w), w).

(** [console.error(err)]. *)
Definition log_error (msg : string) : M unit :=
  fun w => (Ret tt, mkWorld (w_res w) (w_fs w) (w_log w ++ [msg])).

(** ** Response operations *)

(** [res.status(code)]. *)
Definition res_set_status (code : Z) : M unit :=
  modify_res (fun r => mkResponse code (res_headers r) (res_body r)).

(** [res.setHeader(name, value)]. *)
Definition set_header (name value : string) : M unit :=
  if valid_header_value value then
    modify_res (fun r => mkResponse (res_status r) (header_store (to_lower name) value (res_headers r)) (res_body r))
  else m_throw (invalid_char_msg name).

(** Express sets a default type only when none is set; [send] of a string
    adds the charset. *)
Definition set_default_type (t : string) : M unit :=
  r <- get_res ;;
  match header_lookup "content-type" (res_headers r) with
  | Some _ => m_ret tt
  | None => set_header "Content-Type" t
  end.

(** [res.json({ error: msg })]. *)
Definition res_json_error (msg : string) : M unit :=
  set_default_type "application/json" ;;
  r <- get_res ;;
  let ct := match header_lookup "content-type" (res_headers r) with Some t => t | None => "" end in
  set_header "Content-Type" (ct +++ "; charset=utf-8") ;;
  modify_res (fun r => mkResponse (res_status r) (res_headers r) (Some (BodyJsonError msg))).

(** [res.status(code).json({ error: msg })]. *)
Definition send_error (code : Z) (msg : string) : M unit :=
  res_set_status code ;; res_json_error msg.

(** [res.send(buffer)]. *)
Definition res_send_buffer (buf : Buffer) : M unit :=
  set_default_type "application/octet-stream" ;;
  modify_res (fun r => mkResponse (res_status r) (res_headers r) (Some (BodyBytes buf))).

(** ** File system ([fs.promises]) *)

Definition enoent (op path : string) : string :=
  "ENOENT: no such file or directory, " +++ op +++ " '" +++ path +++ "'".

(** [fs.readFile(path)]. *)
Definition fs_read (path : string) : M Buffer :=
  fun w => match w_fs w !! path with
           | Some data => (Ret data, w)
           | None => (Throw (enoent "open" path), w)
           end.

(** [fs.unlink(path)]. *)
Definition fs_unlink (path : string) : M unit :=
  fun w => match w_fs w !! path with
           | Some _ => (Ret tt, mkWorld (w_res w) (delete path (w_fs w)) (w_log w))
           | None => (Throw (enoent "unlink" path), w)
           end.

Definition fs_write (path : string) (data : Buffer) : M unit :=
  fun w => (Ret tt, mkWorld (w_res w) (<[path := data]> (w_fs w)) (w_log w)).

(** ** Running the response operations *)

Definition json_error_response (code : Z) (msg : string) : Response :=
  mkResponse code [("content-type", "application/json; charset=utf-8")] (Some (BodyJsonError msg)).

(** [res.status(code).json(...)] on a response nothing was done to. *)
Lemma send_error_fresh (code : Z) (msg : string) (w : World) :
  w_res w = fresh_response ->
  send_error code msg w = (Ret tt, mkWorld (json_error_response code msg) (w_fs w) (w_log w)).
Proof. destruct w as [r fs log]; simpl; intros ->. reflexivity. Qed.

(** Every stored header value passed Node's check. *)
Definition headers_ok (r : Response) : Prop :=
  Forall (fun hv => valid_header_value hv.2 = true) (res_headers r).

Lemma valid_header_value_append (a c : string) :
  valid_header_value a = true -> valid_header_value c = true -> valid_header_value (a +++ c) = true.
Proof.
  induction a as [|x a IH]; [done|]. rewrite js_append_cons. simpl. intros Ha Hc.
  bool_to_prop. rewrite H. by apply IH.
Qed.

Lemma header_lookup_ok (n t : string) (hs : list (string * string)) :
  Forall (fun hv => valid_header_value hv.2 = true) hs -> header_lookup n hs = Some t ->
  valid_header_value t = true.
Proof.
  induction hs as [|[n' v] hs IH]; simpl; [done|]. intros Hv. inversion Hv as [|? ? Hx Hrest]; subst.
  simpl in Hx. destruct (String.eqb n' n); [intros [= <-]; done | auto].
Qed.

Lemma header_store_ok (n v : string) (hs : list (string * string)) :
  Forall (fun hv => valid_header_value hv.2 = true) hs -> valid_header_value v = true ->
  Forall (fun hv => valid_header_value hv.2 = true) (header_store n v hs).
Proof.
  induction hs as [|[n' v'] hs IH]; simpl; intros Hv Hvv; [by repeat constructor|].
  inversion Hv; subst. destruct (String.eqb n' n); constructor; auto.
Qed.

Lemma set_header_run (n v : string) (w : World) :
  valid_header_value v = true ->
  set_header n v w =
  (Ret tt, mkWorld (mkResponse (res_status (w_res w)) (header_store (to_lower n) v (res_headers (w_res w)))
                               (res_body (w_res w))) (w_fs w) (w_log w)).
Proof. intros Hv. unfold set_header. by rewrite Hv. Qed.

Lemma m_bind_run {A B} (m : M A) (k : A -> M B) (w : World) (a : A) (w' : World) :
  m w = (Ret a, w') -> m_bind m k w = k a w'.
Proof. intros E. unfold m_bind. by rewrite E. Qed.

Lemma m_bind_throw {A B} (m : M A) (k : A -> M B) (w : World) (e : string) (w' : World) :
  m w = (Throw e, w') -> m_bind m k w = (Throw e, w').
Proof. intros E. unfold m_bind. by rewrite E. Qed.

Lemma m_catch_run {A} (m : M A) (h : string -> M A) (w : World) (a : A) (w' : World) :
  m w = (Ret a, w') -> m_catch m h w = (Ret a, w').
Proof. intros E. unfold m_catch. by rewrite E. Qed.

Lemma m_catch_eq {A} (m m' : M A) (h : string -> M A) (w w' : World) :
  m w = m' w' -> m_catch m h w = m_catch m' h w'.
Proof. intros E. unfold m_catch. by rewrite E. Qed.

Lemma m_catch_bind_run {A B} (m : M A) (k : A -> M B) (h : string -> M B) (w : World) (a : A) (w' : World) :
  m w = (Ret a, w') -> m_catch (m_bind m k) h w = m_catch (k a) h w'.
Proof. intros E. unfold m_catch, m_bind. by rewrite E. Qed.

Lemma m_catch_throw {A} (m : M A) (h : string -> M A) (w : World) (e : string) (w' : World) :
  m w = (Throw e, w') -> m_catch m h w = h e w'.
Proof. intros E. unfold m_catch. by rewrite E. Qed.

Lemma header_lookup_store (n v : string) (hs : list (string * string)) :
  is_Some (header_lookup n (header_store n v hs)).
Proof.
  induction hs as [|[n' v'] hs IH]; simpl; [by rewrite String.eqb_refl; eexists|].
  destruct (String.eqb n' n) eqn:E; simpl; rewrite E; [by eexists | done].
Qed.

Lemma header_lookup_store_eq (n v : string) (hs : list (string * string)) :
  header_lookup n (header_store n v hs) = Some v.
Proof.
  induction hs as [|[n' v'] hs IH]; simpl; [by rewrite String.eqb_refl|].
  destruct (String.eqb n' n) eqn:E; simpl; rewrite E; done.
Qed.

(** The type a response ends up with after [set_default_type t]. *)
Definition type_or (t : string) (hs : list (string * string)) : string :=
  match header_lookup "content-type" hs with Some c => c | None => t end.

Lemma set_default_type_ok (t : string) (w : World) :
  headers_ok (w_res w) -> valid_header_value t = true ->
  exists hs, set_default_type t w =
    (Ret tt, mkWorld (mkResponse (res_status (w_res w)) hs (res_body (w_res w))) (w_fs w) (w_log w)) /\
    Forall (fun hv => valid_header_value hv.2 = true) hs /\
    header_lookup "content-type" hs = Some (type_or t (res_headers (w_res w))).
Proof.
  destruct w as [[st hs body] fs log]; unfold headers_ok, type_or; simpl. intros Hv Ht.
  unfold set_default_type. erewrite m_bind_run by reflexivity. cbn beta iota.
  cbn [w_res res_headers]. destruct (header_lookup "content-type" hs) as [c|] eqn:Hc.
  - exists hs. split; [done|]. split; [done|]. by rewrite Hc.
  - rewrite set_header_run by done. eexists. split; [reflexivity|].
    cbn [w_res res_headers]. split; [by apply header_store_ok|].
    change (to_lower "Content-Type") with "content-type". apply header_lookup_store_eq.
Qed.

(** [res.json] keeps a type already set and adds the charset. *)
Lemma res_json_error_ok (msg : string) (w : World) :
  headers_ok (w_res w) ->
  exists hs, res_json_error msg w =
    (Ret tt, mkWorld (mkResponse (res_status (w_res w)) hs (Some (BodyJsonError msg))) (w_fs w) (w_log w)) /\
    Forall (fun hv => valid_header_value hv.2 = true) hs /\
    header_lookup "content-type" hs = Some (type_or "application/json" (res_headers (w_res w)) +++ "; charset=utf-8").
Proof.
  intros Hv. unfold res_json_error.
  destruct (set_default_type_ok "application/json" w Hv eq_refl) as (hs1 & E1 & Hv1 & Hct).
  rewrite (m_bind_run _ _ _ _ _ E1). erewrite m_bind_run by reflexivity. cbn beta iota.
  cbn [w_res res_headers]. rewrite Hct.
  assert (Hvct : valid_header_value (type_or "application/json" (res_headers (w_res w)) +++ "; charset=utf-8") = true).
  { apply valid_header_value_append; [|done]. by apply (header_lookup_ok "content-type" _ hs1). }
  rewrite (m_bind_run _ _ _ tt _ (set_header_run _ _ _ Hvct)).
  eexists. split; [reflexivity|]. split; [by apply header_store_ok|].
  change (to_lower "Content-Type") with "content-type". apply header_lookup_store_eq.
Qed.

(** [res.status(code).json(...)] answers whatever valid headers were set
    before: it never throws. *)
Lemma send_error_answers (code : Z) (msg : string) (w : World) :
  headers_ok (w_res w) ->
  exists hs, send_error code msg w =
    (Ret tt, mkWorld (mkResponse code hs (Some (BodyJsonError msg))) (w_fs w) (w_log w)) /\
    Forall (fun hv => valid_header_value hv.2 = true) hs /\
    header_lookup "content-type" hs = Some (type_or "application/json" (res_headers (w_res w)) +++ "; charset=utf-8").
Proof.
  intros Hv. unfold send_error. erewrite m_bind_run by reflexivity. cbv beta.
  destruct (res_json_error_ok msg (mkWorld (mkResponse code (res_headers (w_res w)) (res_body (w_res w)))
                                          (w_fs w) (w_log w)) Hv) as (hs & E & Hhs & Hct).
  exists hs. split; [|done]. rewrite E. reflexivity.
Qed.
