(* ===== verification/Convert.v ===== *)
(** The [POST /api/convert] handler of [src/server.js] (lines 26-122),
    statement by statement: validation of [format], [quality] and
    [maxWidth], the output name, the sharp pipeline with its encoder and
    the PNG compression level, the ICO path through a temporary file, the
    response headers, and the [catch] that turns any exception into a 500.
    The handler is generic in the codec ([Codec]); its theorems that talk
    about output bytes assume the codec's laws ([CodecLaws]).  The file
    also holds the handler's pure contract with the refinement theorem,
    the properties derived from it, and sample requests. *)
From stdpp Require Import gmap.
From S2P Require Import Prelude JsString JsNumber NodePath Codec Express.

Local Open Scope Z_scope.

(** ** The request as the handler sees it *)

(** [req.file], filled by multer's memory storage. *)
Record UploadedFile := mkFile {
  originalname : string;
  size : Z;
  buffer : Buffer
}.

Record Request := mkRequest {
  req_file : option UploadedFile;
  req_body : gmap string JsVal
}.

(** [req.body.<name>]. *)
Definition body_field (req : Request) (name : string) : JsVal :=
  match req_body req !! name with Some v => v | None => JUndefined end.

(** What the handler reads from its environment: [os.tmpdir()],
    [Date.now()] and [Math.random().toString(36).slice(2)]. *)
Record Env := mkEnv {
  env_tmpdir : string;
  env_now : Z;
  env_rand : string
}.

(** ** Validation (lines 28-48) *)

Definition no_image_msg : string := "Aucune image fournie.".
Definition invalid_format_msg : string := "Format invalide. Choisissez webp, avif, jpg, png ou ico.".
Definition conversion_error_msg : string := "Erreur lors de la conversion.".

Definition valid_formats : list string := ["webp"; "avif"; "jpg"; "png"; "ico"].

(** V8's TypeError when the field is an array (a repeated form field). *)
Definition to_lower_type_error : string :=
  "(req.body.format || " +++ dq +++ "webp" +++ dq +++ ").toLowerCase is not a function".

(** Line 32: [(req.body.format || "webp").toLowerCase()]. *)
Definition read_format (v : JsVal) : M string :=
  match js_or v (JStr "webp") with
  | JStr s => m_ret (to_lower s)
  | _ => m_throw to_lower_type_error
  end.

(** Lines 41-42: [parseInt(req.body.quality, 10)], replaced by 80 when
    NaN or outside [1, 100]. *)
Definition resolve_quality (v : JsVal) : Z :=
  match js_parse_int10 (js_to_string v) with
  | Some q => if (q <? 1) || (q >? 100) then 80 else q
  | None => 80
  end.

(** Lines 44-46: [null] ([None]) when the field is falsy, otherwise the
    result of [parseInt] ([Some None] is NaN). *)
Definition parse_max_width (v : JsVal) : option (option Z) :=
  if js_truthy v then Some (js_parse_int10 (js_to_string v)) else None.

(** Lines 47-48: [Number.isInteger(maxWidth) && maxWidth > 0 && maxWidth <= 8000]. *)
Definition valid_max_width (mw : option (option Z)) : bool :=
  match mw with
  | Some (Some n) => (n >? 0) && (n <=? 8000)
  | _ => false
  end.

(** The number passed to [resize] (only read when valid). *)
Definition max_width_num (mw : option (option Z)) : Z :=
  match mw with Some (Some n) => n | _ => 0 end.

(** ** Output name (lines 50-55) *)

Definition out_base (name : string) : string := basename_ext name (extname name).

Definition out_ext (format : string) : string := if String.eqb format "ico" then "ico" else format.

Definition out_name (name format : string) : string := out_base name +++ "." +++ out_ext format.

Definition content_disposition (name : string) : string :=
  "attachment; filename=" +++ dq +++ name +++ dq.

(** ** The pipeline *)

(** Lines 59-64 and 86-91. *)
Definition apply_max_width (mw : option (option Z)) (valid : bool) (p : Pipeline) : Pipeline :=
  if valid then resize (max_width_num mw) (max_width_num mw) FitInside true p else p.

(** Line 100: [Math.round(9 - ((quality - 5) / 95) * 9)], i.e. the
    rounding of [(900 - 9 q) / 95]. *)
Definition png_compression_level (quality : Z) : Z := js_round_div (900 - 9 * quality) 95.

(** Lines 93-104. *)
Definition encoder_for (format : string) (quality : Z) : Encoder :=
  if String.eqb format "webp" then EncWebp quality
  else if String.eqb format "avif" then EncAvif quality
  else if String.eqb format "jpg" then EncJpeg quality
  else EncPng (Z.max 0 (Z.min 9 (png_compression_level quality))).

(** Lines 108-113. *)
Definition mime_table : list (string * string) :=
  [("webp", "image/webp"); ("avif", "image/avif"); ("jpg", "image/jpeg"); ("png", "image/png")].

Definition mime_of (format : string) : option string :=
  option_map snd (List.find (fun kv => String.eqb kv.1 format) mime_table).

(** Node's [ERR_HTTP_INVALID_HEADER_VALUE] for [setHeader(name, undefined)]. *)
Definition invalid_value_msg (name : string) : string :=
  "Invalid value " +++ dq +++ "undefined" +++ dq +++ " for header " +++ dq +++ name +++ dq.

(** ** The ICO path (lines 57-82) *)

Definition ICO_SIZES : list Z := [256; 128; 64; 48; 32; 24; 16].

(** Lines 65-70: [path.join(os.tmpdir(), `convert-ico-${Date.now()}-${rnd}.ico`)]. *)
Definition ico_tmp_path (env : Env) : string :=
  env_tmpdir env +++ "/convert-ico-" +++ js_dec (env_now env) +++ "-" +++ env_rand env +++ ".ico".

Section Handler.
Context `{Codec}.

(** [await ico.sharpsToIco(pipelines, path, { sizes })]. *)
Definition run_sharps_to_ico (ps : list Pipeline) (path : string) (sizes : list Z) : M unit :=
  match sharps_to_ico ps sizes with
  | IcoWritten data => fs_write path data
  | IcoFailed msg => m_throw msg
  | IcoWriteFailed msg partial => fs_write path partial ;; m_throw msg
  end.

(** [await pipeline.toBuffer()]. *)
Definition run_to_buffer (p : Pipeline) : M Buffer :=
  match to_buffer p with inr buf => m_ret buf | inl msg => m_throw msg end.

Definition ico_branch (env : Env) (file : UploadedFile) (mw : option (option Z)) (valid : bool)
    (outName : string) : M unit :=
  let pipeline := apply_max_width mw valid (sharp (buffer file)) in
  let tmpPath := ico_tmp_path env in
  run_sharps_to_ico [pipeline] tmpPath ICO_SIZES ;;
  buf <- fs_read tmpPath ;;
  m_catch (fs_unlink tmpPath) (fun _ => m_ret tt) ;;
  set_header "Content-Type" "image/x-icon" ;;
  set_header "Content-Disposition" (content_disposition outName) ;;
  res_send_buffer buf.

(** Lines 84-116. *)
Definition sharp_branch (file : UploadedFile) (format : string) (quality : Z)
    (mw : option (option Z)) (valid : bool) (outName : string) : M unit :=
  let pipeline := encode (encoder_for format quality) (apply_max_width mw valid (sharp (buffer file))) in
  buf <- run_to_buffer pipeline ;;
  match mime_of format with
  | Some mime =>
      set_header "Content-Type" mime ;;
      set_header "Content-Disposition" (content_disposition outName) ;;
      res_send_buffer buf
  | None => m_throw (invalid_value_msg "Content-Type")
  end.

(** The body of the [try] (lines 28-116). *)
Definition convert_body (env : Env) (req : Request) : M unit :=
  match req_file req with
  | None => send_error 400 no_image_msg
  | Some file =>
      format <- read_format (body_field req "format") ;;
      if negb (existsb (String.eqb format) valid_formats) then send_error 400 invalid_format_msg
      else
        let quality := resolve_quality (body_field req "quality") in
        let maxWidth := parse_max_width (body_field req "maxWidth") in
        let validMaxWidth := valid_max_width maxWidth in
        let outName := out_name (originalname file) format in
        if String.eqb format "ico" then ico_branch env file maxWidth validMaxWidth outName
        else sharp_branch file format quality maxWidth validMaxWidth outName
  end.

(** Lines 117-121: [console.error(err)] and a 500 with the message. *)
Definition convert_catch (msg : string) : M unit :=
  log_error msg ;;
  send_error 500 (if String.eqb msg "" then conversion_error_msg else msg).

(** The handler of [app.post("/api/convert", ...)]. *)
Definition convert (env : Env) (req : Request) : M unit :=
  m_catch (convert_body env req) convert_catch.
End Handler.

(** ** The handler's contract

    What a request gets, independent of the response object, the order of
    header calls, the temporary file and the log: an error with its
    status and message, or a file with its type, name and bytes; plus the
    messages written to the log. *)

Inductive Answer :=
  | AnsError (status : Z) (ctype msg : string)
  | AnsFile (mime name : string) (data : Buffer).

(** The format the handler works with: [inl] is the TypeError of line 32. *)
Definition requested_format (req : Request) : string + string :=
  match js_or (body_field req "format") (JStr "webp") with
  | JStr s => inr (to_lower s)
  | _ => inl to_lower_type_error
  end.

Definition format_ok (format : string) : bool := existsb (String.eqb format) valid_formats.

Definition error_text (msg : string) : string :=
  if String.eqb msg "" then conversion_error_msg else msg.

(** The type [res.json] sends an error with when none was set before. *)
Definition json_type : string := "application/json".

Definition fail500_as (ctype msg : string) : Answer * list string := (AnsError 500 ctype (error_text msg), [msg]).

Definition fail500 (msg : string) : Answer * list string := fail500_as json_type msg.

(** The pipeline up to the encoder, shared by both paths. *)
Definition base_pipeline (req : Request) (file : UploadedFile) : Pipeline :=
  let mw := parse_max_width (body_field req "maxWidth") in
  apply_max_width mw (valid_max_width mw) (sharp (buffer file)).

Section Contract.
Context `{Codec}.

Definition deliver (mime name : string) (data : Buffer) : Answer * list string :=
  if valid_header_value (content_disposition name) then (AnsFile mime name data, [])
  else fail500_as mime (invalid_char_msg "Content-Disposition").

Definition convert_contract (req : Request) : Answer * list string :=
  match req_file req with
  | None => (AnsError 400 json_type no_image_msg, [])
  | Some file =>
      match requested_format req with
      | inl msg => fail500 msg
      | inr format =>
          if negb (format_ok format) then (AnsError 400 json_type invalid_format_msg, [])
          else
            let name := out_name (originalname file) format in
            if String.eqb format "ico" then
              match sharps_to_ico [base_pipeline req file] ICO_SIZES with
              | IcoWritten data => deliver "image/x-icon" name data
              | IcoFailed m | IcoWriteFailed m _ => fail500 m
              end
            else
              let q := resolve_quality (body_field req "quality") in
              match to_buffer (encode (encoder_for format q) (base_pipeline req file)) with
              | inl m => fail500 m
              | inr data =>
                  match mime_of format with
                  | Some mime => deliver mime name data
                  | None => fail500 (invalid_value_msg "Content-Type")
                  end
              end
      end
  end.

(** What the request leaves in the file system: only the ICO path
    touches it. *)
Definition convert_fs (env : Env) (req : Request) (fs : gmap string Buffer) : gmap string Buffer :=
  match req_file req, requested_format req with
  | Some file, inr format =>
      if format_ok format && String.eqb format "ico" then
        match sharps_to_ico [base_pipeline req file] ICO_SIZES with
        | IcoWritten _ => delete (ico_tmp_path env) fs
        | IcoFailed _ => fs
        | IcoWriteFailed _ partial => <[ico_tmp_path env := partial]> fs
        end
      else fs
  | _, _ => fs
  end.
End Contract.

(** A response carries an answer. *)
Definition answers (r : Response) (a : Answer) : Prop :=
  match a with
  | AnsError st ct msg =>
      res_status r = st /\ header_lookup "content-type" (res_headers r) = Some (ct +++ "; charset=utf-8") /\
      res_body r = Some (BodyJsonError msg)
  | AnsFile mime name data =>
      res_status r = 200 /\
      header_lookup "content-type" (res_headers r) = Some mime /\
      header_lookup "content-disposition" (res_headers r) = Some (content_disposition name) /\
      res_body r = Some (BodyBytes data)
  end.

(** ** Running the handler *)

(** Lines 76-81 and 114-116 on an untouched response: the two headers and
    the bytes, or the throw of [setHeader] on a bad file name. *)
Lemma respond_file_run (mime name : string) (data : Buffer) (w : World) :
  w_res w = fresh_response -> valid_header_value mime = true ->
  (set_header "Content-Type" mime ;; set_header "Content-Disposition" (content_disposition name) ;;
   res_send_buffer data) w =
  if valid_header_value (content_disposition name) then
    (Ret tt, mkWorld (mkResponse 200 [("content-type", mime); ("content-disposition", content_disposition name)]
                                 (Some (BodyBytes data))) (w_fs w) (w_log w))
  else (Throw (invalid_char_msg "Content-Disposition"),
        mkWorld (mkResponse 200 [("content-type", mime)] None) (w_fs w) (w_log w)).
Proof.
  destruct w as [r fs log]; cbn [w_res w_fs w_log]; intros -> Hm.
  rewrite (m_bind_run _ _ _ tt _ (set_header_run _ _ _ Hm)).
  destruct (valid_header_value (content_disposition name)) eqn:Hc.
  - rewrite (m_bind_run _ _ _ tt _ (set_header_run _ _ _ Hc)). cbn -[content_disposition]. reflexivity.
  - unfold m_bind at 1, set_header at 1. rewrite Hc. reflexivity.
Qed.

Lemma fresh_headers_ok : headers_ok fresh_response.
Proof. constructor. Qed.

Lemma single_header_ok (n v : string) :
  valid_header_value v = true -> headers_ok (mkResponse 200 [(n, v)] None).
Proof. intros Hv. by repeat constructor. Qed.

(** The [catch] (lines 117-121) answers 500 and logs the message. *)
Lemma convert_catch_run (msg : string) (w : World) :
  headers_ok (w_res w) ->
  exists r', convert_catch msg w = (Ret tt, mkWorld r' (w_fs w) (w_log w ++ [msg])) /\
             answers r' (AnsError 500 (type_or json_type (res_headers (w_res w))) (error_text msg)).
Proof.
  intros Hv. unfold convert_catch. erewrite m_bind_run by reflexivity.
  destruct (send_error_answers 500 (if String.eqb msg "" then conversion_error_msg else msg)
              (mkWorld (w_res w) (w_fs w) (w_log w ++ [msg])) Hv) as (hs & E & _ & Hct).
  eexists. rewrite E. split; [reflexivity|]. by split.
Qed.

Lemma read_format_run (req : Request) (w : World) :
  read_format (body_field req "format") w =
  match requested_format req with inr f => (Ret f, w) | inl m => (Throw m, w) end.
Proof. unfold read_format, requested_format. by destruct (js_or _ _). Qed.

Lemma fs_read_insert (p : string) (d : Buffer) (r : Response) (fs : gmap string Buffer) (l : list string) :
  fs_read p (mkWorld r (<[p := d]> fs) l) = (Ret d, mkWorld r (<[p := d]> fs) l).
Proof. unfold fs_read. simpl. by rewrite lookup_insert_eq. Qed.

(** [await fs.unlink(tmpPath).catch(() => {})] after the write. *)
Lemma unlink_insert (p : string) (d : Buffer) (r : Response) (fs : gmap string Buffer) (l : list string)
    (h : string -> M unit) :
  m_catch (fs_unlink p) h (mkWorld r (<[p := d]> fs) l) = (Ret tt, mkWorld r (delete p fs) l).
Proof. unfold m_catch, fs_unlink. simpl. rewrite lookup_insert_eq. by rewrite delete_insert_eq. Qed.

Section Branches.
Context `{Codec}.

(** The ICO path writes the icon, reads it back and removes it before
    answering. *)
Lemma ico_branch_run (env : Env) (file : UploadedFile) (mw : option (option Z)) (valid : bool)
    (outName : string) (w : World) :
  ico_branch env file mw valid outName w =
  match sharps_to_ico [apply_max_width mw valid (sharp (buffer file))] ICO_SIZES with
  | IcoWritten data =>
      (set_header "Content-Type" "image/x-icon" ;;
       set_header "Content-Disposition" (content_disposition outName) ;; res_send_buffer data)
        (mkWorld (w_res w) (delete (ico_tmp_path env) (w_fs w)) (w_log w))
  | IcoFailed m => (Throw m, w)
  | IcoWriteFailed m partial => (Throw m, mkWorld (w_res w) (<[ico_tmp_path env := partial]> (w_fs w)) (w_log w))
  end.
Proof.
  unfold ico_branch, run_sharps_to_ico.
  destruct (sharps_to_ico _ _) as [data | m | m partial]; [| reflexivity | reflexivity].
  rewrite (m_bind_run (fs_write (ico_tmp_path env) data) _ w tt _ eq_refl).
  rewrite (m_bind_run _ _ _ data _ (fs_read_insert _ _ _ _ _)).
  rewrite (m_bind_run _ _ _ tt _ (unlink_insert _ _ _ _ _ _)). reflexivity.
Qed.

Lemma sharp_branch_run (file : UploadedFile) (format : string) (q : Z) (mw : option (option Z))
    (valid : bool) (outName : string) (w : World) :
  sharp_branch file format q mw valid outName w =
  match to_buffer (encode (encoder_for format q) (apply_max_width mw valid (sharp (buffer file)))) with
  | inl m => (Throw m, w)
  | inr data =>
      match mime_of format with
      | Some mime =>
          (set_header "Content-Type" mime ;;
           set_header "Content-Disposition" (content_disposition outName) ;; res_send_buffer data) w
      | None => (Throw (invalid_value_msg "Content-Type"), w)
      end
  end.
Proof.
  unfold sharp_branch, run_to_buffer. destruct (to_buffer _) as [m|data].
  - apply m_bind_throw. reflexivity.
  - rewrite (m_bind_run (m_ret data) _ w data w eq_refl). by destruct (mime_of format).
Qed.
End Branches.

Lemma mime_of_valid (format mime : string) :
  mime_of format = Some mime -> valid_header_value mime = true.
Proof.
  unfold mime_of. intros Hm.
  destruct (List.find _ mime_table) as [[k v]|] eqn:E; [|done]. injection Hm as <-.
  apply find_some in E as [Hin _].
  repeat destruct Hin as [Hin | Hin]; try injection Hin as <- <-; done.
Qed.

(** The types of line 108-113 and of the ICO path. *)
Definition image_types : list string := "image/x-icon" :: map snd mime_table.

Lemma mime_of_in (format mime : string) : mime_of format = Some mime -> In mime (map snd mime_table).
Proof.
  unfold mime_of. intros Hm. destruct (List.find _ mime_table) as [[k v]|] eqn:E; [|done]. injection Hm as <-.
  apply find_some in E as [Hin _]. apply (in_map snd) in Hin. exact Hin.
Qed.

Section Refinement.
Context `{Codec}.

(** A file response, or the 500 of its failed [setHeader]. *)
Lemma respond_or_catch (m : M unit) (w0 w : World) (mime name : string) (data : Buffer) :
  m w0 = (set_header "Content-Type" mime ;;
          set_header "Content-Disposition" (content_disposition name) ;; res_send_buffer data) w ->
  w_res w = fresh_response -> valid_header_value mime = true ->
  exists r', m_catch m convert_catch w0 =
             (Ret tt, mkWorld r' (w_fs w) (w_log w ++ (deliver mime name data).2)) /\
             answers r' (deliver mime name data).1.
Proof.
  intros E Hw Hm. unfold m_catch. rewrite E, (respond_file_run _ _ _ _ Hw Hm). unfold deliver.
  destruct (valid_header_value (content_disposition name)).
  - eexists. rewrite app_nil_r. split; [reflexivity|]. simpl. repeat split.
  - destruct (convert_catch_run (invalid_char_msg "Content-Disposition")
                (mkWorld (mkResponse 200 [("content-type", mime)] None) (w_fs w) (w_log w))
                (single_header_ok _ _ Hm)) as (r' & E' & A).
    exists r'. by rewrite E'.
Qed.

Lemma catch_fresh (m : M unit) (w : World) (fs : gmap string Buffer) (log : list string) (msg : string) :
  m w = (Throw msg, mkWorld fresh_response fs log) ->
  exists r', m_catch m convert_catch w = (Ret tt, mkWorld r' fs (log ++ [msg])) /\
             answers r' (AnsError 500 json_type (error_text msg)).
Proof.
  intros E. rewrite (m_catch_throw _ _ _ _ _ E).
  apply (convert_catch_run msg (mkWorld fresh_response fs log) fresh_headers_ok).
Qed.

(** The run of the handler on an untouched response, as its contract says. *)
Lemma convert_run (env : Env) (req : Request) (w : World) :
  w_res w = fresh_response ->
  exists r', convert env req w =
    (Ret tt, mkWorld r' (convert_fs env req (w_fs w)) (w_log w ++ (convert_contract req).2)) /\
    answers r' (convert_contract req).1.
Proof.
  destruct w as [r0 fs log]. cbn [w_res w_fs w_log]. intros ->.
  unfold convert, convert_contract, convert_fs, convert_body, base_pipeline, format_ok.
  destruct (req_file req) as [file|].
  2:{ rewrite (m_catch_run _ _ _ tt _ (send_error_fresh _ _ (mkWorld fresh_response fs log) eq_refl)), app_nil_r.
      eexists. split; [reflexivity|]. by split. }
  set (w := mkWorld fresh_response fs log).
  destruct (requested_format req) as [msg|format] eqn:Ef.
  { apply catch_fresh. apply m_bind_throw. by rewrite read_format_run, Ef. }
  rewrite (m_catch_bind_run _ _ _ w format w ltac:(by rewrite read_format_run, Ef)).
  destruct (existsb (String.eqb format) valid_formats); cbn [negb andb].
  2:{ rewrite (m_catch_run _ _ _ tt _ (send_error_fresh _ _ w eq_refl)), app_nil_r.
      eexists. split; [reflexivity|]. by split. }
  cbv zeta. destruct (String.eqb format "ico").
  - destruct (sharps_to_ico _ _) as [data | m | m partial] eqn:Hs; cbn [fail500 fst snd].
    + pose proof (respond_or_catch (ico_branch env file (parse_max_width (body_field req "maxWidth"))
         (valid_max_width (parse_max_width (body_field req "maxWidth"))) (out_name (originalname file) format))
         w (mkWorld fresh_response (delete (ico_tmp_path env) fs) log)
         "image/x-icon" (out_name (originalname file) format) data) as HH.
      exact (HH ltac:(rewrite ico_branch_run, Hs; reflexivity) eq_refl eq_refl).
    + apply catch_fresh. by rewrite ico_branch_run, Hs.
    + apply catch_fresh. by rewrite ico_branch_run, Hs.
  - destruct (to_buffer _) as [m | data] eqn:Hb; cbn [fail500 fst snd].
    + apply catch_fresh. by rewrite sharp_branch_run, Hb.
    + destruct (mime_of format) as [mime|] eqn:Em; cbn [fail500 fst snd].
      * apply (respond_or_catch _ w w); [rewrite sharp_branch_run, Hb, Em; reflexivity | done |].
        by apply (mime_of_valid format).
      * apply catch_fresh. by rewrite sharp_branch_run, Hb, Em.
Qed.

(** C2: Refinement: on an untouched response, the handler answers exactly
    what the contract says, logs what it says and changes the file
    system only as [convert_fs] says; in particular it never lets an
    exception escape. *)
Theorem convert_refines (env : Env) (req : Request) (w : World) :
  w_res w = fresh_response ->
  exists r', convert env req w =
    (Ret tt, mkWorld r' (convert_fs env req (w_fs w)) (w_log w ++ (convert_contract req).2)) /\
    answers r' (convert_contract req).1.
Proof. exact (convert_run env req w). Qed.
End Refinement.

(** ** Sample requests

    Concrete inputs on which the theorems are instantiated: a 100 x 50 PNG
    as the reference codec encodes it, an empty world, and request bodies
    built from their fields. *)
Module Samples.
Definition env0 : Env := mkEnv "/tmp" 1700000000000 "k3j9x2".
Definition w0 : World := mkWorld fresh_response ∅ [].
Definition png_file : UploadedFile := mkFile "photo.png" 20 (RefCodec.image FmtPng (100, 50)).
Definition req_of (f : option UploadedFile) (fields : list (string * JsVal)) : Request :=
  mkRequest f (list_to_map fields).
End Samples.

Import Samples.

Lemma convert_refines_witness :
  exists r', @convert RefCodec.ref_codec env0 (req_of (Some png_file) [("format", JStr "avif")]) w0 =
    (Ret tt, mkWorld r' (@convert_fs RefCodec.ref_codec env0 (req_of (Some png_file) [("format", JStr "avif")]) (w_fs w0))
                        (w_log w0 ++ (@convert_contract RefCodec.ref_codec (req_of (Some png_file) [("format", JStr "avif")])).2)) /\
    answers r' (@convert_contract RefCodec.ref_codec (req_of (Some png_file) [("format", JStr "avif")])).1.
Proof. apply convert_refines. reflexivity. Defined.

(** * Properties of the handler

    Derived from its contract ([convert_refines]) and the codec laws: the
    error answers of the validation steps, the substitution of defaults
    for [quality] and [maxWidth], the PNG compression mapping, the magic
    bytes and the dimensions of a converted file, the name it is sent
    under, and the fate of the ICO temporary file. *)

(** The format a [Content-Type] announces (a reading aid for the
    theorems, not code). *)
Definition mime_format (t : string) : option ImgFormat :=
  if String.eqb t "image/webp" then Some FmtWebp
  else if String.eqb t "image/avif" then Some FmtAvif
  else if String.eqb t "image/jpeg" then Some FmtJpeg
  else if String.eqb t "image/png" then Some FmtPng
  else if String.eqb t "image/x-icon" then Some FmtIco
  else None.

Lemma deliver_file (mime name name' mime' : string) (data data' : Buffer) :
  (deliver mime name data).1 = AnsFile mime' name' data' -> mime' = mime /\ name' = name /\ data' = data.
Proof. unfold deliver, fail500. destruct (valid_header_value _); simpl; by intros [= <- <- <-]. Qed.

Lemma fail500_not_file (m mime name : string) (data : Buffer) : (fail500 m).1 <> AnsFile mime name data.
Proof. done. Qed.

Section Inversion.
Context `{Codec}.

(** Where a file answer comes from. *)
Lemma contract_file_inv (req : Request) (mime name : string) (data : Buffer) :
  (convert_contract req).1 = AnsFile mime name data ->
  exists file format,
    req_file req = Some file /\ requested_format req = inr format /\ format_ok format = true /\
    name = out_name (originalname file) format /\
    ((format = "ico" /\ mime = "image/x-icon" /\
        sharps_to_ico [base_pipeline req file] ICO_SIZES = IcoWritten data) \/
     (format <> "ico" /\ mime_of format = Some mime /\
        to_buffer (encode (encoder_for format (resolve_quality (body_field req "quality")))
                          (base_pipeline req file)) = inr data)).
Proof.
  unfold convert_contract. intros Hd.
  destruct (req_file req) as [file|]; [|done].
  destruct (requested_format req) as [m|format]; [done|].
  destruct (format_ok format) eqn:Hok; [|done]. cbn [negb] in Hd.
  exists file, format. do 3 (split; [done|]).
  destruct (String.eqb_spec format "ico") as [->|Hne].
  - destruct (sharps_to_ico _ _) eqn:Hs; [|done|done].
    apply deliver_file in Hd as (-> & -> & ->). split; [done|]. by left.
  - destruct (to_buffer _) eqn:Hb; [done|].
    destruct (mime_of format) eqn:Hm; [|done].
    apply deliver_file in Hd as (-> & -> & ->). split; [done|]. by right.
Qed.

(** The handler's final world is the one the contract describes. *)
Lemma convert_result (env : Env) (req : Request) (w w' : World) :
  w_res w = fresh_response -> convert env req w = (Ret tt, w') ->
  answers (w_res w') (convert_contract req).1 /\
  w_fs w' = convert_fs env req (w_fs w) /\ w_log w' = w_log w ++ (convert_contract req).2.
Proof.
  intros Hw Hc. destruct (convert_run env req w Hw) as (r' & E & A).
  rewrite Hc in E. injection E as ->. done.
Qed.
(** The types the handler sends: an image type for a file; for an error
    [res.json]'s JSON type, or the image type already set when the
    [Content-Disposition] header was refused. *)
Lemma contract_types (req : Request) :
  match (convert_contract req).1 with
  | AnsFile mime _ _ => In mime image_types
  | AnsError _ ct m => ct = json_type \/ (m = invalid_char_msg "Content-Disposition" /\ In ct image_types)
  end.
Proof.
  unfold convert_contract, fail500, fail500_as, deliver.
  destruct (req_file req); [|by left]. destruct (requested_format req); [by left|].
  destruct (negb (format_ok s)); [by left|].
  destruct (String.eqb s "ico").
  - destruct (sharps_to_ico _ _); [destruct (valid_header_value _)|..]; simpl.
    all: first [by left | right; split; [reflexivity | by left]].
  - destruct (to_buffer _); [by left|]. destruct (mime_of s) as [mime|] eqn:Hm; [|by left].
    apply mime_of_in in Hm. destruct (valid_header_value _); simpl; [by right | right; split; [done | by right]].
Qed.
End Inversion.

Lemma body_field_insert_eq (f : option UploadedFile) (b : gmap string JsVal) (k : string) (v : JsVal) :
  body_field (mkRequest f (<[k := v]> b)) k = v.
Proof. unfold body_field. cbn [req_body]. by rewrite lookup_insert_eq. Qed.

Lemma body_field_insert_ne (f : option UploadedFile) (req : Request) (k k' : string) (v : JsVal) :
  k <> k' -> body_field (mkRequest f (<[k := v]> (req_body req))) k' = body_field req k'.
Proof. intros Hne. unfold body_field. simpl. by rewrite lookup_insert_ne. Qed.

Lemma read_format_str (v : JsVal) (s : string) (w : World) :
  v = JStr s -> s <> "" -> read_format v w = (Ret (to_lower s), w).
Proof.
  intros -> Hs. unfold read_format, js_or, js_truthy.
  by destruct (String.eqb_spec s "").
Qed.

Section Claims.
Context `{Codec}.

(** Every request is answered exactly once: the handler never lets
    an exception escape and always leaves a sent body. *)
Theorem convert_always_answers (env : Env) (req : Request) (w : World) :
  w_res w = fresh_response ->
  exists w', convert env req w = (Ret tt, w') /\ is_Some (res_body (w_res w')).
Proof.
  intros Hw. destruct (convert_run env req w Hw) as (r' & E & A).
  eexists. split; [exact E|]. simpl.
  destruct (convert_contract req).1; simpl in A; destruct_and!; eexists; eassumption.
Qed.

(** C7: a file without a usable [format] field that is not one of the
    five formats gets the 400 "Format invalide" answer, whatever the
    codec: the conversion is never attempted and nothing is logged. *)
Theorem convert_invalid_format (env : Env) (req : Request) (w : World) (file : UploadedFile) (s : string) :
  w_res w = fresh_response -> req_file req = Some file ->
  body_field req "format" = JStr s -> s <> "" -> format_ok (to_lower s) = false ->
  convert env req w = (Ret tt, mkWorld (json_error_response 400 invalid_format_msg) (w_fs w) (w_log w)).
Proof.
  intros Hw Hf Hv Hs Hok. unfold convert, convert_body. rewrite Hf.
  rewrite (m_catch_bind_run _ _ _ w (to_lower s) w (read_format_str _ _ _ Hv Hs)).
  unfold format_ok in Hok. rewrite Hok. apply m_catch_run. by apply send_error_fresh.
Qed.

(** A request without a file gets the 400 "Aucune image fournie."
    answer. *)
Theorem convert_no_file (env : Env) (req : Request) (w : World) :
  w_res w = fresh_response -> req_file req = None ->
  convert env req w = (Ret tt, mkWorld (json_error_response 400 no_image_msg) (w_fs w) (w_log w)).
Proof.
  intros Hw Hf. unfold convert, convert_body. rewrite Hf. apply m_catch_run. by apply send_error_fresh.
Qed.

(** C24: a missing or empty [format] field is not rejected: the request
    is handled exactly as if it asked for webp. *)
Theorem convert_default_webp (env : Env) (req : Request) (w : World) :
  body_field req "format" = JUndefined \/ body_field req "format" = JStr "" ->
  convert env req w =
  convert env (mkRequest (req_file req) (<["format" := JStr "webp"]> (req_body req))) w.
Proof.
  intros Hv. unfold convert, convert_body. cbn [req_file].
  destruct (req_file req) as [file|]; [|done].
  assert (Hr : read_format (body_field req "format") w = (Ret "webp", w))
    by (destruct Hv as [-> | ->]; reflexivity).
  rewrite (m_catch_bind_run _ _ _ w "webp" w Hr).
  rewrite (m_catch_bind_run _ _ _ w "webp" w (read_format_str _ "webp" _ (body_field_insert_eq _ _ _ _) ltac:(done))).
  by rewrite !body_field_insert_ne.
Qed.
End Claims.

(** ** Quality and the PNG compression level *)

Lemma quality_in_range (q : Z) : (q <? 1) || (q >? 100) = false <-> 1 <= q <= 100.
Proof. rewrite orb_false_iff, Z.ltb_ge, Z.gtb_ltb, Z.ltb_ge. lia. Qed.

(** C8: the quality passed to the encoders is always in [1, 100]; it is
    exactly the integer [parseInt] reads from the field when that lies in
    [1, 100], and 80 when [parseInt] gives NaN or a value out of range.
    In particular any [String(n)] with [n] in [1, 100], followed by any
    text that does not start with a digit, is read as [n]. *)
Theorem resolve_quality_spec (v : JsVal) :
  1 <= resolve_quality v <= 100 /\
  (forall q, js_parse_int10 (js_to_string v) = Some q -> 1 <= q <= 100 -> resolve_quality v = q) /\
  ((forall q, js_parse_int10 (js_to_string v) = Some q -> q < 1 \/ 100 < q) -> resolve_quality v = 80) /\
  (forall n t, 1 <= n <= 100 -> digit_prefix t = [] -> resolve_quality (JStr (js_dec n +++ t)) = n).
Proof.
  assert (Hr : forall s, resolve_quality (JStr s) = match js_parse_int10 s with
                 | Some n => if (n <? 1) || (n >? 100) then 80 else n | None => 80 end) by done.
  split; [|split; [|split]].
  - unfold resolve_quality. destruct (js_parse_int10 _) as [q|]; [|lia].
    destruct ((q <? 1) || (q >? 100)) eqn:E; [lia|]. apply quality_in_range in E. lia.
  - intros q Hq Hin. unfold resolve_quality. rewrite Hq.
    apply quality_in_range in Hin. by rewrite Hin.
  - intros Hout. unfold resolve_quality. destruct (js_parse_int10 _) as [q|] eqn:Hq; [|done].
    destruct ((q <? 1) || (q >? 100)) eqn:E; [done|]. apply quality_in_range in E. specialize (Hout q eq_refl). lia.
  - intros n t Hn Ht. rewrite Hr, parse_int_dec_app by (lia || done).
    apply quality_in_range in Hn. by rewrite Hn.
Qed.

(** on the qualities the handler produces, the PNG level is already in
    [0, 9]: the clamp of line 102 never acts. *)
Theorem png_level_range (q : Z) :
  1 <= q <= 100 ->
  0 <= png_compression_level q <= 9 /\ Z.max 0 (Z.min 9 (png_compression_level q)) = png_compression_level q.
Proof.
  intros Hq. unfold png_compression_level.
  pose proof (js_round_div_spec (900 - 9 * q) 95 ltac:(lia)). lia.
Qed.

(** A higher quality never gives a higher compression level. *)
Theorem png_level_antitone (q1 q2 : Z) :
  q1 <= q2 -> png_compression_level q2 <= png_compression_level q1.
Proof.
  intros Hq. unfold png_compression_level, js_round_div.
  apply Z.div_le_mono; lia.
Qed.

(** The rational value of line 100 is never within 1/190 of a
    rounding boundary, so any approximation closer than that (the
    source's double arithmetic is off by less than 1e-14) rounds to the
    same level. *)
Theorem png_level_float_safe (q a D : Z) :
  0 < D -> 2 * Z.abs (95 * a - (900 - 9 * q) * D) < D ->
  js_round_div a D = png_compression_level q.
Proof.
  intros HD Ha. unfold png_compression_level.
  pose proof (js_round_div_spec (900 - 9 * q) 95 ltac:(lia)) as Hk.
  pose proof (js_round_div_spec a D HD) as Hr.
  set (k := js_round_div (900 - 9 * q) 95) in *. set (r := js_round_div a D) in *.
  assert (Hodd : 190 * k <> 2 * (900 - 9 * q) + 95) by lia.
  assert (Hlo : 190 * k + 1 <= 2 * (900 - 9 * q) + 95 <= 190 * k + 189) by lia.
  assert (2 * D * k <= 2 * a + D < 2 * D * k + 2 * D) by nia.
  nia.
Qed.

(** ** What a converted file is *)

Lemma mime_encoder_format (format mime : string) (q : Z) :
  mime_of format = Some mime -> mime_format mime = Some (encoder_format (encoder_for format q)).
Proof.
  unfold mime_of. intros Hm.
  destruct (List.find _ mime_table) as [[k v]|] eqn:E; [|done]. injection Hm as <-.
  apply find_some in E as [Hin Hk]. simpl in Hk. apply String.eqb_eq in Hk. subst format.
  repeat destruct Hin as [Hin | Hin]; try injection Hin as <- <-; done.
Qed.

Lemma pipeline_input (req : Request) (file : UploadedFile) (e : Encoder) :
  pl_input (encode e (base_pipeline req file)) = buffer file.
Proof. unfold base_pipeline, apply_max_width. by destruct (valid_max_width _). Qed.

Lemma pipeline_resize (req : Request) (file : UploadedFile) (e : Encoder) :
  pl_resize (encode e (base_pipeline req file)) =
  let mw := parse_max_width (body_field req "maxWidth") in
  if valid_max_width mw then Some (mkResize (max_width_num mw) (max_width_num mw) FitInside true) else None.
Proof. unfold base_pipeline, apply_max_width. by destruct (valid_max_width _). Qed.

Lemma out_ext_id (format : string) : out_ext format = format.
Proof. unfold out_ext. by destruct (String.eqb_spec format "ico") as [->|]. Qed.

Section Output.
Context `{CL : CodecLaws}.

(** A converted file of the non-ICO path: the bytes [toBuffer] gave for
    the pipeline of the request. *)
Lemma convert_sharp_file (env : Env) (req : Request) (w w' : World) (data : Buffer) (format : string) :
  w_res w = fresh_response -> convert env req w = (Ret tt, w') ->
  res_body (w_res w') = Some (BodyBytes data) -> requested_format req = inr format -> format <> "ico" ->
  exists file, req_file req = Some file /\
    to_buffer (encode (encoder_for format (resolve_quality (body_field req "quality")))
                      (base_pipeline req file)) = inr data.
Proof.
  intros Hw Hc Hb Hfmt Hne. destruct (convert_result env req w w' Hw Hc) as [A _].
  destruct (convert_contract req).1 as [st ct m | mime name data'] eqn:Ea; simpl in A; [by destruct A as (_ & _ & ?); congruence|].
  destruct A as (_ & _ & _ & Hb'). rewrite Hb in Hb'. injection Hb' as <-.
  apply contract_file_inv in Ea as (file & format' & Hf & Hfmt' & _ & _ & Hcase).
  rewrite Hfmt in Hfmt'. injection Hfmt' as <-.
  destruct Hcase as [(Hico & _) | (_ & _ & Hbuf)]; [done | by exists file].
Qed.

(** C5: every converted file carries the magic bytes of the
    [Content-Type] it is sent with. *)
Theorem convert_magic (env : Env) (req : Request) (w w' : World) (data : Buffer) (mime : string) :
  w_res w = fresh_response -> convert env req w = (Ret tt, w') ->
  res_body (w_res w') = Some (BodyBytes data) ->
  header_lookup "content-type" (res_headers (w_res w')) = Some mime ->
  sniff data = mime_format mime.
Proof.
  intros Hw Hc Hb Ht. destruct (convert_result env req w w' Hw Hc) as [A _].
  destruct (convert_contract req).1 as [st ct m | mime' name data'] eqn:Ea; simpl in A; [by destruct A as (_ & _ & ?); congruence|].
  destruct A as (_ & Ht' & _ & Hb'). rewrite Ht in Ht'. rewrite Hb in Hb'.
  injection Ht' as <-. injection Hb' as <-.
  apply contract_file_inv in Ea as (file & format & _ & _ & _ & _ & [(_ & -> & Hs) | (_ & Hm & Hbuf)]).
  - by rewrite (ico_format _ _ _ Hs).
  - rewrite (to_buffer_format (encode (encoder_for format (resolve_quality (body_field req "quality"))) (base_pipeline req file)) _ _ eq_refl Hbuf).
    symmetry. by apply mime_encoder_format.
Qed.

(** C10: with a valid [maxWidth] m, a converted (non-ICO) file fits the
    m x m box, is no larger than the source on either side, and keeps
    the source's aspect ratio up to the rounding of one side. *)
Theorem convert_resized (env : Env) (req : Request) (w w' : World) (file : UploadedFile) (data : Buffer)
    (format : string) (m W Ht : Z) :
  w_res w = fresh_response -> req_file req = Some file ->
  requested_format req = inr format -> format <> "ico" ->
  parse_max_width (body_field req "maxWidth") = Some (Some m) -> 0 < m <= 8000 ->
  image_dims (buffer file) = Some (W, Ht) -> 1 <= W -> 1 <= Ht ->
  convert env req w = (Ret tt, w') -> res_body (w_res w') = Some (BodyBytes data) ->
  exists w2 h2, image_dims data = Some (w2, h2) /\
    1 <= w2 <= Z.min m W /\ 1 <= h2 <= Z.min m Ht /\ Z.abs (w2 * Ht - h2 * W) <= Z.max W Ht.
Proof.
  intros Hw Hf Hfmt Hne Hmw Hm Hd HW HH Hc Hb.
  destruct (convert_sharp_file env req w w' data format Hw Hc Hb Hfmt Hne) as (file' & Hf' & Hbuf).
  rewrite Hf in Hf'. injection Hf' as <-.
  assert (Hv : valid_max_width (Some (Some m)) = true) by (simpl; apply andb_true_iff; split; lia).
  pose proof (to_buffer_dims _ _ (W, Ht) (fit_inside_dims m m true (W, Ht)) Hbuf) as Hdims.
  rewrite pipeline_input, pipeline_resize in Hdims. cbv zeta in Hdims. rewrite Hmw, Hv in Hdims.
  specialize (Hdims Hd eq_refl).
  pose proof (fit_inside_bounded W Ht m HW HH ltac:(lia)) as Hbd.
  pose proof (fit_inside_aspect W Ht m HW HH ltac:(lia)) as Has.
  destruct (fit_inside_dims m m true (W, Ht)) as [w2 h2]. simpl in Hbd, Has.
  exists w2, h2. split; [done|]. lia.
Qed.

(** C9: an absent or invalid [maxWidth] is ignored: the converted file
    has the source's dimensions. *)
Theorem convert_no_resize (env : Env) (req : Request) (w w' : World) (file : UploadedFile) (data : Buffer)
    (format : string) (d : Z * Z) :
  w_res w = fresh_response -> req_file req = Some file ->
  requested_format req = inr format -> format <> "ico" ->
  valid_max_width (parse_max_width (body_field req "maxWidth")) = false ->
  image_dims (buffer file) = Some d ->
  convert env req w = (Ret tt, w') -> res_body (w_res w') = Some (BodyBytes data) ->
  image_dims data = Some d.
Proof.
  intros Hw Hf Hfmt Hne Hv Hd Hc Hb.
  destruct (convert_sharp_file env req w w' data format Hw Hc Hb Hfmt Hne) as (file' & Hf' & Hbuf).
  rewrite Hf in Hf'. injection Hf' as <-.
  apply (to_buffer_dims _ _ d d Hbuf); [by rewrite pipeline_input|].
  rewrite pipeline_resize. simpl. by rewrite Hv.
Qed.
End Output.

(** ** The ICO temporary file, errors and the download name *)

Lemma mime_of_ok (format : string) :
  format_ok format = true -> format <> "ico" -> is_Some (mime_of format).
Proof.
  unfold format_ok. intros Hok Hne. apply existsb_exists in Hok as (x & Hin & Hx).
  apply String.eqb_eq in Hx. subst x. destruct Hin as [<-|[<-|[<-|[<-|[<-|[]]]]]]; try (eexists; reflexivity); done.
Qed.

Section Effects.
Context `{Codec}.

Lemma convert_fs_ico (env : Env) (req : Request) (file : UploadedFile) (fs : gmap string Buffer) :
  req_file req = Some file -> requested_format req = inr "ico" ->
  convert_fs env req fs =
  match sharps_to_ico [base_pipeline req file] ICO_SIZES with
  | IcoWritten _ => delete (ico_tmp_path env) fs
  | IcoFailed _ => fs
  | IcoWriteFailed _ partial => <[ico_tmp_path env := partial]> fs
  end.
Proof. intros Hf Hfmt. unfold convert_fs. by rewrite Hf, Hfmt. Qed.

(** when sharp-ico writes the icon, the temporary file is gone
    afterwards, whether the answer is the icon or a 500 from a bad file
    name: the file system is as before. *)
Theorem convert_ico_cleanup (env : Env) (req : Request) (w w' : World) (file : UploadedFile) (data : Buffer) :
  w_res w = fresh_response -> req_file req = Some file -> requested_format req = inr "ico" ->
  sharps_to_ico [base_pipeline req file] ICO_SIZES = IcoWritten data ->
  w_fs w !! ico_tmp_path env = None ->
  convert env req w = (Ret tt, w') -> w_fs w' = w_fs w.
Proof.
  intros Hw Hf Hfmt Hs Hnone Hc. destruct (convert_result env req w w' Hw Hc) as (_ & -> & _).
  rewrite (convert_fs_ico env req file _ Hf Hfmt), Hs. by apply delete_id.
Qed.

(** C22: when writing the icon fails after the file was created, the
    handler answers 500 but leaves the partial temporary file behind:
    the cleanup is not unconditional (server.js lines 71-75 have no
    [finally]). *)
Theorem convert_ico_leak (env : Env) (req : Request) (w w' : World) (file : UploadedFile)
    (m : string) (partial : Buffer) :
  w_res w = fresh_response -> req_file req = Some file -> requested_format req = inr "ico" ->
  sharps_to_ico [base_pipeline req file] ICO_SIZES = IcoWriteFailed m partial ->
  convert env req w = (Ret tt, w') ->
  res_status (w_res w') = 500 /\ w_fs w' !! ico_tmp_path env = Some partial.
Proof.
  intros Hw Hf Hfmt Hs Hc. destruct (convert_result env req w w' Hw Hc) as (A & -> & _).
  rewrite (convert_fs_ico env req file _ Hf Hfmt), Hs, lookup_insert_eq. split; [|done].
  unfold convert_contract in A. rewrite Hf, Hfmt in A. simpl in A. rewrite Hs in A. by destruct A.
Qed.

(** a codec failure on the sharp path is answered 500 with the
    codec's message (or the generic one when it is empty) and the
    message is logged. *)
Theorem convert_codec_error (env : Env) (req : Request) (w w' : World) (file : UploadedFile)
    (format m : string) :
  w_res w = fresh_response -> req_file req = Some file -> requested_format req = inr format ->
  format_ok format = true -> format <> "ico" ->
  to_buffer (encode (encoder_for format (resolve_quality (body_field req "quality"))) (base_pipeline req file)) = inl m ->
  convert env req w = (Ret tt, w') ->
  res_status (w_res w') = 500 /\ res_body (w_res w') = Some (BodyJsonError (error_text m)) /\
  w_log w' = w_log w ++ [m].
Proof.
  intros Hw Hf Hfmt Hok Hne Hb Hc. destruct (convert_result env req w w' Hw Hc) as (A & _ & Hl).
  unfold convert_contract in A, Hl. rewrite Hf, Hfmt, Hok in A, Hl. cbn [negb] in A, Hl.
  apply String.eqb_neq in Hne. rewrite Hne, Hb in A, Hl. simpl in A. by destruct A as (? & ? & ?).
Qed.

(** a converted file is offered under the source's stem (the name
    without its last extension) followed by the target format. *)
Theorem convert_file_name (env : Env) (req : Request) (w w' : World) (file : UploadedFile)
    (format stem ext : string) (data : Buffer) :
  w_res w = fresh_response -> req_file req = Some file -> requested_format req = inr format ->
  originalname file = stem +++ "." +++ ext -> stem <> "" -> str_has "." ext = false ->
  originalname file <> ".." ->
  convert env req w = (Ret tt, w') -> res_body (w_res w') = Some (BodyBytes data) ->
  header_lookup "content-disposition" (res_headers (w_res w')) =
    Some (content_disposition (stem +++ "." +++ format)).
Proof.
  intros Hw Hf Hfmt Hn Hs He Hdd Hc Hb. destruct (convert_result env req w w' Hw Hc) as [A _].
  destruct (convert_contract req).1 as [st ct m | mime name data'] eqn:Ea; simpl in A; [by destruct A as (_ & _ & ?); congruence|].
  destruct A as (_ & _ & Hcd & _). rewrite Hcd.
  apply contract_file_inv in Ea as (file' & format' & Hf' & Hfmt' & _ & -> & _).
  rewrite Hf in Hf'. injection Hf' as <-. rewrite Hfmt in Hfmt'. injection Hfmt' as <-.
  unfold out_name, out_base. rewrite out_ext_id, Hn, basename_extname_stem; [done | done | done |].
  by rewrite <- Hn.
Qed.
(** C23: a successful conversion whose download name has a character
    Node refuses in a header (a control character such as a newline) is
    still answered 500: [setHeader] throws after the work is done and
    the [catch] reports Node's message, in a JSON body that keeps the
    image's [Content-Type] ([res.json] only sets a type when none is
    set). *)
Theorem convert_bad_filename (env : Env) (req : Request) (w w' : World) (file : UploadedFile)
    (format : string) (data : Buffer) :
  w_res w = fresh_response -> req_file req = Some file -> requested_format req = inr format ->
  format_ok format = true -> format <> "ico" ->
  to_buffer (encode (encoder_for format (resolve_quality (body_field req "quality"))) (base_pipeline req file)) = inr data ->
  valid_header_value (content_disposition (out_name (originalname file) format)) = false ->
  convert env req w = (Ret tt, w') ->
  res_status (w_res w') = 500 /\
  header_lookup "content-type" (res_headers (w_res w')) =
    option_map (fun t => t +++ "; charset=utf-8") (mime_of format) /\
  res_body (w_res w') = Some (BodyJsonError (invalid_char_msg "Content-Disposition")) /\
  w_log w' = w_log w ++ [invalid_char_msg "Content-Disposition"].
Proof.
  intros Hw Hf Hfmt Hok Hne Hb Hv Hc. destruct (convert_result env req w w' Hw Hc) as (A & _ & Hl).
  destruct (mime_of_ok format Hok Hne) as [mime Hm].
  unfold convert_contract in A, Hl. rewrite Hf, Hfmt, Hok in A, Hl. cbn [negb] in A, Hl.
  apply String.eqb_neq in Hne. rewrite Hne, Hb, Hm in A, Hl. unfold deliver in A, Hl.
  rewrite Hv in A, Hl. simpl in A. rewrite Hm. by destruct A as (? & ? & ?).
Qed.
End Effects.

(** A dot-file name such as [".png"] has no extension for Node, so
    the server names the result [".png.webp"]. *)
Theorem out_name_dotfile (ext format : string) :
  str_has "." ext = false -> out_name ("." +++ ext) format = "." +++ ext +++ "." +++ format.
Proof.
  intros He. unfold out_name, out_base. rewrite out_ext_id, extname_leading_dot by done.
  rewrite basename_ext_empty. by rewrite js_append_assoc.
Qed.

(** ** The claims on sample requests *)

Import Samples.

Definition req_webp : Request := req_of (Some png_file) [("format", JStr "webp"); ("quality", JStr "50")].
Definition req_resize : Request := req_of (Some png_file) [("format", JStr "WEBP"); ("maxWidth", JStr "50")].
Definition req_ico : Request := req_of (Some png_file) [("format", JStr "ico")].
Definition req_gif : Request := req_of (Some png_file) [("format", JStr "gif")].
Definition req_broken : Request := req_of (Some (mkFile "notes.png" 2 [b 0; b 1])) [("format", JStr "webp")].
Definition newline_file : UploadedFile :=
  mkFile ("a" +++ String (Ascii.ascii_of_nat 10) "b.png") 20 (RefCodec.image FmtPng (100, 50)).
Definition req_newline : Request := req_of (Some newline_file) [("format", JStr "png")].

Lemma convert_always_answers_witness :
  exists w', @convert RefCodec.ref_codec env0 req_webp w0 = (Ret tt, w') /\ is_Some (res_body (w_res w')).
Proof. apply convert_always_answers. reflexivity. Defined.

Lemma convert_invalid_format_witness :
  @convert RefCodec.ref_codec env0 req_gif w0 =
  (Ret tt, mkWorld (json_error_response 400 invalid_format_msg) (w_fs w0) (w_log w0)).
Proof. apply (convert_invalid_format env0 req_gif w0 png_file "gif"); [reflexivity | reflexivity | vm_compute; reflexivity | done | vm_compute; reflexivity]. Defined.

Lemma convert_no_file_witness :
  @convert RefCodec.ref_codec env0 (req_of None []) w0 =
  (Ret tt, mkWorld (json_error_response 400 no_image_msg) (w_fs w0) (w_log w0)).
Proof. apply convert_no_file; reflexivity. Defined.

Lemma convert_default_webp_witness :
  @convert RefCodec.ref_codec env0 (req_of (Some png_file) [("format", JStr "")]) w0 =
  @convert RefCodec.ref_codec env0 (mkRequest (Some png_file) (<["format" := JStr "webp"]> (req_body (req_of (Some png_file) [("format", JStr "")])))) w0.
Proof. apply (convert_default_webp env0 (req_of (Some png_file) [("format", JStr "")])). right. vm_compute. reflexivity. Defined.

Lemma png_level_range_witness :
  0 <= png_compression_level 50 <= 9 /\ Z.max 0 (Z.min 9 (png_compression_level 50)) = png_compression_level 50.
Proof. apply png_level_range. lia. Defined.

Lemma png_level_antitone_witness : png_compression_level 80 <= png_compression_level 10.
Proof. apply png_level_antitone. lia. Defined.

(** 450/95 as the double 4.736842105263158. *)
Lemma png_level_float_safe_witness :
  js_round_div 4736842105263158 1000000000000000 = png_compression_level 50.
Proof. apply png_level_float_safe; lia. Defined.

Lemma convert_magic_witness :
  sniff (RefCodec.image FmtWebp (100, 50)) = mime_format "image/webp".
Proof.
  apply (@convert_magic RefCodec.ref_codec RefCodec.ref_codec_laws env0 req_webp w0
           (@convert RefCodec.ref_codec env0 req_webp w0).2); vm_compute; reflexivity.
Defined.

Lemma convert_resized_witness :
  exists w2 h2, RefCodec.dims (RefCodec.image FmtWebp (50, 25)) = Some (w2, h2) /\
    1 <= w2 <= Z.min 50 100 /\ 1 <= h2 <= Z.min 50 50 /\ Z.abs (w2 * 50 - h2 * 100) <= Z.max 100 50.
Proof.
  apply (@convert_resized RefCodec.ref_codec RefCodec.ref_codec_laws env0 req_resize w0
           (@convert RefCodec.ref_codec env0 req_resize w0).2 png_file _ "webp");
    first [lia | done | vm_compute; reflexivity].
Defined.

Lemma convert_no_resize_witness : RefCodec.dims (RefCodec.image FmtWebp (100, 50)) = Some (100, 50).
Proof.
  apply (@convert_no_resize RefCodec.ref_codec RefCodec.ref_codec_laws env0 req_webp w0
           (@convert RefCodec.ref_codec env0 req_webp w0).2 png_file _ "webp");
    first [done | vm_compute; reflexivity].
Defined.

Lemma convert_ico_cleanup_witness :
  w_fs (@convert RefCodec.ref_codec env0 req_ico w0).2 = w_fs w0.
Proof.
  apply (@convert_ico_cleanup RefCodec.ref_codec env0 req_ico w0 _ png_file (RefCodec.image FmtIco (256, 256)));
    vm_compute; reflexivity.
Defined.

Lemma convert_ico_leak_witness :
  res_status (w_res (@convert DiskFullCodec.disk_full_codec env0 req_ico w0).2) = 500 /\
  w_fs (@convert DiskFullCodec.disk_full_codec env0 req_ico w0).2 !! ico_tmp_path env0 =
    Some (take 6 (RefCodec.image FmtIco (256, 256))).
Proof.
  apply (@convert_ico_leak DiskFullCodec.disk_full_codec env0 req_ico w0 _ png_file DiskFullCodec.enospc);
    vm_compute; reflexivity.
Defined.

Lemma convert_codec_error_witness :
  let w' := (@convert RefCodec.ref_codec env0 req_broken w0).2 in
  res_status (w_res w') = 500 /\ res_body (w_res w') = Some (BodyJsonError (error_text RefCodec.unsupported)) /\
  w_log w' = w_log w0 ++ [RefCodec.unsupported].
Proof.
  apply (@convert_codec_error RefCodec.ref_codec env0 req_broken w0 _ (mkFile "notes.png" 2 [b 0; b 1]) "webp");
    first [done | vm_compute; reflexivity].
Defined.

Lemma convert_bad_filename_witness :
  let w' := (@convert RefCodec.ref_codec env0 req_newline w0).2 in
  res_status (w_res w') = 500 /\
  header_lookup "content-type" (res_headers (w_res w')) =
    option_map (fun t => t +++ "; charset=utf-8") (mime_of "png") /\
  res_body (w_res w') = Some (BodyJsonError (invalid_char_msg "Content-Disposition")) /\
  w_log w' = w_log w0 ++ [invalid_char_msg "Content-Disposition"].
Proof.
  apply (@convert_bad_filename RefCodec.ref_codec env0 req_newline w0 _ newline_file "png" (RefCodec.image FmtPng (100, 50)));
    first [done | vm_compute; reflexivity].
Defined.

Lemma convert_file_name_witness :
  header_lookup "content-disposition" (res_headers (w_res (@convert RefCodec.ref_codec env0 req_webp w0).2)) =
    Some (content_disposition ("photo" +++ "." +++ "webp")).
Proof.
  apply (@convert_file_name RefCodec.ref_codec env0 req_webp w0 _ png_file "webp" "photo" "png"
           (RefCodec.image FmtWebp (100, 50)));
    first [done | vm_compute; reflexivity].
Defined.

Lemma out_name_dotfile_witness : out_name ("." +++ "png") "webp" = "." +++ "png" +++ "." +++ "webp".
Proof. apply out_name_dotfile. reflexivity. Defined.
