(* ===== verification/Upload.v ===== *)
(** The upload layer: [multer({ storage: memoryStorage(), limits: {
    fileSize: 50 MiB }, fileFilter })] with [upload.single("image")]
    (server.js lines 12-21 and 26).  multer and busboy are libraries; their
    behaviour on a multipart body is written here as a step function over
    the parts in the order they arrive: busboy's file-name sanitising, its
    default field limits, multer's [single] file count, the application's
    [fileFilter], the size limit and [append-field]'s array building for a
    repeated field.  Field names are plain names: [append-field]'s bracket
    syntax ([a[b]], [a[]]) is not modelled. *)
From stdpp Require Import gmap.
From S2P Require Import Prelude JsString Regex Codec Express Convert.

Local Open Scope Z_scope.

(** ** A multipart body *)

Inductive Part :=
  | PField (name value : string)
  | PFile (field filename : string) (data : Buffer).

(** The [MulterError] codes that can arise with these options. *)
Inductive MulterCode := LIMIT_FIELD_KEY | LIMIT_FIELD_VALUE | LIMIT_UNEXPECTED_FILE | LIMIT_FILE_SIZE.

#[export] Instance multer_code_eq_dec : EqDecision MulterCode.
Proof. solve_decision. Defined.

(** What reaches Express's error middleware: a [MulterError], the plain
    [Error] of the file filter, or another error (a body parser's). *)
Inductive UploadError :=
  | MulterErr (code : MulterCode) (field : string)
  | PlainError (msg : string).

Definition multer_message (c : MulterCode) : string :=
  match c with
  | LIMIT_FIELD_KEY => "Field name too long"
  | LIMIT_FIELD_VALUE => "Field value too long"
  | LIMIT_UNEXPECTED_FILE => "Unexpected field"
  | LIMIT_FILE_SIZE => "File too large"
  end.

(** [err.message]. *)
Definition error_message (e : UploadError) : string :=
  match e with MulterErr c _ => multer_message c | PlainError m => m end.

(** ** busboy *)

Definition is_sep (c : ascii) : bool := Ascii.eqb c "/" || Ascii.eqb c "\".

Definition has_sep (s : string) : bool := str_has "/" s || str_has "\" s.

(** The text after the last ['/'] or ['\'], or all of [s]. *)
Fixpoint last_segment (s : string) : string :=
  match s with
  | EmptyString => EmptyString
  | String c s' => if has_sep s' then last_segment s' else if is_sep c then s' else s
  end.

(** busboy's [basename] (preservePath is off): ["."] and [".."] become
    empty. *)
Definition busboy_basename (s : string) : string :=
  let b := last_segment s in
  if String.eqb b "." || String.eqb b ".." then EmptyString else b.

(** busboy's defaults: [fieldNameSize] 100 bytes, [fieldSize] 1 MiB. *)
Definition FIELD_NAME_SIZE : nat := 100.
Definition FIELD_SIZE : Z := 1024 * 1024.

(** ** The application's options (lines 12-21) *)

Definition FILE_SIZE_LIMIT : Z := 50 * 1024 * 1024.

(** "Format non supporté. ..." with U+00E9 as one code unit. *)
Definition filter_msg : string := "Format non support" +++ latin1 233 +++ ". Utilisez JPG, PNG, WebP ou AVIF.".

(** Lines 15-20: [cb(null, true)] or [cb(new Error(...))]. *)
Definition file_filter (originalname : string) : option UploadError :=
  if img_reg_test originalname then None else Some (PlainError filter_msg).

(** ** multer *)

(** [append-field] on a plain name: a second value turns the field into
    an array. *)
Definition append_field (body : gmap string JsVal) (name value : string) : gmap string JsVal :=
  match body !! name with
  | None | Some JUndefined => <[name := JStr value]> body
  | Some (JStr s) => <[name := JArr [s; value]]> body
  | Some (JArr l) => <[name := JArr (l ++ [value])]> body
  end.

Record Upload := mkUpload {
  up_body : gmap string JsVal;
  up_file : option UploadedFile;
  up_left : nat  (** [filesLeft.image] *)
}.

Definition upload_init : Upload := mkUpload ∅ None 1.

(** One part: the [field] handler, or the [file] handler with its
    wrapped filter ([filesLeft] first, then [fileFilter]), then the
    storage that reads the stream up to the size limit. *)
Definition upload_part (st : Upload) (p : Part) : Upload + UploadError :=
  match p with
  | PField name value =>
      if (FIELD_NAME_SIZE <? String.length name)%nat then inr (MulterErr LIMIT_FIELD_KEY name)
      else if FIELD_SIZE <? Z.of_nat (String.length value) then inr (MulterErr LIMIT_FIELD_VALUE name)
      else inl (mkUpload (append_field (up_body st) name value) (up_file st) (up_left st))
  | PFile field filename data =>
      let name := busboy_basename filename in
      if String.eqb name "" then inl st
      else if (FIELD_NAME_SIZE <? String.length field)%nat then inr (MulterErr LIMIT_FIELD_KEY field)
      else if negb (String.eqb field "image") || (up_left st =? 0)%nat then inr (MulterErr LIMIT_UNEXPECTED_FILE field)
      else match file_filter name with
           | Some e => inr e
           | None =>
               if FILE_SIZE_LIMIT <? Z.of_nat (List.length data) then inr (MulterErr LIMIT_FILE_SIZE field)
               else inl (mkUpload (up_body st) (Some (mkFile name (Z.of_nat (List.length data)) data)) (up_left st - 1))
           end
  end.

(** The parts in arrival order; the first error aborts the upload. *)
Fixpoint upload_parts (st : Upload) (ps : list Part) : Upload + UploadError :=
  match ps with
  | [] => inl st
  | p :: ps' => match upload_part st p with inl st' => upload_parts st' ps' | inr e => inr e end
  end.

(** [upload.single("image")]: [req.file] and [req.body], or the error
    passed to [next]. *)
Definition multer_single (ps : list Part) : Request + UploadError :=
  match upload_parts upload_init ps with
  | inl st => inl (mkRequest (up_file st) (up_body st))
  | inr e => inr e
  end.

(** ** What the handler can receive *)

(** A file multer hands over: a sanitised name that passed the filter,
    and a size that is the buffer's and within the limit. *)
Definition file_ok (f : UploadedFile) : Prop :=
  img_reg_test (originalname f) = true /\ has_sep (originalname f) = false /\
  size f = Z.of_nat (List.length (buffer f)) /\ size f <= FILE_SIZE_LIMIT.

(** Fields hold a string, or an array once repeated. *)
Definition body_ok (body : gmap string JsVal) : Prop := map_Forall (fun _ v => v <> JUndefined) body.

Definition upload_inv (st : Upload) : Prop :=
  body_ok (up_body st) /\
  ((up_file st = None /\ up_left st = 1%nat) \/
   (exists f, up_file st = Some f /\ file_ok f /\ up_left st = 0%nat)).

Lemma has_sep_cons (c : ascii) (s : string) : has_sep (String c s) = is_sep c || has_sep s.
Proof.
  unfold has_sep, is_sep. simpl.
  destruct (Ascii.eqb c "/"), (Ascii.eqb c "\"), (str_has "/" s), (str_has "\" s); done.
Qed.

Lemma last_segment_no_sep (s : string) : has_sep (last_segment s) = false.
Proof.
  induction s as [|c s IH]; [done|]. simpl.
  destruct (has_sep s) eqn:Hs; [done|]. destruct (is_sep c) eqn:Hc; [done|].
  by rewrite has_sep_cons, Hc, Hs.
Qed.

(** busboy's names carry no directory part, and are never ["."] or
    [".."]. *)
Lemma busboy_basename_ok (s : string) :
  has_sep (busboy_basename s) = false /\ busboy_basename s <> "." /\ busboy_basename s <> "..".
Proof.
  unfold busboy_basename. pose proof (last_segment_no_sep s).
  destruct (String.eqb_spec (last_segment s) "."), (String.eqb_spec (last_segment s) ".."); simpl; done.
Qed.

Lemma append_field_ok (body : gmap string JsVal) (name value : string) :
  body_ok body -> body_ok (append_field body name value).
Proof.
  unfold body_ok, append_field. intros Hb.
  destruct (body !! name) as [[| |]|]; apply map_Forall_insert_2; done.
Qed.

Lemma upload_part_inv (st st' : Upload) (p : Part) :
  upload_inv st -> upload_part st p = inl st' -> upload_inv st'.
Proof.
  intros [Hb Hf]. destruct p as [name value | field filename data]; simpl.
  - case_tests; intros [= <-]. split; [by apply append_field_ok | done].
  - destruct (busboy_basename_ok filename) as (Hsep & _ & _).
    unfold file_filter. case_tests; try discriminate; intros [= <-]; [done|].
    split; [done|]. right.
    destruct Hf as [[_ Hl] | (f & _ & _ & Hl)]; [|simpl in *; lia].
    eexists. split; [done|]. split; [|simpl; lia]. unfold file_ok; simpl. split; [done|]. split; [done|]. lia.
Qed.

Lemma upload_parts_inv (ps : list Part) (st st' : Upload) :
  upload_inv st -> upload_parts st ps = inl st' -> upload_inv st'.
Proof.
  revert st. induction ps as [|p ps IH]; intros st Hi; simpl; [by intros [= <-]|].
  destruct (upload_part st p) eqn:E; [|done]. apply IH. by apply (upload_part_inv st _ p).
Qed.

(** C11: every request multer lets through carries at most one file, and
    that file passed the name filter and the size limit; its name has no
    directory part and its size is its buffer's length.  Every body field
    is a string or an array of strings. *)
Theorem multer_single_ok (ps : list Part) (req : Request) :
  multer_single ps = inl req ->
  body_ok (req_body req) /\ (forall f, req_file req = Some f -> file_ok f).
Proof.
  unfold multer_single. destruct (upload_parts upload_init ps) as [st|] eqn:E; [|done].
  intros [= <-]. destruct (upload_parts_inv ps upload_init st) as [Hb Hf]; [| done |].
  - split; [apply map_Forall_empty | by left].
  - split; [done|]. intros f Hs. simpl in Hs.
    destruct Hf as [[Hn _] | (f' & Hf' & Hok & _)]; congruence.
Qed.

(** ** Reading a body part by part *)

Lemma upload_parts_app (st : Upload) (ps qs : list Part) :
  upload_parts st (ps ++ qs) =
  match upload_parts st ps with inl st' => upload_parts st' qs | inr e => inr e end.
Proof.
  revert st. induction ps as [|p ps IH]; intros st; [done|]. simpl.
  destruct (upload_part st p); [apply IH | done].
Qed.

(** A text field busboy accepts. *)
Definition field_ok (p : Part) : bool :=
  match p with
  | PField name value => (String.length name <=? FIELD_NAME_SIZE)%nat && (Z.of_nat (String.length value) <=? FIELD_SIZE)
  | PFile _ _ _ => false
  end.

(** The values sent under one name, in order. *)
Fixpoint field_values (k : string) (ps : list Part) : list string :=
  match ps with
  | [] => []
  | PField n v :: ps' => if String.eqb n k then v :: field_values k ps' else field_values k ps'
  | PFile _ _ _ :: ps' => field_values k ps'
  end.

(** What [append-field] leaves under a name that received [vs]. *)
Definition js_field (vs : list string) : option JsVal :=
  match vs with
  | [] => None
  | [v] => Some (JStr v)
  | _ => Some (JArr vs)
  end.

Definition fields_body (body : gmap string JsVal) (ps : list Part) : gmap string JsVal :=
  fold_left (fun b p => match p with PField n v => append_field b n v | _ => b end) ps body.

Lemma upload_fields (st : Upload) (ps : list Part) :
  forallb field_ok ps = true ->
  upload_parts st ps = inl (mkUpload (fields_body (up_body st) ps) (up_file st) (up_left st)).
Proof.
  revert st. induction ps as [|[name value | ? ? ?] ps IH]; intros st Hps; simpl in *.
  - by destruct st.
  - bool_to_prop. case_tests; [lia | lia |]. by rewrite (IH (mkUpload _ _ _)).
  - done.
Qed.

Lemma append_field_js (body : gmap string JsVal) (k n v : string) (vs : list string) :
  body !! k = js_field vs ->
  append_field body n v !! k = if String.eqb n k then js_field (vs ++ [v]) else js_field vs.
Proof.
  intros Hk. unfold append_field.
  destruct (String.eqb_spec n k) as [<- | Hne].
  - rewrite Hk. destruct vs as [|s [|s' vs]]; cbn [js_field app]; by rewrite lookup_insert_eq.
  - destruct (body !! n) as [[| |]|]; by rewrite lookup_insert_ne by done.
Qed.

Lemma fields_body_js (body : gmap string JsVal) (k : string) (ps : list Part) (vs : list string) :
  body !! k = js_field vs -> fields_body body ps !! k = js_field (vs ++ field_values k ps).
Proof.
  revert body vs. induction ps as [|[n v | ? ? ?] ps IH]; intros body vs Hk; simpl.
  - by rewrite app_nil_r.
  - destruct (String.eqb n k) eqn:E.
    + rewrite (IH _ (vs ++ [v])); [by rewrite <- app_assoc | by rewrite (append_field_js body k n v vs Hk), E].
    + apply IH. by rewrite (append_field_js body k n v vs Hk), E.
  - by apply IH.
Qed.

(** multer's [req.body] holds, under every name, exactly the values
    sent with it: nothing, one string, or the array of all of them in the
    order they arrived. *)
Theorem fields_body_spec (ps : list Part) (k : string) :
  fields_body ∅ ps !! k = js_field (field_values k ps).
Proof. by apply (fields_body_js ∅ k ps []). Qed.

(** The first file part of a body, after well-formed fields, decides the
    upload's fate when its name is not empty: filter first, then size. *)
Lemma upload_first_file (pre post : list Part) (filename : string) (data : Buffer) :
  forallb field_ok pre = true -> busboy_basename filename <> "" ->
  upload_parts upload_init (pre ++ PFile "image" filename data :: post) =
  if negb (img_reg_test (busboy_basename filename)) then inr (PlainError filter_msg)
  else if FILE_SIZE_LIMIT <? Z.of_nat (List.length data) then inr (MulterErr LIMIT_FILE_SIZE "image")
  else match upload_parts upload_init pre with
       | inl st => upload_parts (mkUpload (up_body st)
                     (Some (mkFile (busboy_basename filename) (Z.of_nat (List.length data)) data)) 0) post
       | inr e => inr e
       end.
Proof.
  intros Hpre Hn. rewrite upload_parts_app, (upload_fields upload_init pre Hpre). simpl. apply String.eqb_neq in Hn. rewrite Hn. simpl.
  unfold file_filter. by destruct (img_reg_test _), (FILE_SIZE_LIMIT <? _).
Qed.

Lemma fields_body_app (body : gmap string JsVal) (ps qs : list Part) :
  fields_body body (ps ++ qs) = fields_body (fields_body body ps) qs.
Proof. unfold fields_body. by rewrite fold_left_app. Qed.

(** A body of fields around one acceptable image: the handler gets the
    file under its sanitised name and every field. *)
Lemma multer_one_file (pre post : list Part) (filename : string) (data : Buffer) :
  forallb field_ok pre = true -> forallb field_ok post = true -> busboy_basename filename <> "" ->
  img_reg_test (busboy_basename filename) = true -> Z.of_nat (List.length data) <= FILE_SIZE_LIMIT ->
  multer_single (pre ++ PFile "image" filename data :: post) =
  inl (mkRequest (Some (mkFile (busboy_basename filename) (Z.of_nat (List.length data)) data))
                 (fields_body ∅ (pre ++ post))).
Proof.
  intros Hpre Hpost Hn Ht Hs. unfold multer_single.
  rewrite upload_first_file, Ht by done. simpl.
  destruct (Z.ltb_spec FILE_SIZE_LIMIT (Z.of_nat (List.length data))) as [|_]; [lia|].
  rewrite (upload_fields upload_init pre Hpre), upload_fields by done.
  by rewrite fields_body_app.
Qed.

(** ** A sample body *)

Definition sample_parts : list Part :=
  [PFile "image" "C:\photos\cat.PNG" [b 1; b 2; b 3]; PField "format" "webp"; PField "quality" "50"].

Definition sample_request : Request :=
  match multer_single sample_parts with inl r => r | inr _ => mkRequest None ∅ end.

Lemma multer_single_ok_witness :
  body_ok (req_body sample_request) /\ (forall f, req_file sample_request = Some f -> file_ok f).
Proof. apply (multer_single_ok sample_parts). vm_compute. reflexivity. Defined.
