(* ===== verification/Server.v ===== *)
(** The Express application of [src/server.js] for [POST /api/convert]:
    the middleware chain [express.json()] (line 23), [express.static]
    (line 24, which only serves GET and HEAD and so passes a POST on),
    [upload.single("image")] (line 26), the handler ([Convert.convert])
    and the error middleware of lines 124-134, which receives whatever
    the body parsers pass to [next(err)]. *)
From stdpp Require Import gmap.
From S2P Require Import Prelude JsString Regex Codec Express Convert Upload.

Local Open Scope Z_scope.

(** The body of a request as the parsers see it.  A JSON body is given by
    its fields (the handler never reads them: it answers 400 first, as no
    file can come with JSON). *)
Inductive Payload :=
  | Multipart (parts : list Part)
  | JsonBody (fields : gmap string JsVal)
  | JsonMalformed (msg : string)
  | OtherBody.

(** [express.json()] then [upload.single("image")]: [req] for the handler,
    or the error given to [next].  body-parser leaves [{}] when the type is
    not JSON; multer replaces the body only on multipart requests. *)
Definition parse_request (pl : Payload) : Request + UploadError :=
  match pl with
  | Multipart ps => multer_single ps
  | JsonBody fields => inl (mkRequest None fields)
  | JsonMalformed m => inr (PlainError m)
  | OtherBody => inl (mkRequest None ∅)
  end.

Definition too_large_msg : string := "Fichier trop volumineux (max 50 Mo).".
Definition server_error_msg : string := "Erreur serveur.".

(** Lines 124-134. *)
Definition error_middleware (err : UploadError) : M unit :=
  match err with
  | MulterErr LIMIT_FILE_SIZE _ => send_error 400 too_large_msg
  | _ =>
      log_error (error_message err) ;;
      send_error 500 (if String.eqb (error_message err) "" then server_error_msg else error_message err)
  end.

Section App.
Context `{Codec}.

(** [POST /api/convert] through the whole chain. *)
Definition post_convert (env : Env) (pl : Payload) : M unit :=
  match parse_request pl with
  | inl req => convert env req
  | inr err => error_middleware err
  end.
End App.

(** What the error middleware answers, and logs. *)
Definition upload_answer (err : UploadError) : Answer * list string :=
  match err with
  | MulterErr LIMIT_FILE_SIZE _ => (AnsError 400 json_type too_large_msg, [])
  | _ => (AnsError 500 json_type (if String.eqb (error_message err) "" then server_error_msg else error_message err),
          [error_message err])
  end.

(** ** Running the error middleware *)

Lemma error_middleware_run (err : UploadError) (w : World) :
  w_res w = fresh_response ->
  exists r', error_middleware err w = (Ret tt, mkWorld r' (w_fs w) (w_log w ++ (upload_answer err).2)) /\
             answers r' (upload_answer err).1.
Proof.
  destruct w as [r fs log]. simpl. intros ->.
  assert (Hlog : forall m code t, (log_error m ;; send_error code t) (mkWorld fresh_response fs log) =
                                  (Ret tt, mkWorld (json_error_response code t) fs (log ++ [m])))
    by (intros m code t; exact (send_error_fresh code t (mkWorld fresh_response fs (log ++ [m])) eq_refl)).
  destruct err as [[] f | m]; eexists; (split; [first [apply Hlog | rewrite app_nil_r; by apply send_error_fresh] | done]).
Qed.

(** ** The whole chain against its contract *)

Section Chain.
Context `{Codec}.

Definition post_contract (pl : Payload) : Answer * list string :=
  match parse_request pl with
  | inl req => convert_contract req
  | inr err => upload_answer err
  end.

Definition post_fs (env : Env) (pl : Payload) (fs : gmap string Buffer) : gmap string Buffer :=
  match parse_request pl with
  | inl req => convert_fs env req fs
  | inr _ => fs
  end.

(** The run of the whole route on an untouched response, as its contract says. *)
Lemma post_run (env : Env) (pl : Payload) (w : World) :
  w_res w = fresh_response ->
  exists r', post_convert env pl w =
    (Ret tt, mkWorld r' (post_fs env pl (w_fs w)) (w_log w ++ (post_contract pl).2)) /\
    answers r' (post_contract pl).1.
Proof.
  intros Hw. unfold post_convert, post_fs, post_contract.
  destruct (parse_request pl) as [req | err]; [by apply convert_run | by apply error_middleware_run].
Qed.

(** C1: the route, from the raw body to the response, refines its
    contract: one answer, the file system and the log as the contract
    says. *)
Theorem post_refines (env : Env) (pl : Payload) (w : World) :
  w_res w = fresh_response ->
  exists r', post_convert env pl w =
    (Ret tt, mkWorld r' (post_fs env pl (w_fs w)) (w_log w ++ (post_contract pl).2)) /\
    answers r' (post_contract pl).1.
Proof. exact (post_run env pl w). Qed.
Lemma post_contract_types (pl : Payload) :
  match (post_contract pl).1 with
  | AnsFile mime _ _ => In mime image_types
  | AnsError _ ct m => ct = json_type \/ (m = invalid_char_msg "Content-Disposition" /\ In ct image_types)
  end.
Proof.
  unfold post_contract. destruct (parse_request pl); [apply contract_types|].
  unfold upload_answer. destruct u as [[] ?|?]; by left.
Qed.

(** C6: every response of the route declares the type of its body: a
    converted file an image type of the code's table; an error the JSON
    type with its charset, except the 500 of a refused download name,
    which keeps the image type set before the failure. *)
Theorem post_response_typed (env : Env) (pl : Payload) (w w' : World) :
  w_res w = fresh_response -> post_convert env pl w = (Ret tt, w') ->
  match res_body (w_res w') with
  | Some (BodyBytes _) =>
      exists t, header_lookup "content-type" (res_headers (w_res w')) = Some t /\ In t image_types
  | Some (BodyJsonError m) =>
      header_lookup "content-type" (res_headers (w_res w')) = Some "application/json; charset=utf-8" \/
      (m = invalid_char_msg "Content-Disposition" /\
       exists t, In t image_types /\ header_lookup "content-type" (res_headers (w_res w')) = Some (t +++ "; charset=utf-8"))
  | None => False
  end.
Proof.
  intros Hw Hp. destruct (post_run env pl w Hw) as (r' & E & A). rewrite Hp in E. injection E as ->. simpl.
  pose proof (post_contract_types pl) as T.
  destruct (post_contract pl).1 as [st ct m | mime name data]; simpl in A.
  - destruct A as (_ & Hct & ->). destruct T as [-> | [-> Ht]]; [by left | right; split; [done | by exists ct]].
  - destruct A as (_ & Hct & _ & ->). by exists mime.
Qed.
End Chain.

(** ** The upload layer's answers *)

Section Routes.
Context `{Codec}.

Lemma post_multipart_error (env : Env) (ps : list Part) (err : UploadError) (w : World) :
  w_res w = fresh_response -> multer_single ps = inr err ->
  exists r', post_convert env (Multipart ps) w = (Ret tt, mkWorld r' (w_fs w) (w_log w ++ (upload_answer err).2)) /\
             answers r' (upload_answer err).1.
Proof. intros Hw Hm. unfold post_convert. simpl. rewrite Hm. by apply error_middleware_run. Qed.

(** C12: an image over 50 MiB is refused with the 400 "too large" answer,
    nothing logged and the handler never run. *)
Theorem post_too_large (env : Env) (pre post : list Part) (filename : string) (data : Buffer) (w : World) :
  w_res w = fresh_response -> forallb field_ok pre = true -> busboy_basename filename <> "" ->
  img_reg_test (busboy_basename filename) = true -> FILE_SIZE_LIMIT < Z.of_nat (List.length data) ->
  post_convert env (Multipart (pre ++ PFile "image" filename data :: post)) w =
  (Ret tt, mkWorld (json_error_response 400 too_large_msg) (w_fs w) (w_log w)).
Proof.
  intros Hw Hpre Hn Ht Hs. unfold post_convert, parse_request, multer_single.
  rewrite upload_first_file, Ht by done. simpl.
  destruct (Z.ltb_spec FILE_SIZE_LIMIT (Z.of_nat (List.length data))) as [_|]; [|lia].
  by apply send_error_fresh.
Qed.

(** C17: a file whose name is not an image name is refused before any
    codec runs, whatever its size: the answer is a 500 (not the 400 of a
    client error) carrying the filter's message, which is logged. *)
Theorem post_filter_rejects (env : Env) (pre post : list Part) (filename : string) (data : Buffer) (w : World) :
  w_res w = fresh_response -> forallb field_ok pre = true -> busboy_basename filename <> "" ->
  img_reg_test (busboy_basename filename) = false ->
  post_convert env (Multipart (pre ++ PFile "image" filename data :: post)) w =
  (Ret tt, mkWorld (json_error_response 500 filter_msg) (w_fs w) (w_log w ++ [filter_msg])).
Proof.
  intros Hw Hpre Hn Ht. unfold post_convert, parse_request, multer_single.
  rewrite upload_first_file, Ht by done. simpl.
  exact (send_error_fresh 500 filter_msg (mkWorld (w_res w) (w_fs w) (w_log w ++ [filter_msg])) Hw).
Qed.

(** C25: a [format] field sent twice becomes an array, and the handler's
    [.toLowerCase()] throws: the request is answered 500 with V8's
    TypeError message instead of being validated. *)
Theorem post_repeated_format (env : Env) (pre post : list Part) (filename : string) (data : Buffer)
    (a a' : string) (rest : list string) (w : World) :
  w_res w = fresh_response -> forallb field_ok pre = true -> forallb field_ok post = true ->
  busboy_basename filename <> "" -> img_reg_test (busboy_basename filename) = true ->
  Z.of_nat (List.length data) <= FILE_SIZE_LIMIT ->
  field_values "format" (pre ++ post) = a :: a' :: rest ->
  exists w', post_convert env (Multipart (pre ++ PFile "image" filename data :: post)) w = (Ret tt, w') /\
    res_status (w_res w') = 500 /\ res_body (w_res w') = Some (BodyJsonError to_lower_type_error) /\
    w_log w' = w_log w ++ [to_lower_type_error].
Proof.
  intros Hw Hpre Hpost Hn Ht Hs Hv. destruct (post_run env (Multipart (pre ++ PFile "image" filename data :: post)) w Hw) as (r' & E & A).
  unfold post_contract, parse_request in E, A. rewrite multer_one_file in E, A by done.
  assert (Hf : requested_format (mkRequest (Some (mkFile (busboy_basename filename) (Z.of_nat (List.length data)) data))
                                           (fields_body ∅ (pre ++ post))) = inl to_lower_type_error).
  { unfold requested_format, body_field. simpl. by rewrite fields_body_spec, Hv. }
  unfold convert_contract in E, A. rewrite Hf in E, A. simpl in A. destruct A as (As & Act & Ab).
  eexists. split; [exact E|]. done.
Qed.

(** C26: a malformed JSON body is a client error that body-parser marks
    400, but the error middleware ignores the status and answers 500
    with the parser's message. *)
Theorem post_malformed_json (env : Env) (m : string) (w : World) :
  w_res w = fresh_response -> m <> "" ->
  post_convert env (JsonMalformed m) w = (Ret tt, mkWorld (json_error_response 500 m) (w_fs w) (w_log w ++ [m])).
Proof.
  intros Hw Hm. unfold post_convert. simpl. apply String.eqb_neq in Hm. rewrite Hm.
  exact (send_error_fresh 500 m (mkWorld (w_res w) (w_fs w) (w_log w ++ [m])) Hw).
Qed.
End Routes.

(** ** End to end, on the reference codec *)

Import Samples.

(** The form the page sends: the file first, then the fields. *)
Definition form (name : string) (data : Buffer) (fields : list (string * string)) : Payload :=
  Multipart (PFile "image" name data :: map (fun kv => PField kv.1 kv.2) fields).

Definition png100x50 : Buffer := RefCodec.image FmtPng (100, 50).

(** A 100 x 50 PNG posted with [format=webp&quality=50] comes back
    with status 200, type [image/webp], WebP magic bytes, its name, and
    dimensions 100 x 50. *)
Example e2e_webp_quality50 :
  let w' := (@post_convert RefCodec.ref_codec env0 (form "photo.png" png100x50 [("format", "webp"); ("quality", "50")]) w0).2 in
  res_status (w_res w') = 200 /\
  header_lookup "content-type" (res_headers (w_res w')) = Some "image/webp" /\
  header_lookup "content-disposition" (res_headers (w_res w')) = Some (content_disposition "photo.webp") /\
  (exists data, res_body (w_res w') = Some (BodyBytes data) /\ sniff data = Some FmtWebp /\
                RefCodec.dims data = Some (100, 50)).
Proof. vm_compute. repeat split. eexists. split; [reflexivity | split; reflexivity]. Qed.

(** The same PNG with [maxWidth=50] comes back as 50 x 25. *)
Example e2e_webp_max_width50 :
  let w' := (@post_convert RefCodec.ref_codec env0 (form "photo.png" png100x50 [("format", "webp"); ("maxWidth", "50")]) w0).2 in
  res_status (w_res w') = 200 /\
  (exists data, res_body (w_res w') = Some (BodyBytes data) /\ RefCodec.dims data = Some (50, 25)).
Proof. vm_compute. split; [reflexivity|]. eexists. split; reflexivity. Qed.

Lemma post_refines_witness :
  exists r', @post_convert RefCodec.ref_codec env0 (form "photo.png" png100x50 [("format", "ico")]) w0 =
    (Ret tt, mkWorld r' (@post_fs RefCodec.ref_codec env0 (form "photo.png" png100x50 [("format", "ico")]) (w_fs w0))
                        (w_log w0 ++ (@post_contract RefCodec.ref_codec (form "photo.png" png100x50 [("format", "ico")])).2)) /\
    answers r' (@post_contract RefCodec.ref_codec (form "photo.png" png100x50 [("format", "ico")])).1.
Proof. apply post_refines. reflexivity. Defined.

(** 50 MiB and one byte. *)
Definition big_data : Buffer := replicate (Z.to_nat (FILE_SIZE_LIMIT + 1)) (b 0).

Lemma post_too_large_witness :
  @post_convert RefCodec.ref_codec env0 (Multipart ([] ++ PFile "image" "big.png" big_data :: [PField "format" "png"])) w0 =
  (Ret tt, mkWorld (json_error_response 400 too_large_msg) (w_fs w0) (w_log w0)).
Proof.
  apply post_too_large; [reflexivity | reflexivity | vm_compute; discriminate | vm_compute; reflexivity |].
  unfold big_data. rewrite length_replicate, Z2Nat.id; unfold FILE_SIZE_LIMIT; lia.
Defined.

Lemma post_filter_rejects_witness :
  @post_convert RefCodec.ref_codec env0 (Multipart ([] ++ PFile "image" "notes.txt" [b 0] :: [])) w0 =
  (Ret tt, mkWorld (json_error_response 500 filter_msg) (w_fs w0) (w_log w0 ++ [filter_msg])).
Proof. apply post_filter_rejects; [reflexivity | reflexivity | vm_compute; discriminate | vm_compute; reflexivity]. Defined.

Lemma post_repeated_format_witness :
  exists w', @post_convert RefCodec.ref_codec env0
               (Multipart ([] ++ PFile "image" "photo.png" png100x50 :: [PField "format" "png"; PField "format" "webp"])) w0 = (Ret tt, w') /\
    res_status (w_res w') = 500 /\ res_body (w_res w') = Some (BodyJsonError to_lower_type_error) /\
    w_log w' = w_log w0 ++ [to_lower_type_error].
Proof.
  apply (post_repeated_format env0 [] _ "photo.png" png100x50 "png" "webp" []);
    first [reflexivity | vm_compute; discriminate | vm_compute; reflexivity | unfold png100x50, FILE_SIZE_LIMIT; simpl; lia].
Defined.

Lemma post_malformed_json_witness :
  @post_convert RefCodec.ref_codec env0 (JsonMalformed "Unexpected token } in JSON at position 10") w0 =
  (Ret tt, mkWorld (json_error_response 500 "Unexpected token } in JSON at position 10") (w_fs w0)
                   (w_log w0 ++ ["Unexpected token } in JSON at position 10"])).
Proof. apply post_malformed_json; [reflexivity | discriminate]. Defined.

(** A name with a line feed: the download name is refused after the
    conversion. *)
Definition newline_png : string := String (ascii_of_nat 10) "photo.png".

Lemma post_response_typed_witness :
  let w' := (@post_convert RefCodec.ref_codec env0 (form newline_png png100x50 [("format", "webp")]) w0).2 in
  match res_body (w_res w') with
  | Some (BodyBytes _) =>
      exists t, header_lookup "content-type" (res_headers (w_res w')) = Some t /\ In t image_types
  | Some (BodyJsonError m) =>
      header_lookup "content-type" (res_headers (w_res w')) = Some "application/json; charset=utf-8" \/
      (m = invalid_char_msg "Content-Disposition" /\
       exists t, In t image_types /\ header_lookup "content-type" (res_headers (w_res w')) = Some (t +++ "; charset=utf-8"))
  | None => False
  end.
Proof.
  apply (@post_response_typed RefCodec.ref_codec env0 (form newline_png png100x50 [("format", "webp")]) w0);
    [reflexivity | vm_compute; reflexivity].
Defined.
