(* ===== verification/Deploy.v ===== *)
(** How the server is started and reached: the listen port of server.js
    (line 10, [process.env.PORT || 3008], and lines 136-138,
    [app.listen(PORT, "0.0.0.0", ...)]) and the browser-sync
    configuration of src/bs-config.docker.js, which serves the page on
    its own port and proxies requests to the server.  [app.listen] hands
    its arguments to Node's [net.Server.listen], which reads a string
    port with ECMAScript's [Number()]: a string that is not a non-negative
    number names a local (UNIX-domain) socket, and a number that is not a
    port makes [listen] throw before the server starts.  [Number()] of a
    string is modelled exactly as a rational [m * 10^e]; a literal with
    more than fifteen significant digits or a decimal exponent beyond 300,
    where rounding to a double could change the outcome, is flagged
    ([NumBeyond]) instead of represented. *)
From S2P Require Import Prelude JsString JsNumber.

Local Open Scope Z_scope.

(** ** Number(string) (ECMAScript StringToNumber) *)

(** [NumFin neg m e] is [(-1)^neg * m * 10^e], with [m >= 0]. *)
Inductive NumValue :=
  | NumNaN
  | NumInf (neg : bool)
  | NumFin (neg : bool) (m e : Z)
  | NumBeyond.

Fixpoint skip_digits (s : string) : string :=
  match s with
  | String c s' => if is_digit c then skip_digits s' else s
  | EmptyString => s
  end.

(** The digit of [c] in radix 2, 8 or 16. *)
Definition radix_digit (r : Z) (c : ascii) : option Z :=
  let n := Z.of_nat (nat_of_ascii c) in
  let v := if (48 <=? n) && (n <=? 57) then n - 48
           else if (97 <=? n) && (n <=? 102) then n - 87
           else if (65 <=? n) && (n <=? 70) then n - 55 else r in
  if v <? r then Some v else None.

Fixpoint radix_value (r acc : Z) (s : string) : option Z :=
  match s with
  | EmptyString => Some acc
  | String c s' => match radix_digit r c with Some d => radix_value r (r * acc + d) s' | None => None end
  end.

(** [0x...], [0o...], [0b...] (NonDecimalIntegerLiteral). *)
Definition radix_literal (t : string) : option Z :=
  match t with
  | String z (String p (String c rest)) =>
      if Ascii.eqb z "0" then
        let r := if Ascii.eqb p "x" || Ascii.eqb p "X" then 16
                 else if Ascii.eqb p "o" || Ascii.eqb p "O" then 8
                 else if Ascii.eqb p "b" || Ascii.eqb p "B" then 2 else 0 in
        if r =? 0 then None else radix_value r 0 (String c rest)
      else None
  | _ => None
  end.

(** ExponentPart after its [e]: an optional sign and digits. *)
Definition parse_exponent (s : string) : option (Z * string) :=
  let '(sg, u) :=
    match s with
    | String c u => if Ascii.eqb c "+" then (1, u) else if Ascii.eqb c "-" then (-1, u) else (1, s)
    | EmptyString => (1, s)
    end in
  match digit_prefix u with
  | [] => None
  | ds => Some (sg * digits_value ds, skip_digits u)
  end.

(** StrUnsignedDecimalLiteral but [Infinity]: digits, an optional point
    and digits (one digit at least), an optional exponent; the mantissa,
    the exponent and what follows. *)
Definition parse_decimal (s : string) : option (Z * Z * string) :=
  let ds1 := digit_prefix s in
  let r1 := skip_digits s in
  let '(ds2, r2) :=
    match r1 with
    | String c r => if Ascii.eqb c "." then (digit_prefix r, skip_digits r) else ([], r1)
    | EmptyString => ([], r1)
    end in
  match ds1 ++ ds2 with
  | [] => None
  | ds =>
      let m := digits_value ds in
      let e0 := - Z.of_nat (List.length ds2) in
      match r2 with
      | String c r3 =>
          if Ascii.eqb c "e" || Ascii.eqb c "E" then
            match parse_exponent r3 with Some (x, r4) => Some (m, x + e0, r4) | None => None end
          else Some (m, e0, r2)
      | EmptyString => Some (m, e0, r2)
      end
  end.

Definition beyond_double (m e : Z) : bool := (10 ^ 15 <=? m) || (negb (m =? 0) && ((e <? -300) || (300 <? e))).

Definition js_to_number (s : string) : NumValue :=
  let t := js_trim s in
  match t with
  | EmptyString => NumFin false 0 0
  | String c u =>
      match radix_literal t with
      | Some v => NumFin false v 0
      | None =>
          let '(neg, w) := if Ascii.eqb c "-" then (true, u) else if Ascii.eqb c "+" then (false, u) else (false, t) in
          if String.eqb w "Infinity" then NumInf neg
          else match parse_decimal w with
               | Some (m, e, EmptyString) => if beyond_double m e then NumBeyond else NumFin neg m e
               | _ => NumNaN
               end
      end
  end.

(** The integer a finite value denotes, if it is one. *)
Definition fin_integer (m e : Z) : option Z :=
  if 0 <=? e then Some (m * 10 ^ e)
  else if m mod 10 ^ (- e) =? 0 then Some (m / 10 ^ (- e)) else None.

(** ** Node's net.Server.listen(port, host, callback) *)

(** A port argument: a number, or a string. *)
Inductive PortArg := PortNum (n : Z) | PortStr (s : string).

(** What [listen] does: listen on TCP, listen on a local socket at a path
    (the host argument is then ignored), or throw [ERR_SOCKET_BAD_PORT]. *)
Inductive Listen :=
  | ListenTcp (port : Z) (host : string)
  | ListenPipe (path : string)
  | BadPort.

(** [normalizeArgs]: a string whose [Number] is not [>= 0]
    ([toNumber(x) === false]) is a pipe name. *)
Definition is_pipe_name (s : string) : option bool :=
  match js_to_number s with
  | NumNaN => Some true
  | NumInf neg => Some neg
  | NumFin neg m _ => Some (neg && negb (m =? 0))
  | NumBeyond => None
  end.

(** [validatePort]: a number or a non-blank string whose [Number] is an
    integer in [0, 65535]; the port is then [port | 0]. *)
Definition validate_port (p : PortArg) : option (option Z) :=
  match p with
  | PortNum n => Some (if (0 <=? n) && (n <=? 65535) then Some n else None)
  | PortStr s =>
      if String.eqb (js_trim s) "" then Some None
      else match js_to_number s with
           | NumFin neg m e =>
               Some (match fin_integer m e with
                     | Some v => if v <=? 65535 then Some v else None
                     | None => None
                     end)
           | NumBeyond => None
           | _ => Some None
           end
  end.

(** [None] when the port string is beyond the model of [Number]. *)
Definition node_listen (p : PortArg) (host : string) : option Listen :=
  match p with
  | PortStr s =>
      match is_pipe_name s with
      | Some true => Some (ListenPipe s)
      | Some false => option_map (fun v => match v with Some n => ListenTcp n host | None => BadPort end) (validate_port p)
      | None => None
      end
  | PortNum _ => option_map (fun v => match v with Some n => ListenTcp n host | None => BadPort end) (validate_port p)
  end.

(** ** server.js *)

(** Line 10: [process.env.PORT || 3008]; an environment variable is a
    string or absent, and [""] is falsy. *)
Definition PORT (env_port : option string) : PortArg :=
  match env_port with
  | Some s => if String.eqb s "" then PortNum 3008 else PortStr s
  | None => PortNum 3008
  end.

Definition port_text (p : PortArg) : string := match p with PortNum n => js_dec n | PortStr s => s end.

(** Lines 136-138: the server starts listening on all interfaces. *)
Definition server_listen (env_port : option string) : option Listen := node_listen (PORT env_port) "0.0.0.0".

(** Line 137: the line the callback logs once the server listens. *)
Definition listen_log (env_port : option string) : string :=
  "Convert-image " +++ latin1 233 +++ "coute sur http://0.0.0.0:" +++ port_text (PORT env_port).

(** ** src/bs-config.docker.js *)

Record BsConfig := mkBsConfig {
  bs_proxy : string;
  bs_files : string;
  bs_port : Z;
  bs_open : bool;
  bs_host : string;
  bs_use_polling : bool;
  bs_interval : Z
}.

Definition bs_config_docker : BsConfig :=
  mkBsConfig "http://localhost:3009" "public/**" 3008 false "0.0.0.0" true 500.

(** The port of an [http://host:port] URL, 80 when it has none. *)
Definition http_url_port (u : string) : option Z :=
  if String.prefix "http://" u then
    let auth := substring 7 (String.length u - 7) u in
    match String.index 0 ":" auth with
    | Some i => js_parse_int10 (substring (S i) (String.length auth - S i) auth)
    | None => Some 80
    end
  else None.

(** ** Lemmas *)

Lemma skip_digits_forall (s : string) :
  skip_digits s = "" -> Forall (fun c => is_digit c = true) (list_ascii_of_string s).
Proof.
  induction s as [|c s IH]; simpl; [constructor|].
  destruct (is_digit c) eqn:Hc; [|discriminate]. intros H. constructor; auto.
Qed.

Lemma trim_start_forall (s : string) :
  Forall (fun c => is_digit c = true) (list_ascii_of_string s) -> trim_start s = s.
Proof. destruct s as [|c s]; simpl; [done|]. intros Hf. inversion Hf. by rewrite digit_not_space. Qed.

(** A string of digits has no white space to trim. *)
Lemma js_trim_digits (s : string) : skip_digits s = "" -> js_trim s = s.
Proof.
  intros Hs. apply skip_digits_forall in Hs. unfold js_trim, rev_string.
  rewrite (trim_start_forall s Hs), trim_start_forall.
  - by rewrite list_ascii_of_string_of_list_ascii, rev_involutive, string_of_list_ascii_of_string.
  - rewrite list_ascii_of_string_of_list_ascii. by apply Forall_rev.
Qed.

Lemma skip_dec_digits (fuel : nat) (n : Z) (acc : string) :
  0 <= n < 10 ^ Z.of_nat (S fuel) -> skip_digits (dec_digits fuel n acc) = skip_digits acc.
Proof.
  revert n acc. induction fuel as [|f IH]; intros n acc Hn; simpl.
  - destruct (digit_char_ok n) as [Hd _]; [simpl in Hn; lia|]. by rewrite Hd.
  - destruct (Z.ltb_spec n 10) as [Hlt | Hge].
    + destruct (digit_char_ok n) as [Hd _]; [lia|]. simpl. by rewrite Hd.
    + assert (Hpow : 10 ^ Z.of_nat (S (S f)) = 10 * 10 ^ Z.of_nat (S f)) by (rewrite !Nat2Z.inj_succ, Z.pow_succ_r; lia).
      rewrite IH; [|split; [apply Z.div_pos; lia | apply Z.div_lt_upper_bound; lia]].
      destruct (digit_char_ok (n mod 10)) as [Hd _]; [apply Z.mod_pos_bound; lia|]. simpl. by rewrite Hd.
Qed.

(** [String(n)] is digits only, led by a digit. *)
Lemma js_dec_shape (n : Z) :
  0 <= n -> skip_digits (js_dec n) = "" /\ exists c u, js_dec n = String c u /\ is_digit c = true.
Proof.
  intros Hn. split; [unfold js_dec; by rewrite skip_dec_digits by (apply js_dec_fuel, Hn)|].
  destruct (js_dec_digits n Hn) as (ds & Hne & Hp & _). destruct (js_dec n) as [|c u]; [simpl in Hp; by subst|].
  exists c, u. split; [done|]. simpl in Hp. by destruct (is_digit c).
Qed.

Lemma digit_not_radix (c : ascii) : is_digit c = true ->
  Ascii.eqb c "x" || Ascii.eqb c "X" || Ascii.eqb c "o" || Ascii.eqb c "O" || Ascii.eqb c "b" || Ascii.eqb c "B" ||
  Ascii.eqb c "-" || Ascii.eqb c "+" = false.
Proof.
  intros Hc. repeat (apply orb_false_iff; split);
    match goal with |- Ascii.eqb c ?a = false => destruct (Ascii.eqb_spec c a) as [->|]; [discriminate|done] end.
Qed.

(** [Number(String(n))] is [n]. *)
Lemma to_number_js_dec (n : Z) : 0 <= n < 10 ^ 15 -> js_to_number (js_dec n) = NumFin false n 0.
Proof.
  intros Hn. destruct (js_dec_shape n ltac:(lia)) as [Hs (c & u & Hcu & Hc)].
  destruct (js_dec_digits n ltac:(lia)) as (ds & Hne & Hp & Hv).
  pose proof (digit_not_radix c Hc) as Hr. repeat rewrite orb_false_iff in Hr.
  destruct Hr as [[[[[[[Hx HX] Ho] HO] Hb] HB] Hm] Hpl].
  unfold js_to_number. rewrite js_trim_digits by done. rewrite Hcu.
  assert (Hrad : radix_literal (String c u) = None).
  { pose proof Hs as Hs'. rewrite Hcu in Hs'. unfold radix_literal. destruct u as [|p [|c' rest]]; try done.
    destruct (Ascii.eqb c "0") eqn:H0; [|done]. apply Ascii.eqb_eq in H0. subst c.
    apply skip_digits_forall in Hs'. simpl in Hs'. inversion Hs' as [|x l _ Hl]; subst.
    inversion Hl as [|y l' Hp' _]; subst.
    pose proof (digit_not_radix p Hp') as Hr'. repeat rewrite orb_false_iff in Hr'.
    destruct Hr' as [[[[[[[-> ->] ->] ->] ->] ->] _] _]. done. }
  rewrite Hrad, Hm, Hpl. rewrite <- Hcu.
  assert (Hi : String.eqb (js_dec n) "Infinity" = false).
  { rewrite Hcu. destruct (String.eqb_spec (String c u) "Infinity") as [E|]; [|done]. injection E as -> _. discriminate. }
  rewrite Hi. unfold parse_decimal. rewrite Hp, Hs, app_nil_r. destruct ds as [|d ds']; [done|].
  rewrite <- Hv. unfold beyond_double. simpl.
  replace (digits_value (d :: ds') <? 10 ^ 15) with true by (symmetry; apply Z.ltb_lt; lia).
  destruct (Z.leb_spec (10 ^ 15) (digits_value (d :: ds'))); [lia|]. simpl.
  by destruct (digits_value (d :: ds') =? 0).
Qed.

(** ** The port the server listens on *)

(** C21: a [PORT] written as a decimal port number is the TCP port the
    server listens on, on all interfaces, and the port its start-up line
    shows: [Number(String(n))] reads [n] back. *)
Theorem listen_decimal (n : Z) :
  0 <= n <= 65535 ->
  server_listen (Some (js_dec n)) = Some (ListenTcp n "0.0.0.0") /\
  listen_log (Some (js_dec n)) = "Convert-image " +++ latin1 233 +++ "coute sur http://0.0.0.0:" +++ js_dec n.
Proof.
  intros Hn. destruct (js_dec_shape n ltac:(lia)) as [Hs (c & u & Hcu & _)].
  assert (Hne : String.eqb (js_dec n) "" = false) by (by rewrite Hcu).
  unfold server_listen, listen_log, PORT. rewrite Hne. split; [|reflexivity].
  unfold node_listen, is_pipe_name, validate_port.
  rewrite to_number_js_dec by lia. rewrite js_trim_digits, Hne by done. simpl.
  unfold fin_integer. simpl. rewrite Z.mul_1_r.
  destruct (Z.leb_spec n 65535); [reflexivity | lia].
Qed.

(** What [listen] does with a non-empty [PORT], by the value [Number]
    reads from it. *)
Lemma server_listen_str (s : string) :
  s <> "" ->
  server_listen (Some s) =
    match js_to_number s with
    | NumNaN => Some (ListenPipe s)
    | NumInf neg => Some (if neg then ListenPipe s else BadPort)
    | NumFin neg m e =>
        Some (if neg && negb (m =? 0) then ListenPipe s
              else if String.eqb (js_trim s) "" then BadPort
              else match fin_integer m e with
                   | Some v => if v <=? 65535 then ListenTcp v "0.0.0.0" else BadPort
                   | None => BadPort
                   end)
    | NumBeyond => None
    end.
Proof.
  intros Hs. unfold server_listen, PORT. rewrite (proj2 (String.eqb_neq s "") Hs).
  unfold node_listen, is_pipe_name, validate_port.
  destruct (js_to_number s) as [|[]|[] m e|]; simpl; try done;
    destruct (String.eqb (js_trim s) ""); try done; try (destruct (m =? 0)); simpl; try done;
    by destruct (fin_integer m e) as [v|]; [destruct (v <=? 65535)|].
Qed.

Lemma to_number_blank (s : string) : js_trim s = "" -> js_to_number s = NumFin false 0 0.
Proof. intros H. unfold js_to_number. by rewrite H. Qed.

Lemma fin_integer_zero (e : Z) : fin_integer 0 e = Some 0.
Proof.
  unfold fin_integer. destruct (Z.leb_spec 0 e); [done|].
  by rewrite Zmod_0_l, Z.div_0_l by (apply Z.pow_nonzero; lia).
Qed.

Ltac listen_cases s :=
  destruct (js_to_number s) as [|[]|[] ? ?|] eqn:Hn; simpl;
  try (match goal with |- context [?m =? 0] => destruct (Z.eqb_spec m 0) as [->|] end); simpl;
  try (destruct (String.eqb_spec (js_trim s) "") as [Ht|Ht];
       [rewrite (to_number_blank s Ht) in Hn; simplify_eq|]);
  try (match goal with |- context [fin_integer 0 ?e] => pose proof (fin_integer_zero e); rewrite fin_integer_zero end);
  try (match goal with |- context [fin_integer ?m ?e] => destruct (fin_integer m e) eqn:Hv end);
  try (match goal with |- context [?v <=? 65535] => destruct (Z.leb_spec v 65535) end).

(** [PORT] is a TCP port exactly when it is not blank and [Number] reads
    from it an integer of at most 65535 that is not below zero. *)
Lemma server_listen_tcp (s : string) (n : Z) (h : string) :
  s <> "" ->
  server_listen (Some s) = Some (ListenTcp n h) <->
    h = "0.0.0.0" /\ js_trim s <> "" /\
    exists neg m e, js_to_number s = NumFin neg m e /\ (neg = false \/ m = 0) /\ fin_integer m e = Some n /\ n <= 65535.
Proof. intros Hs. rewrite server_listen_str by done. listen_cases s; naive_solver lia. Qed.

(** C32: the Docker browser-sync configuration proxies the page's requests
    to the port of its [proxy] URL, 3009. The server listens there exactly
    when [PORT] is set to a non-blank value that [Number] reads as 3009;
    with [PORT] unset or empty it listens on 3008, the port browser-sync
    itself serves the page on, which is not the proxied port. *)
Theorem dev_proxy_port (env : option string) (p : Z) :
  http_url_port (bs_proxy bs_config_docker) = Some p ->
  (server_listen env = Some (ListenTcp p "0.0.0.0") <->
     exists s neg m e, env = Some s /\ js_trim s <> "" /\ js_to_number s = NumFin neg m e /\
                       (neg = false \/ m = 0) /\ fin_integer m e = Some 3009) /\
  (env = None \/ env = Some "" ->
     server_listen env = Some (ListenTcp (bs_port bs_config_docker) (bs_host bs_config_docker)) /\
     bs_port bs_config_docker <> p).
Proof.
  intros Hp. vm_compute in Hp. injection Hp as <-. split.
  - destruct env as [s|].
    + destruct (String.eqb_spec s "") as [->|Hs].
      * split; [vm_compute; discriminate | intros (s' & neg & m & e & Hs' & Ht & _); by simplify_eq].
      * rewrite server_listen_tcp by done. naive_solver lia.
    + split; [vm_compute; discriminate | naive_solver].
  - intros [-> | ->]; vm_compute; (split; [reflexivity | discriminate]).
Qed.

(** C33: the server hands a non-empty [PORT] to [listen] as a string. A
    value [Number] reads as NaN, as minus infinity or as a negative number
    makes it listen on a local socket file of that name instead of a TCP
    port; a blank value, plus infinity, or a number that is not an integer
    up to 65535 makes [listen] throw at start-up; any other spelling of an
    integer (signed zero, blanks around it, hexadecimal, an exponent) is
    listened on as that integer. *)
Theorem listen_port_misread (s : string) :
  s <> "" ->
  (server_listen (Some s) = Some (ListenPipe s) <->
     js_to_number s = NumNaN \/ js_to_number s = NumInf true \/
     exists m e, js_to_number s = NumFin true m e /\ m <> 0) /\
  (server_listen (Some s) = Some BadPort <->
     js_trim s = "" \/ js_to_number s = NumInf false \/
     exists neg m e, js_to_number s = NumFin neg m e /\ (neg = false \/ m = 0) /\
                     (fin_integer m e = None \/ exists v, fin_integer m e = Some v /\ 65535 < v)) /\
  (forall n, server_listen (Some s) = Some (ListenTcp n "0.0.0.0") <->
     js_trim s <> "" /\ exists neg m e, js_to_number s = NumFin neg m e /\ (neg = false \/ m = 0) /\
                                      fin_integer m e = Some n /\ n <= 65535).
Proof.
  intros Hs. split; [|split].
  - rewrite server_listen_str by done. listen_cases s; naive_solver lia.
  - rewrite server_listen_str by done. listen_cases s; naive_solver lia.
  - intros n. rewrite server_listen_tcp by done. naive_solver.
Qed.

Lemma listen_decimal_witness :
  server_listen (Some (js_dec 3009)) = Some (ListenTcp 3009 "0.0.0.0") /\
  listen_log (Some (js_dec 3009)) = "Convert-image " +++ latin1 233 +++ "coute sur http://0.0.0.0:" +++ js_dec 3009.
Proof. apply listen_decimal. lia. Defined.

Lemma dev_proxy_port_witness :
  http_url_port (bs_proxy bs_config_docker) = Some 3009 /\
  ((server_listen None = Some (ListenTcp 3009 "0.0.0.0") <->
     exists s neg m e, @None string = Some s /\ js_trim s <> "" /\ js_to_number s = NumFin neg m e /\
                       (neg = false \/ m = 0) /\ fin_integer m e = Some 3009) /\
   (@None string = None \/ @None string = Some "" ->
     server_listen None = Some (ListenTcp (bs_port bs_config_docker) (bs_host bs_config_docker)) /\
     bs_port bs_config_docker <> 3009)).
Proof.
  assert (Hp : http_url_port (bs_proxy bs_config_docker) = Some 3009) by (vm_compute; reflexivity).
  split; [exact Hp | exact (dev_proxy_port None 3009 Hp)].
Defined.

Lemma listen_port_misread_witness :
  (server_listen (Some "dev") = Some (ListenPipe "dev") <->
     js_to_number "dev" = NumNaN \/ js_to_number "dev" = NumInf true \/
     exists m e, js_to_number "dev" = NumFin true m e /\ m <> 0) /\
  (server_listen (Some "dev") = Some BadPort <->
     js_trim "dev" = "" \/ js_to_number "dev" = NumInf false \/
     exists neg m e, js_to_number "dev" = NumFin neg m e /\ (neg = false \/ m = 0) /\
                     (fin_integer m e = None \/ exists v, fin_integer m e = Some v /\ 65535 < v)) /\
  (forall n, server_listen (Some "dev") = Some (ListenTcp n "0.0.0.0") <->
     js_trim "dev" <> "" /\ exists neg m e, js_to_number "dev" = NumFin neg m e /\ (neg = false \/ m = 0) /\
                                          fin_integer m e = Some n /\ n <= 65535).
Proof. apply listen_port_misread. discriminate. Defined.
