(* ===== verification/Url.v ===== *)
(** The URL handling the Express application relies on for every request
    (server.js lines 23-26): [parseurl]'s fast path, which splits the
    request target into pathname and search; [decodeURIComponent] (the
    [decode] of [send]) as a step function over the characters of the
    path, a state machine through the escapes and the UTF-8 sequences
    they form; [encodeurl], which percent-encodes what may not stand in a
    URL before a path is echoed in a [Location] header or a page; and
    [escape-html].  These are library functions (parseurl 1.3, encodeurl
    2, escape-html 1, ECMAScript's [Decode]) modelled from their
    documentation and source; strings are Latin-1 code units as in the
    rest of the development, and a decoded code point above U+00FF is
    flagged ([DecWide]) rather than represented. *)
From S2P Require Import Prelude JsString Regex.

Local Open Scope Z_scope.

(** ** Character classes *)

Definition code_in (c : ascii) (lo hi : nat) : bool := ((lo <=? code c) && (code c <=? hi))%nat.

Definition hex_val (c : ascii) : option Z :=
  if code_in c 48 57 then Some (Z.of_nat (code c) - 48)
  else if code_in c 65 70 then Some (Z.of_nat (code c) - 55)
  else if code_in c 97 102 then Some (Z.of_nat (code c) - 87)
  else None.

Definition chr (n : Z) : ascii := ascii_of_nat (Z.to_nat n).

(** Upper-case hexadecimal digit, as [encodeURI] writes them. *)
Definition hex_upper (n : Z) : ascii := if n <? 10 then chr (48 + n) else chr (55 + n).

Definition pct_byte (b : Z) : string := String "%" (String (hex_upper (b / 16)) (String (hex_upper (b mod 16)) "")).

(** The UTF-8 encoding of a Latin-1 code unit, percent-encoded. *)
Definition pct_utf8 (c : ascii) : string :=
  let n := Z.of_nat (code c) in
  if n <? 128 then pct_byte n else pct_byte (192 + n / 64) +++ pct_byte (128 + n mod 64).

(** ** parseurl (fast path) *)

(** The characters that make [fastparse] fall back to [url.parse]. *)
Definition fast_special (c : ascii) : bool :=
  let n := code c in ((n =? 9) || (n =? 10) || (n =? 12) || (n =? 13) || (n =? 32) || (n =? 35) || (n =? 160))%nat.

Fixpoint has_fast_special (s : string) : bool :=
  match s with EmptyString => false | String c s' => fast_special c || has_fast_special s' end.

Fixpoint before_query (s : string) : string :=
  match s with
  | EmptyString => EmptyString
  | String c s' => if Ascii.eqb c "?" then EmptyString else String c (before_query s')
  end.

(** [url.search]: from the first [?] on, or empty. *)
Fixpoint url_search (s : string) : string :=
  match s with
  | EmptyString => EmptyString
  | String c s' => if Ascii.eqb c "?" then s else url_search s'
  end.

(** [parseurl(req).pathname]: [None] when the target does not start with
    [/] or holds a character of [fast_special], where [url.parse] takes
    over (outside the model). *)
Definition url_pathname (u : string) : option string :=
  match u with
  | String c _ => if Ascii.eqb c "/" && negb (has_fast_special u) then Some (before_query u) else None
  | EmptyString => None
  end.

(** ** decodeURIComponent *)

(** A UTF-8 sequence being read: continuation bytes still expected, the
    code point so far, the sequence's length. *)
Record Pending := mkPending { pd_left : nat; pd_acc : Z; pd_len : nat }.

Inductive DState :=
  | DText                                   (** between escapes *)
  | DHex1 (pd : option Pending)             (** after [%] *)
  | DHex2 (pd : option Pending) (hi : Z)    (** after [%] and one digit *)
  | DCont (pd : Pending).                   (** a continuation byte is due *)

(** The lead byte of a multi-byte sequence: its length and payload bits
    ([Decode] step 4.d.vii: one leading 1 bit or more than four is an
    error). *)
Definition utf8_lead (b : Z) : option (nat * Z) :=
  if b <? 192 then None
  else if b <? 224 then Some (2%nat, Z.land b 31)
  else if b <? 240 then Some (3%nat, Z.land b 15)
  else if b <? 248 then Some (4%nat, Z.land b 7)
  else None.

(** A complete sequence encodes a code point: not overlong, not a
    surrogate, at most U+10FFFF. *)
Definition valid_cp (n : nat) (v : Z) : bool :=
  let lo := match n with 2%nat => 128 | 3%nat => 2048 | _ => 65536 end in
  (lo <=? v) && (v <=? 1114111) && negb ((55296 <=? v) && (v <=? 57343)).

(** One character: the next state, the characters emitted, whether a code
    point above U+00FF was decoded; [None] is a [URIError]. *)
Definition dstep (st : DState) (c : ascii) : option (DState * string * bool) :=
  match st with
  | DText => if Ascii.eqb c "%" then Some (DHex1 None, EmptyString, false) else Some (DText, String c EmptyString, false)
  | DHex1 pd => match hex_val c with Some h => Some (DHex2 pd h, EmptyString, false) | None => None end
  | DHex2 pd hi =>
      match hex_val c with
      | None => None
      | Some lo =>
          let b := hi * 16 + lo in
          match pd with
          | None =>
              if b <? 128 then Some (DText, String (chr b) EmptyString, false)
              else match utf8_lead b with
                   | Some (n, v) => Some (DCont (mkPending (n - 1) v n), EmptyString, false)
                   | None => None
                   end
          | Some (mkPending k acc n) =>
              if Z.land b 192 =? 128 then
                let v := acc * 64 + Z.land b 63 in
                if (k =? 1)%nat then
                  if valid_cp n v then
                    if v <? 256 then Some (DText, String (chr v) EmptyString, false) else Some (DText, EmptyString, true)
                  else None
                else Some (DCont (mkPending (k - 1) v n), EmptyString, false)
              else None
          end
      end
  | DCont pd => if Ascii.eqb c "%" then Some (DHex1 (Some pd), EmptyString, false) else None
  end.

Fixpoint dec (st : DState) (s : string) : option (string * bool) :=
  match s with
  | EmptyString => match st with DText => Some (EmptyString, false) | _ => None end
  | String c s' =>
      match dstep st c with
      | None => None
      | Some (st', out, w) => option_map (fun '(t, w') => (out +++ t, w || w')) (dec st' s')
      end
  end.

Inductive Decoded :=
  | DecOk (s : string)
  | DecMalformed          (** [URIError]: [send]'s [decode] returns -1 *)
  | DecWide.              (** decodes to a code point above U+00FF *)

Definition decode_uri (s : string) : Decoded :=
  match dec DText s with
  | None => DecMalformed
  | Some (t, false) => DecOk t
  | Some (_, true) => DecWide
  end.

(** ** encodeurl *)

(** [encodeURI]'s unescaped characters: letters, digits, [-_.!~*'()] and
    the reserved [;/?:@&=+$,#]. *)
Definition uri_unescaped (c : ascii) : bool :=
  code_in c 48 57 || code_in c 65 90 || code_in c 97 122 ||
  existsb (Ascii.eqb c) ["-"; "_"; "."; "!"; "~"; "*"; "'"; "("; ")"; ";"; "/"; "?"; ":"; "@"; "&"; "="; "+"; "$"; ","; "#"]%char.

Definition encode_uri_char (c : ascii) : string := if uri_unescaped c then String c EmptyString else pct_utf8 c.

(** The characters [ENCODE_CHARS_REGEXP] leaves:
    [\x21\x23-\x3B\x3D\x3F-\x5F\x61-\x7A\x7C\x7E]. *)
Definition url_allowed (c : ascii) : bool :=
  (code c =? 33)%nat || code_in c 35 59 || (code c =? 61)%nat || code_in c 63 95 || code_in c 97 122 ||
  (code c =? 124)%nat || (code c =? 126)%nat.

(** [encodeUrl(url)]: each match of [ENCODE_CHARS_REGEXP] goes through
    [encodeURI]; a [%] starts a match unless two hex digits follow, and
    then the match takes the [%] with the next character, or with a digit
    and the character after it. *)
Fixpoint encode_url (s : string) : string :=
  match s with
  | EmptyString => EmptyString
  | String c s1 =>
      if Ascii.eqb c "%" then
        match s1 with
        | EmptyString => "%25"
        | String h1 s2 =>
            match hex_val h1 with
            | None => "%25" +++ encode_uri_char h1 +++ encode_url s2
            | Some _ =>
                match s2 with
                | EmptyString => String "%" (String h1 EmptyString)
                | String h2 s3 =>
                    match hex_val h2 with
                    | Some _ => String "%" (String h1 (String h2 (encode_url s3)))
                    | None => "%25" +++ String h1 EmptyString +++ encode_uri_char h2 +++ encode_url s3
                    end
                end
            end
        end
      else if url_allowed c then String c (encode_url s1)
      else encode_uri_char c +++ encode_url s1
  end.

(** ** escape-html *)

Definition escape_html_char (c : ascii) : string :=
  if Ascii.eqb c "&" then "&amp;"
  else if Ascii.eqb c "<" then "&lt;"
  else if Ascii.eqb c ">" then "&gt;"
  else if Ascii.eqb c (ascii_of_nat 34) then "&quot;"
  else if Ascii.eqb c "'" then "&#39;"
  else String c EmptyString.

Fixpoint escape_html (s : string) : string :=
  match s with EmptyString => EmptyString | String c s' => escape_html_char c +++ escape_html s' end.

(** ** Percent-encoding a path *)

(** How a client writes a path of the public directory in a URL: every
    character but letters, digits, [-_.~] and [/] percent-encoded as
    UTF-8 (what [encodeURIComponent] does on each segment). *)
Definition path_plain (c : ascii) : bool :=
  code_in c 48 57 || code_in c 65 90 || code_in c 97 122 || existsb (Ascii.eqb c) ["-"; "_"; "."; "~"; "/"]%char.

Definition pct_char (c : ascii) : string := if path_plain c then String c EmptyString else pct_utf8 c.

Fixpoint pct_encode (s : string) : string :=
  match s with EmptyString => EmptyString | String c s' => pct_char c +++ pct_encode s' end.

(** ** Lemmas *)

(** The decoder run over a whole string, ending in any state. *)
Fixpoint run (st : DState) (e : string) : option (DState * string * bool) :=
  match e with
  | EmptyString => Some (st, EmptyString, false)
  | String c e' =>
      match dstep st c with
      | None => None
      | Some (st1, o1, w1) =>
          match run st1 e' with None => None | Some (st2, o2, w2) => Some (st2, o1 +++ o2, w1 || w2) end
      end
  end.

Lemma dec_app (st : DState) (e t : string) :
  dec st (e +++ t) =
  match run st e with
  | None => None
  | Some (st', o, w) => option_map (fun '(x, w') => (o +++ x, w || w')) (dec st' t)
  end.
Proof.
  revert st. induction e as [|c e IH]; intros st.
  - rewrite js_append_nil_l. simpl. destruct (dec st t) as [[x w']|]; simpl; [by rewrite js_append_nil_l|done].
  - rewrite js_append_cons. simpl. destruct (dstep st c) as [[[st1 o1] w1]|]; [|done].
    rewrite IH. destruct (run st1 e) as [[[st2 o2] w2]|]; [|done].
    destruct (dec st2 t) as [[x w']|]; simpl; [|done]. by rewrite js_append_assoc, orb_assoc.
Qed.

(** Each percent-encoded character decodes back to itself, checked for
    the 256 code units. *)
Lemma pct_char_run_check :
  forallb (fun c => match run DText (pct_char c) with
                    | Some (DText, o, false) => String.eqb o (String c EmptyString)
                    | _ => false
                    end) all_chars = true.
Proof. vm_compute. reflexivity. Qed.

Lemma pct_char_run (c : ascii) : run DText (pct_char c) = Some (DText, String c EmptyString, false).
Proof.
  pose proof pct_char_run_check as H. rewrite forallb_forall in H.
  specialize (H c (all_chars_complete c)).
  destruct (run DText (pct_char c)) as [[[[] o] []]|]; try done. by apply String.eqb_eq in H as ->.
Qed.

(** [decodeURIComponent] inverts the percent-encoding of any path. *)
Lemma decode_pct_encode (s : string) : decode_uri (pct_encode s) = DecOk s.
Proof.
  enough (H : dec DText (pct_encode s) = Some (s, false)) by (unfold decode_uri; by rewrite H).
  induction s as [|c s IH]; [done|]. simpl. rewrite dec_app, pct_char_run, IH. done.
Qed.

(** A path without [%] decodes to itself. *)
Lemma decode_no_pct (s : string) : str_has "%" s = false -> decode_uri s = DecOk s.
Proof.
  enough (H : str_has "%" s = false -> dec DText s = Some (s, false)) by (intros Hs; unfold decode_uri; by rewrite H).
  induction s as [|c s IH]; [done|]. simpl. intros Hs. bool_to_prop.
  destruct (Ascii.eqb_spec c "%"); [done|]. rewrite IH by done. done.
Qed.

(** Every character [encodeurl] outputs is printable ASCII. *)
Fixpoint str_all (p : ascii -> bool) (s : string) : bool :=
  match s with EmptyString => true | String c s' => p c && str_all p s' end.

Definition printable (c : ascii) : bool := code_in c 33 126.

Lemma str_all_app (p : ascii -> bool) (a b : string) : str_all p (a +++ b) = str_all p a && str_all p b.
Proof. induction a as [|c a IH]; [done|]. rewrite js_append_cons. simpl. by rewrite IH, andb_assoc. Qed.

Lemma encode_uri_char_check : forallb (fun c => str_all printable (encode_uri_char c)) all_chars = true.
Proof. vm_compute. reflexivity. Qed.

Lemma encode_uri_char_printable (c : ascii) : str_all printable (encode_uri_char c) = true.
Proof. pose proof encode_uri_char_check as H. rewrite forallb_forall in H. apply H, all_chars_complete. Qed.

Lemma allowed_printable_check :
  forallb (fun c => implb (url_allowed c || match hex_val c with Some _ => true | None => false end) (printable c))
          all_chars = true.
Proof. vm_compute. reflexivity. Qed.

Lemma allowed_printable (c : ascii) : url_allowed c = true -> printable c = true.
Proof.
  pose proof allowed_printable_check as H. rewrite forallb_forall in H.
  specialize (H c (all_chars_complete c)). intros Hc. rewrite Hc in H. done.
Qed.

Lemma hex_printable (c : ascii) (v : Z) : hex_val c = Some v -> printable c = true.
Proof.
  pose proof allowed_printable_check as H. rewrite forallb_forall in H.
  specialize (H c (all_chars_complete c)). intros Hc. rewrite Hc, orb_true_r in H. done.
Qed.

Create Rewrite HintDb url_rw.
#[local] Hint Rewrite str_all_app encode_uri_char_printable : url_rw.

Lemma encode_url_printable_fuel (n : nat) (s : string) :
  (String.length s < n)%nat -> str_all printable (encode_url s) = true.
Proof.
  revert s. induction n as [|n IH]; intros s Hs; [lia|].
  destruct s as [|c s1]; [done|]. simpl in Hs |- *.
  destruct (Ascii.eqb_spec c "%") as [->|Hc].
  - destruct s1 as [|h1 s2]; [done|]. simpl in Hs.
    destruct (hex_val h1) as [v1|] eqn:E1.
    + destruct s2 as [|h2 s3]; [simpl; by rewrite (hex_printable h1 v1 E1)|].
      simpl in Hs. destruct (hex_val h2) as [v2|] eqn:E2.
      * cbn [str_all]. rewrite (hex_printable h1 v1 E1), (hex_printable h2 v2 E2), IH; [done|]. lia.
      * autorewrite with url_rw. simpl. rewrite (hex_printable h1 v1 E1), IH; [done|]. lia.
    + autorewrite with url_rw. simpl. rewrite IH; [done|]. lia.
  - destruct (url_allowed c) eqn:Ea.
    + simpl. rewrite (allowed_printable c Ea). apply IH. lia.
    + autorewrite with url_rw. rewrite IH; [done|]. lia.
Qed.

Lemma encode_url_printable (s : string) : str_all printable (encode_url s) = true.
Proof. apply (encode_url_printable_fuel (S (String.length s))). lia. Qed.

(** ** Percent-encoded paths are plain request targets *)

Lemma has_fast_special_app (a b : string) :
  has_fast_special (a +++ b) = has_fast_special a || has_fast_special b.
Proof. induction a as [|c a IH]; [done|]. rewrite js_append_cons. simpl. by rewrite IH, orb_assoc. Qed.

Lemma pct_char_check :
  forallb (fun c => negb (has_fast_special (pct_char c)) && negb (str_has "?" (pct_char c))) all_chars = true.
Proof. vm_compute. reflexivity. Qed.

Lemma pct_encode_clean (s : string) :
  has_fast_special (pct_encode s) = false /\ str_has "?" (pct_encode s) = false.
Proof.
  induction s as [|c s [IH1 IH2]]; [done|]. simpl. rewrite has_fast_special_app, str_has_append, IH1, IH2.
  pose proof pct_char_check as H. rewrite forallb_forall in H. specialize (H c (all_chars_complete c)).
  apply andb_true_iff in H as [H1 H2]. apply negb_true_iff in H1, H2. by rewrite H1, H2.
Qed.

Lemma before_query_none (s : string) : str_has "?" s = false -> before_query s = s.
Proof. induction s as [|c s IH]; [done|]. simpl. intros H. apply orb_false_iff in H as [-> H]. by rewrite IH. Qed.

Lemma url_search_none (s : string) : str_has "?" s = false -> url_search s = EmptyString.
Proof. induction s as [|c s IH]; [done|]. simpl. intros H. apply orb_false_iff in H as [-> H]. by rewrite IH. Qed.

(** The target [/] followed by a percent-encoded path is its own pathname,
    with no search. *)
Lemma url_pathname_pct (s : string) :
  url_pathname (String "/" (pct_encode s)) = Some (String "/" (pct_encode s)) /\
  url_search (String "/" (pct_encode s)) = EmptyString.
Proof.
  destruct (pct_encode_clean s) as [H1 H2]. unfold url_pathname. simpl. rewrite H1.
  simpl. rewrite before_query_none, url_search_none by done. done.
Qed.
