(* ===== verification/Static.v ===== *)
(** [express.static(path.join(__dirname, "public"))] (server.js line 24):
    serve-static 2 over send 1, which the application mounts before its
    route for every request.  Only GET and HEAD are served; every other
    method, and every error below 500 that happens before a file is found
    (a malformed escape, a NUL, a path climbing above the root, a dot
    file, a missing file), falls through to the next handler
    ([fallthrough: true]).  The public directory is a [gmap] from the
    relative path of each entry ("" is the directory itself) to a file's
    bytes or a directory; its names are Latin-1 strings like every string
    of the development.  Conditional requests, ranges and the caching
    headers of [send] are not modelled: the request carries no such
    header in this model, so a found file is always a 200. *)
From stdpp Require Import gmap.
From S2P Require Import Prelude JsString Regex NodePath Codec Url.

(** ** Requests and the public directory *)

Inductive Method := MGet | MHead | MPost | MOther (name : string).

Definition method_name (m : Method) : string :=
  match m with MGet => "GET" | MHead => "HEAD" | MPost => "POST" | MOther n => n end.

Inductive Entry :=
  | EFile (data : Buffer)
  | EDir.

Abbreviation Public := (gmap string Entry).

(** ** path.posix.normalize *)

(** Node's [normalizeString] over the segments between slashes: empty and
    [.] segments vanish, [..] removes the segment before it, and with no
    segment to remove is kept when the path is relative. *)
Definition norm_seg (allow_above : bool) (st : list string) (seg : string) : list string :=
  if String.eqb seg "" || String.eqb seg "." then st
  else if String.eqb seg ".." then
    match st with
    | top :: st' => if String.eqb top ".." then (if allow_above then ".." :: st else st) else st'
    | [] => if allow_above then [".."] else []
    end
  else seg :: st.

Fixpoint join_slash (l : list string) : string :=
  match l with
  | [] => EmptyString
  | [x] => x
  | x :: l' => x +++ "/" +++ join_slash l'
  end.

Definition starts_with (c : ascii) (s : string) : bool :=
  match s with String d _ => Ascii.eqb d c | EmptyString => false end.

Fixpoint ends_with_slash (s : string) : bool :=
  match s with
  | EmptyString => false
  | String c EmptyString => Ascii.eqb c "/"
  | String _ s' => ends_with_slash s'
  end.

Definition posix_normalize (p : string) : string :=
  match p with
  | EmptyString => "."
  | String _ _ =>
      let abs := starts_with "/" p in
      let trailing := ends_with_slash p in
      let r := join_slash (rev (fold_left (norm_seg (negb abs)) (js_split "/" p) [])) in
      if String.eqb r "" then (if abs then "/" else if trailing then "./" else ".")
      else (if abs then "/" else "") +++ r +++ (if trailing then "/" else "")
  end.

(** ** send *)

Definition path_sep (c : ascii) : bool := Ascii.eqb c "/" || Ascii.eqb c "\".

(** [..] followed by a separator or the end. *)
Definition dotdot_here (s : string) : bool :=
  match s with
  | String a (String b r) =>
      Ascii.eqb a "." && Ascii.eqb b "." && match r with EmptyString => true | String d _ => path_sep d end
  | _ => false
  end.

Fixpoint up_from (boundary : bool) (s : string) : bool :=
  match s with
  | EmptyString => false
  | String c s' => (boundary && dotdot_here s) || up_from (path_sep c) s'
  end.

(** [UP_PATH_REGEXP = /(?:^|[\\/])\.\.(?:[\\/]|$)/]. *)
Definition up_path (p : string) : bool := up_from true p.

(** [containsDotFile(parts)]: a part of two characters or more starting
    with a dot; with [dotfiles] unset it is ignored (a 404). *)
Definition contains_dotfile (parts : list string) : bool :=
  existsb (fun part => (1 <? String.length part)%nat && starts_with "." part) parts.

Fixpoint drop_last (s : string) : string :=
  match s with
  | EmptyString | String _ EmptyString => EmptyString
  | String c s' => String c (drop_last s')
  end.

(** The entry [stat] reaches for a normalized relative path: the root for
    [.] and [./]. *)
Definition fs_key (rel : string) : string :=
  let k := if ends_with_slash rel then drop_last rel else rel in
  if String.eqb k "." then EmptyString else k.

(** [join(path, "index.html")] for the directory [key]. *)
Definition index_key (key : string) : string :=
  if String.eqb key "" then "index.html" else key +++ "/index.html".

(** [mime.contentType(extname(path))], for the types a page's assets
    have; any other extension is sent as [application/octet-stream]. *)
Definition static_types : list (string * string) :=
  [(".html", "text/html; charset=utf-8"); (".js", "text/javascript; charset=utf-8");
   (".css", "text/css; charset=utf-8"); (".json", "application/json; charset=utf-8");
   (".txt", "text/plain; charset=utf-8"); (".png", "image/png"); (".jpg", "image/jpeg");
   (".svg", "image/svg+xml"); (".webp", "image/webp")].

Definition static_type (key : string) : string :=
  match List.find (fun kv => String.eqb kv.1 (to_lower (extname (js_split_pop "/" key)))) static_types with
  | Some (_, t) => t
  | None => "application/octet-stream"
  end.

(** ** serve-static *)

Inductive StaticResult :=
  | SNext                                 (** [next()]: the request goes on *)
  | SFile (key : string) (data : Buffer)  (** the file is sent *)
  | SRedirect (loc : string).             (** a directory without its slash: 301 *)

Fixpoint drop_slashes (s : string) : string :=
  match s with
  | String c s' => if Ascii.eqb c "/" then drop_slashes s' else s
  | EmptyString => EmptyString
  end.

(** [collapseLeadingSlashes]. *)
Definition collapse_leading_slashes (s : string) : string :=
  match s with
  | String a (String b _) => if Ascii.eqb a "/" && Ascii.eqb b "/" then String "/" (drop_slashes s) else s
  | _ => s
  end.

Definition NUL : ascii := ascii_of_nat 0.

(** [send(req, pathname, {root}).pipe(res)] with serve-static's listeners:
    the pathname and search of the request URL. *)
Definition send_path (pub : Public) (pathname search : string) : StaticResult :=
  match decode_uri pathname with
  | DecMalformed | DecWide => SNext
  | DecOk d =>
      if str_has NUL d then SNext
      else
        let rel := posix_normalize ("./" +++ d) in
        if up_path rel then SNext
        else if contains_dotfile (js_split "/" rel) then SNext
        else
          let key := fs_key rel in
          if ends_with_slash pathname then
            match pub !! index_key key with
            | Some (EFile data) => SFile (index_key key) data
            | _ => SNext
            end
          else
            match pub !! key with
            | Some EDir => SRedirect (encode_url (collapse_leading_slashes (pathname +++ "/") +++ search))
            | Some (EFile data) => if ends_with_slash rel then SNext else SFile key data
            | None => SNext
            end
  end.

(** [serveStatic(req, res, next)]: GET and HEAD only. *)
Definition serve_static (pub : Public) (m : Method) (pathname search : string) : StaticResult :=
  match m with
  | MGet | MHead => send_path pub pathname search
  | _ => SNext
  end.

(** ** A sample public directory *)

(** A public directory: the page, its script, a style sheet in a
    directory, and a dot file. *)
Definition demo_pub : Public :=
  <["" := EDir]> (<["index.html" := EFile [Byte.x3c]]> (<["app.js" := EFile [Byte.x2f]]>
  (<["css" := EDir]> (<["css/main.css" := EFile [Byte.x2a]]> (<[".env" := EFile [Byte.x3d]]> ∅))))).
