(* ===== verification/ClientFormat.v ===== *)
(** The pure helpers of [src/public/app.js]: [formatBytes] (lines 31-35),
    [formatLabel] (lines 37-47), the label of the target format (lines
    233-234), the name a converted file is saved under (line 227) and the
    texts of the file-name line and the success banner (lines 151-152,
    270-275).  The two label tables are object literals, so a key that is
    not an own property is looked up on [Object.prototype]: the model
    keeps those inherited properties. *)
From S2P Require Import Prelude JsString JsNumber Regex.

Local Open Scope Z_scope.

(** ** Object-literal lookup *)

(** The properties every object literal inherits. *)
Definition object_proto_keys : list string :=
  ["constructor"; "__proto__"; "toString"; "toLocaleString"; "valueOf"; "hasOwnProperty";
   "isPrototypeOf"; "propertyIsEnumerable"; "__defineGetter__"; "__defineSetter__";
   "__lookupGetter__"; "__lookupSetter__"].

(** What a lookup [map[key]] yields. *)
Inductive Label :=
  | LabelText (s : string)
  | LabelInherited (key : string).

Definition obj_lookup (tbl : list (string * string)) (key : string) : option Label :=
  match List.find (fun kv => String.eqb kv.1 key) tbl with
  | Some kv => Some (LabelText kv.2)
  | None => if existsb (String.eqb key) object_proto_keys then Some (LabelInherited key) else None
  end.

(** [String(v)] of the looked-up value: [Object.prototype] itself prints
    as ["[object Object]"], the [constructor] as [Object]'s source text and
    the methods as theirs. *)
Definition label_text (l : Label) : string :=
  match l with
  | LabelText s => s
  | LabelInherited k =>
      if String.eqb k "__proto__" then "[object Object]"
      else "function " +++ (if String.eqb k "constructor" then "Object" else k) +++ "() { [native code] }"
  end.

(** [map[key] || key.toUpperCase()]; [None] when the upper-case form
    leaves Latin-1. *)
Definition label_or_upper (tbl : list (string * string)) (key : string) : option Label :=
  match obj_lookup tbl key with
  | Some (LabelText s) => if String.eqb s "" then option_map LabelText (to_upper key) else Some (LabelText s)
  | Some l => Some l
  | None => option_map LabelText (to_upper key)
  end.

(** ** formatBytes (lines 31-35) *)

Definition KIB : Z := 1024.
Definition MIB : Z := 1024 * 1024.

(** [toFixed(1).replace(".", ",")]. *)
Definition fixed1_comma (num den : Z) : string := replace_first_char "." "," (to_fixed1 num den).

Definition format_bytes (n : Z) : string :=
  if n <? KIB then js_dec n +++ " o"
  else if n <? MIB then fixed1_comma n KIB +++ " Ko"
  else fixed1_comma n MIB +++ " Mo".

(** ** formatLabel (lines 37-47) *)

Definition label_table : list (string * string) :=
  [("jpg", "JPEG"); ("jpeg", "JPEG"); ("png", "PNG"); ("webp", "WebP"); ("avif", "AVIF")].

(** [(name || "").split(".").pop().toLowerCase()]. *)
Definition name_ext (name : string) : string := to_lower (js_split_pop "." name).

Definition format_label (name : string) : option Label := label_or_upper label_table (name_ext name).

(** ** The target format's label (lines 233-234) *)

Definition fmt_labels : list (string * string) :=
  [("webp", "WebP"); ("avif", "AVIF"); ("jpg", "JPG"); ("png", "PNG"); ("ico", "ICO")].

Definition fmt_label (out_format : string) : option Label := label_or_upper fmt_labels out_format.

(** ** Names and messages *)

(** Line 227: [f.name.replace(/\.[^.]+$/, "") + "." + outFormat]. *)
Definition client_name (name out_format : string) : string :=
  replace_first false EXT_REG name "" +++ "." +++ out_format.

(** Lines 151-152. *)
Definition files_text (names : list string) : string :=
  match names with
  | [name] => name
  | _ => js_dec (Z.of_nat (List.length names)) +++ " fichiers"
  end.

(** Lines 271-273. *)
Definition success_text (n : nat) : string :=
  if (n =? 1)%nat then "Fichier converti." else js_dec (Z.of_nat n) +++ " fichiers convertis.".

(** ** formatBytes *)

(** [toFixed(1).replace(".", ",")] prints the tenths [k] closest to the
    value. *)
Lemma fixed1_comma_spec (num den : Z) :
  0 < den -> 0 <= num ->
  exists k, fixed1_comma num den = js_dec (k / 10) +++ "," +++ String (digit_char (k mod 10)) "" /\
            0 <= k /\ Z.abs (20 * num - 2 * den * k) <= den.
Proof.
  intros Hd Hn. destruct (to_fixed1_spec num den Hd Hn) as (E & Hk & Hb).
  eexists. split; [|split; [exact Hk | exact Hb]].
  unfold fixed1_comma. rewrite E, replace_first_char_app; [done|].
  apply js_dec_no_dot. apply Z.div_pos; lia.
Qed.

(** sizes under 1 KiB print exactly (and read back with [parseInt]);
    larger ones print in Ko below 1 MiB and in Mo above, rounded to the
    nearest tenth with a decimal comma. *)
Theorem format_bytes_spec (n : Z) :
  0 <= n ->
  (n < KIB -> format_bytes n = js_dec n +++ " o" /\ js_parse_int10 (format_bytes n) = Some n) /\
  (KIB <= n < MIB -> exists k, format_bytes n = js_dec (k / 10) +++ "," +++ String (digit_char (k mod 10)) " Ko" /\
                               Z.abs (20 * n - 2 * KIB * k) <= KIB) /\
  (MIB <= n -> exists k, format_bytes n = js_dec (k / 10) +++ "," +++ String (digit_char (k mod 10)) " Mo" /\
                         Z.abs (20 * n - 2 * MIB * k) <= MIB).
Proof.
  intros Hn. unfold format_bytes. split; [|split].
  - intros Hs. rewrite (proj2 (Z.ltb_lt _ _) Hs). split; [done|]. by apply parse_int_dec_app.
  - intros Hs. rewrite (proj2 (Z.ltb_ge n KIB)), (proj2 (Z.ltb_lt n MIB)) by lia.
    destruct (fixed1_comma_spec n KIB ltac:(done) Hn) as (k & -> & _ & Hb). exists k.
    rewrite !js_append_assoc. done.
  - intros Hs. rewrite (proj2 (Z.ltb_ge n KIB)), (proj2 (Z.ltb_ge n MIB)) by (unfold KIB, MIB in *; lia).
    destruct (fixed1_comma_spec n MIB ltac:(done) Hn) as (k & -> & _ & Hb). exists k.
    rewrite !js_append_assoc. done.
Qed.

(** C34: just under 1 MiB the Ko branch rounds up to 1024: 1048525 to
    1048575 bytes are shown as "1024,0 Ko", not as "1,0 Mo". *)
Theorem format_bytes_1024_ko (n : Z) :
  1048525 <= n < MIB -> format_bytes n = "1024,0 Ko".
Proof.
  intros Hn. unfold format_bytes.
  rewrite (proj2 (Z.ltb_ge n KIB)), (proj2 (Z.ltb_lt n MIB)) by (unfold KIB, MIB in *; lia).
  unfold fixed1_comma, to_fixed1.
  replace ((20 * n + KIB) / (2 * KIB)) with 10240
    by (apply (Z.div_unique _ _ _ (20 * n + KIB - 2 * KIB * 10240)); unfold KIB, MIB in *; lia).
  reflexivity.
Qed.

(** ** formatLabel *)

Lemma char_lower_dot (c : ascii) : Ascii.eqb (char_lower c) "." = Ascii.eqb c ".".
Proof.
  assert (H : forallb (fun c => Bool.eqb (Ascii.eqb (char_lower c) ".") (Ascii.eqb c ".")) all_chars = true)
    by (vm_compute; reflexivity).
  rewrite forallb_forall in H. apply eqb_prop, H, all_chars_complete.
Qed.

Lemma to_lower_has_dot (s : string) : str_has "." (to_lower s) = str_has "." s.
Proof. induction s as [|c s IH]; [done|]. simpl. by rewrite char_lower_dot, IH. Qed.

Lemma to_lower_dot_cons (e r : string) : to_lower e = String "." r -> exists a, e = String "." a /\ to_lower a = r.
Proof.
  destruct e as [|c a]; [done|]. simpl. intros [= Hc Ha]. exists a. split; [|done].
  pose proof (char_lower_dot c) as Hd. rewrite Hc in Hd. simpl in Hd.
  symmetry in Hd. apply Ascii.eqb_eq in Hd. by subst c.
Qed.

(** Every name the image filter accepts gets one of the four labels,
    chosen by its extension alone, whatever its case. *)
Theorem format_label_image (name : string) :
  img_reg_test name = true ->
  exists l, format_label name = Some (LabelText l) /\ In l ["JPEG"; "PNG"; "WebP"; "AVIF"].
Proof.
  intros Ht. apply img_reg_test_iff in Ht as (p & e & -> & Hin).
  assert (Hcase : exists r, to_lower e = String "." r /\ In r ["jpeg"; "jpg"; "png"; "webp"; "avif"]).
  { repeat destruct Hin as [<- | Hin]; try (eexists; split; [reflexivity | simpl; tauto]). done. }
  destruct Hcase as (r & Hr & Hrin). destruct (to_lower_dot_cons e r Hr) as (a & -> & Ha).
  assert (Hd : str_has "." a = false).
  { rewrite <- to_lower_has_dot, Ha. by repeat destruct Hrin as [<- | Hrin]. }
  unfold format_label, name_ext. change (String "." a) with ("." +++ a).
  rewrite js_split_pop_ext, Ha by done.
  repeat destruct Hrin as [<- | Hrin]; first [done | eexists; split; [reflexivity | simpl; tauto]].
Qed.

(** A file picked through the file input (which, unlike a drop, is
    not filtered) named [logo.constructor] is labelled with
    [Object.prototype.constructor]: the table shows its source text. *)
Example format_label_constructor :
  option_map label_text (format_label "logo.constructor") = Some ("function Object() { [native code] }").
Proof. vm_compute. reflexivity. Qed.

(** ** On sample sizes and names *)

Lemma format_bytes_spec_witness :
  (1536 < KIB -> format_bytes 1536 = js_dec 1536 +++ " o" /\ js_parse_int10 (format_bytes 1536) = Some 1536) /\
  (KIB <= 1536 < MIB -> exists k, format_bytes 1536 = js_dec (k / 10) +++ "," +++ String (digit_char (k mod 10)) " Ko" /\
                                  Z.abs (20 * 1536 - 2 * KIB * k) <= KIB) /\
  (MIB <= 1536 -> exists k, format_bytes 1536 = js_dec (k / 10) +++ "," +++ String (digit_char (k mod 10)) " Mo" /\
                            Z.abs (20 * 1536 - 2 * MIB * k) <= MIB).
Proof. apply format_bytes_spec. lia. Defined.

Lemma format_bytes_1024_ko_witness : format_bytes 1048575 = "1024,0 Ko".
Proof. apply format_bytes_1024_ko. unfold MIB. lia. Defined.

Lemma format_label_image_witness :
  exists l, format_label "IMG_0042.JPEG" = Some (LabelText l) /\ In l ["JPEG"; "PNG"; "WebP"; "AVIF"].
Proof. apply format_label_image. vm_compute. reflexivity. Defined.
