(* ===== verification/ClientUI.v ===== *)
(** The page script [src/public/app.js] as a state machine: one record for
    the state the script reads and writes (the file input's files, the
    form controls, the global arrays [sourceMeta] and
    [lastConvertedResults], the metadata table, the button, the banner and
    the in-flight batches), one event per thing the browser can deliver
    (a change of the file input, a drop, a control edit, the settling of
    an image decode or of a fetch, a click), and one function per handler.
    Asynchronous code is cut at its [await]s: every continuation is an
    event, so any interleaving the browser allows is a list of events.
    The awaits of [fetch], [r.blob()] and [blob.text()] of one file form
    one event ([EvFetch]), and the continuation after [Promise.all] runs
    within the event that settles it (a microtask, run before the next
    event).
    The table is kept as the values its cells display: the non-Latin-1
    symbols of the page ("…", "—", "→") are constructors, not text. *)
From S2P Require Import Prelude JsString JsNumber Json Regex ClientFormat.

Local Open Scope Z_scope.

(** ** Data *)

(** A [File] of the input: name, size and bytes. *)
Record BFile := mkBFile { bf_name : string; bf_size : Z; bf_data : list Byte.byte }.

(** The text of a dimensions cell or of [sourceMeta[i].dims]. *)
Inductive DimsText :=
  | DPending                 (** "…" *)
  | DNone                    (** "—": the image did not decode *)
  | DSize (w h : Z)          (** `${w} × ${h}` *)
  | DUndefined.              (** [undefined], from [({}).dims] *)

Definition dims_text (d : option (Z * Z)) : DimsText :=
  match d with Some (w, h) => DSize w h | None => DNone end.

Record Meta := mkMeta { m_dims : DimsText; m_poids : string; m_format : string }.

(** A cell: plain text, or the before/after pair of lines 248-253; the
    format cell of a converted row also holds the download button's file. *)
Inductive Cell :=
  | CText (s : string)
  | CDims (d : DimsText)
  | CDimsDiff (before : DimsText) (after : DimsText)
  | CDiff (before after : string)
  | CFormatDiff (before after : string) (name : string) (blob : list Byte.byte).

Record Row := mkRow { row_id : nat; row_dims : Cell; row_poids : Cell; row_format : Cell }.

Inductive MsgKind := MsgPlain | MsgError | MsgSuccess.

(** [#msg]: its text, its class and whether it is shown.  The text is
    [None] for a message holding what the model does not represent (see
    [response_error]). *)
Record Banner := mkBanner { msg_text : option string; msg_kind : MsgKind; msg_shown : bool }.

Inductive BtnText := BtnConvert | BtnConverting.

(** What a fetch gives: a network failure, or a response. *)
Inductive Reply :=
  | RNetworkError (msg : string)
  | RResponse (status : Z) (body : list Byte.byte).

(** A converted file as line 228 records it. *)
Record Result := mkResult { res_blob : list Byte.byte; res_name : string; res_dims : option (Z * Z); res_size : Z }.

Inductive Task := TFetching | TDecoding (blob : list Byte.byte) | TDone | TFailed.

(** One click's batch: the files and form values it captured, its
    per-file tasks, the local [results] array and whether [Promise.all]
    has settled. *)
Record Batch := mkBatch {
  b_files : list BFile;
  b_format : string;
  b_quality : string;
  b_mw : string;
  b_tasks : list Task;
  b_results : list Result;
  b_settled : bool
}.

(** A call of [triggerDownload], with its [setTimeout] delay in ms. *)
Record Download := mkDownload { dl_delay : Z; dl_name : string; dl_blob : list Byte.byte }.

Record UI := mkUI {
  ui_files : list BFile;          (** [fileInput.files] *)
  ui_format : string;             (** [format.value] *)
  ui_quality : string;            (** [quality.value] *)
  ui_maxwidth : string;           (** [maxWidth.value] *)
  ui_meta : list Meta;            (** [sourceMeta] *)
  ui_rows : list Row;             (** [metaBody] rows *)
  ui_next_row : nat;              (** identity of the next row created *)
  ui_pending : list (nat * nat * BFile);  (** unsettled [getImageDimensions(f)]: index, row, file *)
  ui_last : list (string * list Byte.byte);  (** [lastConvertedResults] *)
  ui_disabled : bool;             (** [convertBtn.disabled] *)
  ui_btn : BtnText;
  ui_msg : Banner;
  ui_has_file : bool;             (** [zone] class [has-file] (the zone text and file name follow it) *)
  ui_filename : string;
  ui_meta_hidden : bool;
  ui_converted : bool;            (** [metaBlock] class [has-converted] *)
  ui_actions_hidden : bool;       (** [metaResultActions.hidden] *)
  ui_batches : list Batch;
  ui_downloads : list Download
}.

(** ** Helpers of the page (lines 76-84 and the request of lines 208-216) *)

(** [clearMsg]: the text stays, the banner is hidden. *)
Definition clear_msg (b : Banner) : Banner := mkBanner (msg_text b) MsgPlain false.

(** [showMsg(text, type)]. *)
Definition show_msg (text : option string) (kind : MsgKind) : Banner := mkBanner text kind true.

(** The multipart form of lines 208-212: the file, [format], [quality],
    and [maxWidth] when not empty. *)
Record Form := mkForm { form_file : BFile; form_fields : list (string * string) }.

Definition client_form (f : BFile) (fmt q mw : string) : Form :=
  mkForm f ([("format", fmt); ("quality", q)] ++ (if String.eqb mw "" then [] else [("maxWidth", mw)])).

(** The bytes of a response as [blob.text()] reads them. *)
Definition bytes_text (body : list Byte.byte) : string :=
  string_of_list_ascii (map ascii_of_byte body).

Definition ok_status (status : Z) : bool := (200 <=? status) && (status <=? 299).

Definition null_error_msg : string := "Cannot read properties of null (reading 'error')".
Definition undefined_cells_msg : string := "Cannot read properties of undefined (reading 'cells')".
Definition generic_error_msg : string := "Erreur lors de la conversion.".

(** Lines 219-224: the message of the [Error] thrown for a response that
    is not ok; [None] when it holds what the model does not represent. *)
Definition response_error (status : Z) (text : string) : option string :=
  let fallback := if String.eqb text "" then "Erreur " +++ js_dec status else text in
  match json_parse text with
  | ParseError => Some fallback
  | ParseBeyondLatin1 => None
  | ParseOk JNull => Some null_error_msg
  | ParseOk (JObject fs) =>
      match json_get fs "error" with
      | Some v => if json_truthy v then json_to_string v else Some fallback
      | None => Some fallback
      end
  | ParseOk _ => Some fallback
  end.

(** Line 277: [e.message || "Erreur lors de la conversion."]. *)
Definition banner_error (m : string) : string := if String.eqb m "" then generic_error_msg else m.

(** The label text of a file, [""] when its upper case leaves Latin-1. *)
Definition file_label (f : BFile) : string := default "" (option_map label_text (format_label (bf_name f))).

Definition imap {A B} (f : nat -> A -> B) (l : list A) : list B :=
  zip_with f (seq 0 (List.length l)) l.

(** Replace the [i]-th element (JavaScript [a[i] = v] on an index in range). *)
Definition set_nth {A} (i : nat) (v : A) (l : list A) : list A := <[i := v]> l.

Section Page.
Variable decode : list Byte.byte -> option (Z * Z).
Variable server : Form -> Reply.

(** ** updateZone (lines 131-182) *)

Definition update_zone (ui : UI) : UI :=
  let '(mkUI files fmt q mw _ _ nr pend _ _ btn msg _ fname _ _ _ batches dls) := ui in
  match files with
  | [] =>
      mkUI files fmt q mw [] [] nr pend [] true btn (clear_msg msg) false fname true false true batches dls
  | _ =>
      let metas := map (fun f => mkMeta DPending (format_bytes (bf_size f)) (file_label f)) files in
      let rows := imap (fun i f => mkRow (nr + i)%nat (CDims DPending) (CText (format_bytes (bf_size f))) (CText (file_label f))) files in
      let pend' := pend ++ imap (fun i f => (i, (nr + i)%nat, f)) files in
      mkUI files fmt q mw metas rows (nr + List.length files)%nat pend' [] false btn (clear_msg msg)
           true (files_text (map bf_name files)) false false true batches dls
  end.

Definition set_files (files : list BFile) (ui : UI) : UI :=
  let '(mkUI _ fmt q mw meta rows nr pend last dis btn msg hf fname mh conv ah batches dls) := ui in
  mkUI files fmt q mw meta rows nr pend last dis btn msg hf fname mh conv ah batches dls.

(** [handleDropFiles] (lines 21-29): only names the image filter accepts. *)
Definition handle_drop_files (files : list BFile) (ui : UI) : UI :=
  match files with
  | [] => ui
  | _ =>
      match List.filter (fun f => img_reg_test (bf_name f)) files with
      | [] => ui
      | valid => update_zone (set_files valid ui)
      end
  end.

(** The [then] of line 177 for the [k]-th unsettled decode: it writes the
    current [sourceMeta[i]] (throwing when there is none) and then the
    cell it captured, which may no longer be in the table. *)
Definition dims_loaded (k : nat) (ui : UI) : UI :=
  let '(mkUI files fmt q mw meta rows nr pend last dis btn msg hf fname mh conv ah batches dls) := ui in
  match nth_error pend k with
  | None => ui
  | Some (i, rid, f) =>
      let pend' := take k pend ++ drop (S k) pend in
      let d := dims_text (decode (bf_data f)) in
      match nth_error meta i with
      | None => mkUI files fmt q mw meta rows nr pend' last dis btn msg hf fname mh conv ah batches dls
      | Some m =>
          let meta' := set_nth i (mkMeta d (m_poids m) (m_format m)) meta in
          let rows' := map (fun r => if (row_id r =? rid)%nat then mkRow rid (CDims d) (row_poids r) (row_format r) else r) rows in
          mkUI files fmt q mw meta' rows' nr pend' last dis btn msg hf fname mh conv ah batches dls
      end
  end.
(** ** The convert button (lines 190-282) *)

Definition set_batches (batches : list Batch) (ui : UI) : UI :=
  let '(mkUI files fmt q mw meta rows nr pend last dis btn msg hf fname mh conv ah _ dls) := ui in
  mkUI files fmt q mw meta rows nr pend last dis btn msg hf fname mh conv ah batches dls.

Definition set_msg (m : Banner) (ui : UI) : UI :=
  let '(mkUI files fmt q mw meta rows nr pend last dis btn _ hf fname mh conv ah batches dls) := ui in
  mkUI files fmt q mw meta rows nr pend last dis btn m hf fname mh conv ah batches dls.

(** [finally] (lines 278-281). *)
Definition finish (ui : UI) : UI :=
  let '(mkUI files fmt q mw meta rows nr pend last _ _ msg hf fname mh conv ah batches dls) := ui in
  mkUI files fmt q mw meta rows nr pend last false BtnConvert msg hf fname mh conv ah batches dls.

(** [catch (e)] then [finally]. *)
Definition reject (m : option string) (ui : UI) : UI :=
  finish (set_msg (show_msg (option_map banner_error m) MsgError) ui).

(** The synchronous part of the click: a disabled button fires nothing. *)
Definition click_convert (ui : UI) : UI :=
  let '(mkUI files fmt q mw meta rows nr pend _ dis _ msg hf fname mh _ _ batches dls) := ui in
  if dis then ui
  else match files with
       | [] => ui
       | _ =>
           let b := mkBatch files fmt q (js_trim mw) (repeat TFetching (List.length files)) [] false in
           mkUI files fmt q mw meta rows nr pend [] true BtnConverting (clear_msg msg) hf fname mh false true
                (batches ++ [b]) dls
       end.

(** Lines 239-266 for the results from index [i] on: row [i] of the table
    as it is now and [sourceMeta[i]] as it is now; a missing row throws. *)
Fixpoint fill_rows (fmtl : string) (meta : list Meta) (i : nat) (rs : list Result)
    (rows : list Row) (last : list (string * list Byte.byte)) : list Row * list (string * list Byte.byte) * bool :=
  match rs with
  | [] => (rows, last, false)
  | r :: rs' =>
      match nth_error rows i with
      | None => (rows, last, true)
      | Some tr =>
          let src := nth_error meta i in
          let tr' := mkRow (row_id tr)
                       (CDimsDiff (match src with Some m => m_dims m | None => DUndefined end) (dims_text (res_dims r)))
                       (CDiff (match src with Some m => m_poids m | None => "undefined" end) (format_bytes (res_size r)))
                       (CFormatDiff (match src with Some m => m_format m | None => "undefined" end) fmtl (res_name r) (res_blob r)) in
          fill_rows fmtl meta (S i) rs' (set_nth i tr' rows) (last ++ [(res_name r, res_blob r)])
      end
  end.

(** Lines 232-275 once [Promise.all] has fulfilled, then [finally]. *)
Definition settle_success (b : Batch) (ui : UI) : UI :=
  let '(mkUI files fmt q mw meta rows nr pend last dis btn msg hf fname mh _ ah batches dls) := ui in
  let rs := b_results b in
  let fmtl := default "" (option_map label_text (fmt_label (b_format b))) in
  let ah' := if (1 <? List.length rs)%nat then false else ah in
  let '(rows', last', threw) := fill_rows fmtl meta 0 rs rows last in
  let ui1 := mkUI files fmt q mw meta rows' nr pend last' dis btn msg hf fname mh true ah' batches dls in
  if threw then reject (Some undefined_cells_msg) ui1
  else
    let dls' := match rs with [r] => dls ++ [mkDownload 0 (res_name r) (res_blob r)] | _ => dls end in
    let ui2 := mkUI files fmt q mw meta rows' nr pend last' dis btn msg hf fname mh true ah' batches dls' in
    finish (set_msg (show_msg (Some (success_text (List.length rs))) MsgSuccess) ui2).

Definition task_done (t : Task) : bool := match t with TDone => true | _ => false end.

(** A task rejects: [Promise.all] rejects with the first rejection. *)
Definition fail_task (bi i : nat) (b : Batch) (m : option string) (ui : UI) : UI :=
  let b' := mkBatch (b_files b) (b_format b) (b_quality b) (b_mw b) (set_nth i TFailed (b_tasks b)) (b_results b) true in
  let ui' := set_batches (set_nth bi b' (ui_batches ui)) ui in
  if b_settled b then ui' else reject m ui'.

(** The fetch of file [i] of batch [bi] settles (lines 213-225). *)
Definition fetch_settled (bi i : nat) (reply : Reply) (ui : UI) : UI :=
  match nth_error (ui_batches ui) bi with
  | None => ui
  | Some b =>
      match nth_error (b_tasks b) i with
      | Some TFetching =>
          match reply with
          | RNetworkError m => fail_task bi i b (Some m) ui
          | RResponse st body =>
              if ok_status st then
                let b' := mkBatch (b_files b) (b_format b) (b_quality b) (b_mw b)
                                  (set_nth i (TDecoding body) (b_tasks b)) (b_results b) (b_settled b) in
                set_batches (set_nth bi b' (ui_batches ui)) ui
              else fail_task bi i b (response_error st (bytes_text body)) ui
          end
      | _ => ui
      end
  end.

(** The converted file decodes (lines 226-228): its result is pushed, and
    the batch fulfils when it was the last. *)
Definition decoded (bi i : nat) (ui : UI) : UI :=
  match nth_error (ui_batches ui) bi with
  | None => ui
  | Some b =>
      match nth_error (b_tasks b) i, nth_error (b_files b) i with
      | Some (TDecoding blob), Some f =>
          let r := mkResult blob (client_name (bf_name f) (b_format b)) (decode blob) (Z.of_nat (List.length blob)) in
          let tasks := set_nth i TDone (b_tasks b) in
          let fulfilled := negb (b_settled b) && forallb task_done tasks in
          let b' := mkBatch (b_files b) (b_format b) (b_quality b) (b_mw b) tasks (b_results b ++ [r])
                            (b_settled b || fulfilled) in
          let ui' := set_batches (set_nth bi b' (ui_batches ui)) ui in
          if fulfilled then settle_success b' ui' else ui'
      | _, _ => ui
      end
  end.

(** ** Downloads (lines 184-188 and 260) *)

Definition add_downloads (ds : list Download) (ui : UI) : UI :=
  let '(mkUI files fmt q mw meta rows nr pend last dis btn msg hf fname mh conv ah batches dls) := ui in
  mkUI files fmt q mw meta rows nr pend last dis btn msg hf fname mh conv ah batches (dls ++ ds).

Definition download_all (ui : UI) : UI :=
  add_downloads (imap (fun i nb => mkDownload (150 * Z.of_nat i) nb.1 nb.2) (ui_last ui)) ui.

Definition row_download (i : nat) (ui : UI) : UI :=
  match nth_error (ui_rows ui) i with
  | Some (mkRow _ _ _ (CFormatDiff _ _ name blob)) => add_downloads [mkDownload 0 name blob] ui
  | _ => ui
  end.
(** ** Events *)

Definition set_controls (fmt q mw : string) (ui : UI) : UI :=
  let '(mkUI files _ _ _ meta rows nr pend last dis btn msg hf fname mh conv ah batches dls) := ui in
  mkUI files fmt q mw meta rows nr pend last dis btn msg hf fname mh conv ah batches dls.

Inductive Event :=
  | EvChange (files : list BFile)      (** [change] on the input (after a click or Enter on the zone) *)
  | EvDropZone (files : list BFile)    (** a drop on the zone: its handler, then the document's *)
  | EvDropPage (files : list BFile)    (** a drop elsewhere, carrying files *)
  | EvFormat (v : string)
  | EvQuality (v : string)
  | EvMaxWidth (v : string)
  | EvDims (k : nat)                   (** the [k]-th unsettled decode of the table settles *)
  | EvClick
  | EvFetch (bi i : nat)               (** the server answers file [i] of batch [bi] *)
  | EvFetchFail (bi i : nat) (msg : string)  (** the fetch fails (network) *)
  | EvDecoded (bi i : nat)             (** the converted file of [i] decodes *)
  | EvDownloadAll
  | EvRowDownload (i : nat).

(** The reply to file [i] of batch [b]. *)
Definition batch_reply (b : Batch) (i : nat) : Reply :=
  match nth_error (b_files b) i with
  | Some f => server (client_form f (b_format b) (b_quality b) (b_mw b))
  | None => RNetworkError ""
  end.

Definition step (ui : UI) (e : Event) : UI :=
  match e with
  | EvChange files => update_zone (set_files files ui)
  | EvDropZone files => handle_drop_files files (handle_drop_files files ui)
  | EvDropPage files => handle_drop_files files ui
  | EvFormat v => set_controls v (ui_quality ui) (ui_maxwidth ui) ui
  | EvQuality v => set_controls (ui_format ui) v (ui_maxwidth ui) ui
  | EvMaxWidth v => set_controls (ui_format ui) (ui_quality ui) v ui
  | EvDims k => dims_loaded k ui
  | EvClick => click_convert ui
  | EvFetch bi i =>
      match nth_error (ui_batches ui) bi with
      | Some b => fetch_settled bi i (batch_reply b i) ui
      | None => ui
      end
  | EvFetchFail bi i m => fetch_settled bi i (RNetworkError m) ui
  | EvDecoded bi i => decoded bi i ui
  | EvDownloadAll => download_all ui
  | EvRowDownload i => row_download i ui
  end.

Definition run (ui : UI) (es : list Event) : UI := fold_left step es ui.
End Page.

(** The page as loaded, with the form controls' initial values (the markup
    is not part of the sources); the state is the one [updateZone] leaves
    with no file. *)
Definition init_ui (fmt q mw : string) : UI :=
  mkUI [] fmt q mw [] [] 0 [] [] true BtnConvert (mkBanner None MsgPlain false) false "" true false true [] [].

(** * Properties *)

Section Props.
Variable decode : list Byte.byte -> option (Z * Z).
Variable server : Form -> Reply.

(** ** The table describes the selected files *)

(** [sourceMeta], the table and the selection always have the same
    length. *)
Definition table_inv (ui : UI) : Prop :=
  List.length (ui_meta ui) = List.length (ui_files ui) /\ List.length (ui_rows ui) = List.length (ui_files ui).

Lemma imap_length {A B} (f : nat -> A -> B) (l : list A) : List.length (imap f l) = List.length l.
Proof. unfold imap. rewrite length_zip_with, length_seq. lia. Qed.

Lemma update_zone_inv (ui : UI) : table_inv (update_zone ui).
Proof.
  destruct ui as [files ??????????????????]. unfold table_inv, update_zone.
  destruct files; cbn -[imap]; [done|]. rewrite imap_length, length_map. done.
Qed.

Lemma fill_rows_length (fmtl : string) (meta : list Meta) (i : nat) (rs : list Result) rows last :
  List.length (fill_rows fmtl meta i rs rows last).1.1 = List.length rows.
Proof.
  revert i rows last. induction rs as [|r rs IH]; intros i rows last; simpl; [done|].
  destruct (nth_error rows i); [|done]. rewrite IH. unfold set_nth. by rewrite length_insert.
Qed.

Lemma settle_success_inv (b : Batch) (ui : UI) : table_inv ui -> table_inv (settle_success b ui).
Proof.
  destruct ui as [files fmt q mw meta rows ?????????????]. unfold table_inv, settle_success; simpl.
  intros [Hm Hr]. pose proof (fill_rows_length (default "" (option_map label_text (fmt_label (b_format b)))) meta 0 (b_results b) rows ui_last0) as Hl.
  destruct (fill_rows _ _ _ _ _ _) as [[rows' last'] threw]. simpl in Hl.
  destruct threw; [|destruct (b_results b) as [|? []]]; simpl; lia.
Qed.

(** Handlers that leave the files, [sourceMeta] and the table alone. *)
Lemma fail_task_inv (bi i : nat) (b : Batch) (m : option string) (ui : UI) :
  table_inv ui -> table_inv (fail_task bi i b m ui).
Proof. destruct ui. unfold fail_task, reject, finish, set_msg, set_batches, table_inv. simpl. by destruct (b_settled b). Qed.

(** C27: every event keeps [sourceMeta], the table and the selection in
    step: the page never shows a row for a file it does not hold. *)
Theorem run_table_inv (fmt q mw : string) (es : list Event) : table_inv (run decode server (init_ui fmt q mw) es).
Proof.
  unfold run. cut (forall ui, table_inv ui -> table_inv (fold_left (step decode server) es ui)); [intros H; by apply H|].
  induction es as [|e es IH]; intros ui Hi; simpl; [done|]. apply IH.
  destruct e as [fs|fs|fs|v|v|v|k| |bi i|bi i m|bi i| |i]; cbn [step].
  - apply update_zone_inv.
  - assert (Hd : forall ui, table_inv ui -> table_inv (handle_drop_files fs ui)).
    { intros u Hu. unfold handle_drop_files. destruct fs; [done|]. destruct (List.filter _ _); [done | apply update_zone_inv]. }
    by apply Hd, Hd.
  - unfold handle_drop_files. destruct fs; [done|]. destruct (List.filter _ _); [done | apply update_zone_inv].
  - by destruct ui. - by destruct ui. - by destruct ui.
  - destruct ui. unfold dims_loaded, table_inv in *. simpl in *.
    destruct (nth_error _ k) as [[[i rid] f]|]; [|done].
    destruct (nth_error _ i); simpl; [|done]. unfold set_nth. rewrite length_insert, length_map. done.
  - destruct ui as [files ??????????????????]. unfold click_convert. destruct ui_disabled0; [done|]. by destruct files.
  - destruct (nth_error (ui_batches ui) bi); [|done]. unfold fetch_settled.
    destruct (nth_error (ui_batches ui) bi); [|done]. destruct (nth_error (b_tasks b0) i) as [[]|]; try done.
    destruct (batch_reply server b i); [by apply fail_task_inv|].
    destruct (ok_status status); [by destruct ui | by apply fail_task_inv].
  - unfold fetch_settled. destruct (nth_error (ui_batches ui) bi); [|done].
    destruct (nth_error (b_tasks b) i) as [[]|]; try done. by apply fail_task_inv.
  - unfold decoded. destruct (nth_error (ui_batches ui) bi); [|done].
    destruct (nth_error (b_tasks b) i) as [[]|], (nth_error (b_files b) i); try done.
    destruct (_ && _); [apply settle_success_inv|]; by destruct ui.
  - by destruct ui.
  - unfold row_download. destruct (nth_error (ui_rows ui) i) as [[? ? ? []]|]; by destruct ui.
Qed.
(** ** The button during a batch *)

Definition count_unsettled (l : list Batch) : nat := List.length (List.filter (fun b => negb (b_settled b)) l).

Definition in_flight (ui : UI) : bool := (0 <? count_unsettled (ui_batches ui))%nat.

Definition file_event (e : Event) : bool :=
  match e with EvChange _ | EvDropZone _ | EvDropPage _ => true | _ => false end.

(** At most one batch runs, and while it runs the button is disabled. *)
Definition guard_inv (ui : UI) : Prop :=
  (count_unsettled (ui_batches ui) <= 1)%nat /\ (in_flight ui = true -> ui_disabled ui = true).

Lemma count_set_nth (l : list Batch) (i : nat) (b b' : Batch) :
  nth_error l i = Some b ->
  (count_unsettled (set_nth i b' l) + (if b_settled b then 0 else 1) =
   count_unsettled l + (if b_settled b' then 0 else 1))%nat.
Proof.
  unfold count_unsettled, set_nth. revert i. induction l as [|x l IH]; intros [|i] Hi; simpl in *; try done.
  - injection Hi as ->. destruct (b_settled b), (b_settled b'); simpl; lia.
  - specialize (IH i Hi). destruct (b_settled x); simpl; lia.
Qed.

Lemma update_zone_batches (ui : UI) : ui_batches (update_zone ui) = ui_batches ui.
Proof. destruct ui as [files ??????????????????]. by destruct files. Qed.

Lemma handle_drop_batches (fs : list BFile) (ui : UI) : ui_batches (handle_drop_files fs ui) = ui_batches ui.
Proof.
  unfold handle_drop_files. destruct fs; [done|].
  destruct (List.filter _ _); [done|]. rewrite update_zone_batches. by destruct ui.
Qed.

Lemma reject_ui (m : option string) (ui : UI) : ui_batches (reject m ui) = ui_batches ui /\ ui_disabled (reject m ui) = false.
Proof. by destruct ui. Qed.

Lemma settle_success_ui (b : Batch) (ui : UI) :
  ui_batches (settle_success b ui) = ui_batches ui /\ ui_disabled (settle_success b ui) = false.
Proof.
  destruct ui. unfold settle_success. cbn -[fill_rows].
  destruct (fill_rows _ _ _ _ _ _) as [[rows' last'] []]; [|destruct (b_results b) as [|? []]]; split; reflexivity.
Qed.

(** Replacing batch [bi] and, when it settles, running the settlement. *)
Lemma guard_set_batch (ui : UI) (bi : nat) (b b' : Batch) (k : UI -> UI) :
  guard_inv ui -> nth_error (ui_batches ui) bi = Some b ->
  (b_settled b' = b_settled b /\ k = id) \/
  (b_settled b = false /\ b_settled b' = true /\
   forall u, ui_batches (k u) = ui_batches u /\ ui_disabled (k u) = false) ->
  guard_inv (k (set_batches (set_nth bi b' (ui_batches ui)) ui)).
Proof.
  intros [Hc Hd] Hb Hk. pose proof (count_set_nth _ bi b b' Hb) as Hn.
  destruct Hk as [[Hs ->] | (Hs & Hs' & Hk)].
  - rewrite Hs in Hn. destruct ui. unfold guard_inv, in_flight in *. simpl in *. split; [lia|].
    intros Hf. apply Hd. bool_to_prop. apply Nat.ltb_lt. lia.
  - rewrite Hs, Hs' in Hn. destruct (Hk (set_batches (set_nth bi b' (ui_batches ui)) ui)) as [Hkb Hkd].
    unfold guard_inv, in_flight. rewrite Hkb, Hkd. destruct ui. simpl in *. split; [lia|].
    intros Hf. bool_to_prop. lia.
Qed.
Lemma guard_same (ui ui' : UI) :
  guard_inv ui -> ui_batches ui' = ui_batches ui ->
  ui_disabled ui' = ui_disabled ui \/ in_flight ui = false -> guard_inv ui'.
Proof.
  intros [Hc Hd] Hb Hdis. unfold guard_inv, in_flight in *. rewrite Hb. split; [done|].
  intros Hf. destruct Hdis as [-> | Hn]; [by apply Hd | congruence].
Qed.

Lemma fail_task_guard (ui : UI) (bi i : nat) (b : Batch) (m : option string) :
  guard_inv ui -> nth_error (ui_batches ui) bi = Some b -> guard_inv (fail_task bi i b m ui).
Proof.
  intros Hg Hb. unfold fail_task. destruct (b_settled b) eqn:Hs.
  - apply (guard_set_batch ui bi b _ id Hg Hb). left. by rewrite Hs.
  - apply (guard_set_batch ui bi b _ (reject m) Hg Hb). right. split; [done|]. split; [done|]. apply reject_ui.
Qed.

(** Every event but a change of selection keeps the guard; a change of
    selection keeps it when no batch runs. *)
Lemma guard_step (ui : UI) (e : Event) :
  guard_inv ui -> file_event e = false \/ in_flight ui = false -> guard_inv (step decode server ui e).
Proof.
  intros Hg He. destruct e as [fs|fs|fs|v|v|v|k| |bi i|bi i m|bi i| |i]; cbn [step];
    try (destruct He as [He | He]; [discriminate He|]).
  - apply (guard_same ui); [done | | by right]. rewrite update_zone_batches. by destruct ui.
  - apply (guard_same ui); [done | by rewrite !handle_drop_batches | by right].
  - apply (guard_same ui); [done | by rewrite handle_drop_batches | by right].
  - apply (guard_same ui); [done | by destruct ui | left; by destruct ui].
  - apply (guard_same ui); [done | by destruct ui | left; by destruct ui].
  - apply (guard_same ui); [done | by destruct ui | left; by destruct ui].
  - apply (guard_same ui); [done | | left]; destruct ui; unfold dims_loaded; simpl;
      (destruct (nth_error _ k) as [[[i rid] f]|]; [destruct (nth_error _ i)|]; done).
  - destruct ui as [files ???????? dis ??????? batches ?]. unfold click_convert.
    destruct dis; [done|]. destruct files as [|f fs]; [done|].
    destruct Hg as [Hc Hd]. unfold guard_inv, in_flight in *. simpl in *.
    assert (H0 : count_unsettled batches = 0%nat) by (destruct (count_unsettled batches); [done|]; specialize (Hd eq_refl); done).
    unfold count_unsettled in *. rewrite List.filter_app, length_app. simpl. rewrite H0. split; [lia | done].
  - destruct (nth_error (ui_batches ui) bi) as [b|] eqn:Hb; [|done]. unfold fetch_settled. rewrite Hb.
    destruct (nth_error (b_tasks b) i) as [[]|]; try done.
    destruct (batch_reply server b i) as [m|st body]; [by apply fail_task_guard|].
    destruct (ok_status st); [|by apply fail_task_guard].
    apply (guard_set_batch ui bi b _ id Hg Hb). by left.
  - unfold fetch_settled. destruct (nth_error (ui_batches ui) bi) as [b|] eqn:Hb; [|done].
    destruct (nth_error (b_tasks b) i) as [[]|]; try done. by apply fail_task_guard.
  - unfold decoded. destruct (nth_error (ui_batches ui) bi) as [b|] eqn:Hb; [|done].
    destruct (nth_error (b_tasks b) i) as [[]|], (nth_error (b_files b) i); try done.
    destruct (negb (b_settled b) && _) eqn:Hf.
    + apply (guard_set_batch ui bi b _ (settle_success _) Hg Hb). right.
      apply andb_true_iff in Hf as [Hn _]. apply negb_true_iff in Hn.
      split; [done|]. split; [simpl; by rewrite orb_true_r|]. apply settle_success_ui.
    + apply (guard_set_batch ui bi b _ id Hg Hb). left. simpl. by rewrite orb_false_r.
  - apply (guard_same ui); [done | by destruct ui | left; by destruct ui].
  - apply (guard_same ui); [done | | left];
      unfold row_download; (destruct (nth_error (ui_rows ui) i) as [[? ? ? []]|]; by destruct ui).
Qed.

(** The runs in which the selection changes only while no batch runs. *)
Inductive quiet_reach (fmt q mw : string) : UI -> Prop :=
  | quiet_init : quiet_reach fmt q mw (init_ui fmt q mw)
  | quiet_step (ui : UI) (e : Event) :
      quiet_reach fmt q mw ui -> file_event e = false \/ in_flight ui = false ->
      quiet_reach fmt q mw (step decode server ui e).

(** C19: as long as the selection is not changed during a batch, the
    button guards against a second submission: while a batch runs the
    button is disabled and a click does nothing, and at most one batch
    runs. *)
Theorem quiet_no_double_submit (fmt q mw : string) (ui : UI) :
  quiet_reach fmt q mw ui -> in_flight ui = true ->
  ui_disabled ui = true /\ step decode server ui EvClick = ui /\ (count_unsettled (ui_batches ui) <= 1)%nat.
Proof.
  intros Hr Hf. assert (Hg : guard_inv ui).
  { clear Hf. induction Hr as [|ui e Hr IH He]; [split; [unfold count_unsettled; simpl; lia | discriminate] | by apply guard_step]. }
  destruct Hg as [Hc Hd]. specialize (Hd Hf). split; [done|]. split; [|done].
  destruct ui. simpl in *. unfold click_convert. by rewrite Hd.
Qed.
(** C20: changing the selection during a batch re-enables the button
    ([updateZone] sets [disabled = false]), so a second click starts a
    second batch while the first still runs: the guard of the spec does
    not hold. *)
Theorem double_submission (f : BFile) (fmt q mw : string) :
  let ui := run decode server (init_ui fmt q mw) [EvChange [f]; EvClick; EvChange [f]; EvClick] in
  map b_settled (ui_batches ui) = [false; false] /\ ui_disabled ui = true.
Proof. split; reflexivity. Qed.

(** C28: a stale decode of an earlier selection writes into the new
    selection's metadata: [sourceMeta] is read when the decode settles, not
    when it started. *)
Theorem stale_dims (fA fB : BFile) (fmt q mw : string) :
  let ui := run decode server (init_ui fmt q mw) [EvChange [fA]; EvChange [fB]; EvDims 0] in
  ui_files ui = [fB] /\ map m_dims (ui_meta ui) = [dims_text (decode (bf_data fA))].
Proof. split; reflexivity. Qed.

(** The file a converted row offers. *)
Definition row_file (r : Row) : option string :=
  match row_format r with CFormatDiff _ _ name _ => Some name | _ => None end.

(** C18: the rows are filled in the order the conversions finish, not in
    the order of the selection: when the second file finishes first, the
    first row (showing the first file's source data) offers the second
    file's result. *)
Theorem completion_order (fA fB : BFile) (fmt q : string) (dA dB : list Byte.byte) :
  server (client_form fA fmt q "") = RResponse 200 dA ->
  server (client_form fB fmt q "") = RResponse 200 dB ->
  map row_file (ui_rows (run decode server (init_ui fmt q "")
      [EvChange [fA; fB]; EvClick; EvFetch 0 0; EvFetch 0 1; EvDecoded 0 1; EvDecoded 0 0])) =
  [Some (client_name (bf_name fB) fmt); Some (client_name (bf_name fA) fmt)].
Proof. intros HA HB. cbn. rewrite HA. cbn. rewrite HB. reflexivity. Qed.
(** ** [finally] *)

Lemma nth_error_set_nth {A} (l : list A) (i : nat) (x v : A) :
  nth_error l i = Some x -> nth_error (set_nth i v l) i = Some v.
Proof.
  unfold set_nth. revert i. induction l as [|y l IH]; intros [|i] Hi; simpl in *; try done. by apply IH.
Qed.

Lemma set_batches_batches (l : list Batch) (ui : UI) : ui_batches (set_batches l ui) = l.
Proof. by destruct ui. Qed.

Lemma finish_ui (ui : UI) : ui_disabled (finish ui) = false /\ ui_btn (finish ui) = BtnConvert.
Proof. by destruct ui. Qed.

Lemma settle_success_btn (b : Batch) (ui : UI) : ui_disabled (settle_success b ui) = false /\ ui_btn (settle_success b ui) = BtnConvert.
Proof.
  destruct ui. unfold settle_success. cbn -[fill_rows].
  destruct (fill_rows _ _ _ _ _ _) as [[rows' last'] []]; [|destruct (b_results b) as [|? []]]; split; reflexivity.
Qed.

(** The batch an event settles. *)
Definition event_batch (e : Event) : option nat :=
  match e with EvFetch bi _ | EvFetchFail bi _ _ | EvDecoded bi _ => Some bi | _ => None end.

Definition batch_settled (ui : UI) (bi : nat) : bool :=
  match nth_error (ui_batches ui) bi with Some b => b_settled b | None => false end.

Lemma fail_task_settles (bi i : nat) (b : Batch) (m : option string) (ui : UI) :
  b_settled b = false -> ui_disabled (fail_task bi i b m ui) = false /\ ui_btn (fail_task bi i b m ui) = BtnConvert.
Proof. intros Hs. unfold fail_task. rewrite Hs. apply finish_ui. Qed.

(** Whenever a batch settles, fulfilled or rejected, the button is
    enabled again and reads "Convertir". *)
Theorem settle_reenables (ui : UI) (e : Event) (bi : nat) :
  event_batch e = Some bi -> batch_settled ui bi = false -> batch_settled (step decode server ui e) bi = true ->
  ui_disabled (step decode server ui e) = false /\ ui_btn (step decode server ui e) = BtnConvert.
Proof.
  intros He. unfold batch_settled.
  destruct e as [| | | | | | | |bi' i|bi' i m|bi' i| |]; try discriminate; injection He as ->; cbn [step];
    unfold fetch_settled, decoded; destruct (nth_error (ui_batches ui) bi) as [b|] eqn:Hb; intros Hs Hs';
    rewrite ?Hb in Hs'; simpl in Hs; try congruence.
  - destruct (nth_error (b_tasks b) i) as [[]|]; try (rewrite Hb in Hs'; congruence).
    destruct (batch_reply server b i) as [m|st body]; [by apply fail_task_settles|].
    destruct (ok_status st); [|by apply fail_task_settles].
    rewrite set_batches_batches in Hs'. erewrite nth_error_set_nth in Hs' by done. simpl in Hs'. congruence.
  - destruct (nth_error (b_tasks b) i) as [[]|]; try (rewrite Hb in Hs'; congruence). by apply fail_task_settles.
  - destruct (nth_error (b_tasks b) i) as [[]|], (nth_error (b_files b) i); try (rewrite Hb in Hs'; congruence).
    destruct (negb (b_settled b) && _) eqn:Hf; [apply settle_success_btn|].
    rewrite set_batches_batches in Hs'. erewrite nth_error_set_nth in Hs' by done. simpl in Hs'.
    rewrite Hs in Hs'. simpl in Hs'. congruence.
Qed.
(** ** Which files can be selected *)

(** a drop selects only files whose names the image filter accepts,
    and leaves the selection alone when there is none. *)
Theorem drop_filters (fs : list BFile) (ui : UI) :
  ui_files (handle_drop_files fs ui) = ui_files ui \/
  (ui_files (handle_drop_files fs ui) <> [] /\
   Forall (fun f => img_reg_test (bf_name f) = true) (ui_files (handle_drop_files fs ui))).
Proof.
  unfold handle_drop_files. destruct fs as [|f fs]; [by left|].
  destruct (List.filter _ (f :: fs)) as [|g gs] eqn:E; [by left|]. right.
  assert (Hf : ui_files (update_zone (set_files (g :: gs) ui)) = g :: gs) by (by destruct ui).
  rewrite Hf. split; [done|]. apply List.Forall_forall. intros x Hx. rewrite <- E in Hx.
  by apply List.filter_In in Hx as [_ ?].
Qed.

(** C29: the file input's [change] handler does not filter: any file, a
    text file included, is selected and the button enabled. *)
Theorem change_unfiltered (f : BFile) (ui : UI) :
  ui_files (step decode server ui (EvChange [f])) = [f] /\ ui_disabled (step decode server ui (EvChange [f])) = false.
Proof. by destruct ui. Qed.
End Props.

(** ** Sample runs *)

Module PageSamples.
Definition decode0 (blob : list Byte.byte) : option (Z * Z) := Some (100, 50).
Definition echo_server (f : Form) : Reply := RResponse 200 (bf_data (form_file f)).
Definition fileA : BFile := mkBFile "a.png" 2000 [Byte.x01].
Definition fileB : BFile := mkBFile "b.jpg" 3000 [Byte.x02].
Definition start : UI := init_ui "webp" "80" "".
End PageSamples.

Import PageSamples.

Lemma quiet_no_double_submit_witness :
  let ui := step decode0 echo_server (step decode0 echo_server start (EvChange [fileA])) EvClick in
  ui_disabled ui = true /\ step decode0 echo_server ui EvClick = ui /\ (count_unsettled (ui_batches ui) <= 1)%nat.
Proof.
  apply (quiet_no_double_submit decode0 echo_server "webp" "80" "").
  - apply quiet_step; [apply quiet_step; [apply quiet_init | right; reflexivity] | left; reflexivity].
  - reflexivity.
Defined.

Lemma completion_order_witness :
  map row_file (ui_rows (run decode0 echo_server (init_ui "webp" "80" "")
      [EvChange [fileA; fileB]; EvClick; EvFetch 0 0; EvFetch 0 1; EvDecoded 0 1; EvDecoded 0 0])) =
  [Some (client_name (bf_name fileB) "webp"); Some (client_name (bf_name fileA) "webp")].
Proof. apply (completion_order decode0 echo_server fileA fileB "webp" "80" [Byte.x01] [Byte.x02]); reflexivity. Defined.

Lemma settle_reenables_witness :
  let ui := run decode0 echo_server start [EvChange [fileA]; EvClick; EvFetch 0 0] in
  ui_disabled (step decode0 echo_server ui (EvDecoded 0 0)) = false /\
  ui_btn (step decode0 echo_server ui (EvDecoded 0 0)) = BtnConvert.
Proof. apply (settle_reenables decode0 echo_server _ (EvDecoded 0 0) 0); vm_compute; reflexivity. Defined.
