(* ===== verification/ClientBatch.v ===== *)
(** Progress of one batch of the page (app.js lines 190-282): whatever
    order the browser settles the requests and decodes of a batch in,
    the batch settles and the [finally] re-enables the button.  The
    browser's choices are the events of the batch it may deliver
    ([enabled]: a fetch still pending, a decode still pending); a
    schedule is a list of such events ([valid_run]).  Every delivered
    event consumes work ([work]: two per file still fetching, one per
    file still decoding), so no schedule is longer than twice the number
    of files (termination), and a schedule that cannot be extended ends
    with the batch settled and the button enabled (liveness). *)
From stdpp Require Import list.
From S2P Require Import Prelude JsString JsNumber Json Regex ClientFormat ClientUI.

(** ** Work left in a batch *)

Definition task_work (t : Task) : nat :=
  match t with TFetching => 2 | TDecoding _ => 1 | TDone | TFailed => 0 end.

Definition batch_work (b : Batch) : nat := sum_list_with task_work (b_tasks b).

(** A batch that has not settled: no task has failed and one is not done. *)
Definition live (b : Batch) : Prop :=
  Forall (fun t => t <> TFailed) (b_tasks b) /\ existsb (fun t => negb (task_done t)) (b_tasks b) = true.

Section Progress.
Variable decode : list Byte.byte -> option (Z * Z).
Variable server : Form -> Reply.
Variable bi : nat.

(** The continuations of batch [bi] the browser may run next. *)
Definition enabled (ui : UI) (e : Event) : bool :=
  match nth_error (ui_batches ui) bi with
  | None => false
  | Some b =>
      match e with
      | EvFetch bj i | EvFetchFail bj i _ =>
          (bj =? bi) && match nth_error (b_tasks b) i with Some TFetching => true | _ => false end
      | EvDecoded bj i =>
          (bj =? bi) && match nth_error (b_tasks b) i with Some (TDecoding _) => true | _ => false end
      | _ => false
      end
  end.

Fixpoint valid_run (ui : UI) (es : list Event) : bool :=
  match es with
  | [] => true
  | e :: es' => enabled ui e && valid_run (step decode server ui e) es'
  end.

Definition work (ui : UI) : nat :=
  match nth_error (ui_batches ui) bi with Some b => batch_work b | None => 0 end.

(** No continuation of the batch is left. *)
Definition quiescent (ui : UI) : bool := (work ui =? 0).

(** The state of batch [bi] along a schedule. *)
Definition batch_ok (ui : UI) : Prop :=
  exists b, nth_error (ui_batches ui) bi = Some b /\ List.length (b_files b) = List.length (b_tasks b) /\
    (b_settled b = false -> live b) /\ (b_settled b = true -> ui_disabled ui = false).
End Progress.

(** ** Lemmas *)

Lemma work_set_nth (l : list Task) (i : nat) (x y : Task) :
  nth_error l i = Some x ->
  sum_list_with task_work (set_nth i y l) + task_work x = sum_list_with task_work l + task_work y.
Proof.
  unfold set_nth. revert i. induction l as [|z l IH]; intros [|i] Hi; simpl in *; try done.
  - injection Hi as ->. lia.
  - specialize (IH i Hi). lia.
Qed.

Lemma existsb_set_nth {A} (P : A -> bool) (l : list A) (i : nat) (x y : A) :
  nth_error l i = Some x -> P y = true -> existsb P (set_nth i y l) = true.
Proof.
  unfold set_nth. revert i. induction l as [|z l IH]; intros [|i] Hi Hy; simpl in *; try done.
  - by rewrite Hy.
  - rewrite (IH i Hi Hy). apply orb_true_r.
Qed.

Lemma not_all_done (l : list Task) : forallb task_done l = false -> existsb (fun t => negb (task_done t)) l = true.
Proof. induction l as [|t l IH]; simpl; [done|]. destruct (task_done t); simpl; auto. Qed.

Lemma nth_error_some_lt {A} (l : list A) (i : nat) (x : A) : nth_error l i = Some x -> (i < List.length l)%nat.
Proof. intros H. apply nth_error_Some. by rewrite H. Qed.

(** The batch stored back at [bi] by a handler. *)
Lemma stored_batch (ui : UI) (bi : nat) (b b' : Batch) (k : UI -> UI) :
  nth_error (ui_batches ui) bi = Some b ->
  (forall u, ui_batches (k u) = ui_batches u) ->
  nth_error (ui_batches (k (set_batches (set_nth bi b' (ui_batches ui)) ui))) bi = Some b'.
Proof. intros Hb Hk. rewrite Hk, set_batches_batches. by eapply nth_error_set_nth. Qed.


Lemma set_batches_disabled (l : list Batch) (ui : UI) : ui_disabled (set_batches l ui) = ui_disabled ui.
Proof. by destruct ui. Qed.

(** A handler that stores [b'] at [bi] and then runs [k], which keeps the
    batches, makes progress when [b'] has less work and is well formed. *)
Lemma store_progress (ui : UI) (bi : nat) (b b' : Batch) (k : UI -> UI) :
  nth_error (ui_batches ui) bi = Some b ->
  (forall u, ui_batches (k u) = ui_batches u) ->
  List.length (b_files b') = List.length (b_tasks b') ->
  (b_settled b' = false -> live b') ->
  (b_settled b' = true -> ui_disabled (k (set_batches (set_nth bi b' (ui_batches ui)) ui)) = false) ->
  batch_work b' < batch_work b ->
  batch_ok bi (k (set_batches (set_nth bi b' (ui_batches ui)) ui)) /\
  work bi (k (set_batches (set_nth bi b' (ui_batches ui)) ui)) < work bi ui.
Proof.
  intros Hb Hk Hl Hlive Hdis Hw. pose proof (stored_batch ui bi b b' k Hb Hk) as Hs.
  split; [by exists b'|]. unfold work. by rewrite Hs, Hb.
Qed.

(** A pending fetch that fails settles the batch, or leaves a settled one. *)
Lemma fail_task_progress (ui : UI) (bi i : nat) (b : Batch) (m : option string) :
  batch_ok bi ui -> nth_error (ui_batches ui) bi = Some b -> nth_error (b_tasks b) i = Some TFetching ->
  batch_ok bi (fail_task bi i b m ui) /\ work bi (fail_task bi i b m ui) < work bi ui.
Proof.
  intros (b0 & Hb0 & Hlen & _ & Hdis) Hb Ht. rewrite Hb in Hb0. injection Hb0 as <-.
  pose proof (work_set_nth _ i _ TFailed Ht) as Hw. unfold fail_task.
  destruct (b_settled b) eqn:Hs.
  - apply (store_progress ui bi b _ id Hb (fun u => eq_refl)); simpl; try done.
    + unfold set_nth. by rewrite length_insert.
    + intros _. rewrite set_batches_disabled. by apply Hdis.
    + unfold batch_work. simpl in *. lia.
  - apply (store_progress ui bi b _ (reject m) Hb (fun u => proj1 (reject_ui m u))); simpl; try done.
    + unfold set_nth. by rewrite length_insert.
    + intros _. apply reject_ui.
    + unfold batch_work. simpl in *. lia.
Qed.

Section Step.
Variable decode : list Byte.byte -> option (Z * Z).
Variable server : Form -> Reply.
Variable bi : nat.

(** Every continuation the browser runs keeps the batch well formed and
    consumes work. *)
Lemma enabled_progress (ui : UI) (e : Event) :
  batch_ok bi ui -> enabled bi ui e = true ->
  batch_ok bi (step decode server ui e) /\ work bi (step decode server ui e) < work bi ui.
Proof.
  intros Hok. pose proof Hok as (b0 & Hb0 & Hlen & Hlive & Hdis). unfold enabled.
  destruct (nth_error (ui_batches ui) bi) as [b|] eqn:Hb; [injection Hb0 as <-|discriminate].
  destruct e as [| | | | | | | |bj i|bj i m|bj i| |]; try discriminate;
    intros He; apply andb_true_iff in He as [Hbj Ht]; apply Nat.eqb_eq in Hbj; subst bj; cbn [step];
    [rewrite Hb| |]; unfold fetch_settled, decoded; rewrite Hb;
    destruct (nth_error (b_tasks b) i) as [[]|] eqn:Hti; try discriminate.
  - destruct (batch_reply server b i) as [m|st body]; [by apply fail_task_progress|].
    destruct (ok_status st); [|by apply fail_task_progress].
    pose proof (work_set_nth _ i _ (TDecoding body) Hti) as Hw.
    apply (store_progress ui bi b _ id Hb (fun u => eq_refl)); simpl.
    + unfold set_nth. by rewrite length_insert.
    + intros Hs. destruct (Hlive Hs) as [Hf _]. split; [by apply Forall_insert|].
      by apply (existsb_set_nth _ _ i TFetching).
    + intros Hs. rewrite set_batches_disabled. by apply Hdis.
    + unfold batch_work. simpl in *. lia.
  - by apply fail_task_progress.
  - destruct (nth_error (b_files b) i) as [f|] eqn:Hf.
    2:{ apply nth_error_None in Hf. apply nth_error_some_lt in Hti. lia. }
    pose proof (work_set_nth _ i _ TDone Hti) as Hw.
    destruct (negb (b_settled b) && forallb task_done (set_nth i TDone (b_tasks b))) eqn:Hfu.
    + apply (store_progress ui bi b _ (settle_success _) Hb (fun u => proj1 (settle_success_ui _ u))); simpl.
      * unfold set_nth. by rewrite length_insert.
      * by rewrite orb_true_r.
      * intros _. apply settle_success_ui.
      * unfold batch_work. simpl in *. lia.
    + apply (store_progress ui bi b _ id Hb (fun u => eq_refl)); simpl; rewrite ?Hfu, ?orb_false_r.
      * unfold set_nth. by rewrite length_insert.
      * intros Hs. rewrite Hs in Hfu. destruct (Hlive Hs) as [HF _]. split; [by apply Forall_insert|].
        by apply not_all_done.
      * intros Hs. rewrite set_batches_disabled. by apply Hdis.
      * unfold batch_work. simpl in *. lia.
Qed.
End Step.

Lemma sum_work_repeat (n : nat) : sum_list_with task_work (repeat TFetching n) = 2 * n.
Proof. induction n as [|n IH]; simpl; lia. Qed.

Lemma sum_work_zero (l : list Task) :
  sum_list_with task_work l = 0 -> Forall (fun t => t = TDone \/ t = TFailed) l.
Proof. induction l as [|[] l IH]; simpl; intros H; try lia; constructor; auto. Qed.

Lemma sum_work_pos (l : list Task) :
  sum_list_with task_work l <> 0 -> exists i t, nth_error l i = Some t /\ task_work t <> 0.
Proof.
  induction l as [|t l IH]; simpl; intros H; [lia|].
  destruct (task_work t) eqn:Ht; [|exists 0, t; split; [done | lia]].
  destruct (IH H) as (i & t' & Hi & Hw). by exists (S i), t'.
Qed.

(** A settled-free batch with no work left cannot exist: its last task
    settled it. *)
Lemma no_work_settled (b : Batch) : batch_work b = 0 -> b_settled b = false -> live b -> False.
Proof.
  intros Hw Hs [Hf He]. apply sum_work_zero in Hw.
  assert (Hd : Forall (fun t => task_done t = true) (b_tasks b)).
  { apply List.Forall_forall. intros t Ht.
    apply (proj1 (List.Forall_forall _ _) Hw) in Ht as Ht1. apply (proj1 (List.Forall_forall _ _) Hf) in Ht.
    destruct Ht1 as [-> | ->]; done. }
  apply existsb_exists in He as (t & Ht & Hn). apply (proj1 (List.Forall_forall _ _) Hd) in Ht.
  by rewrite Ht in Hn.
Qed.

Section Schedules.
Variable decode : list Byte.byte -> option (Z * Z).
Variable server : Form -> Reply.

Lemma valid_run_progress (bi : nat) (ui : UI) (es : list Event) :
  batch_ok bi ui -> valid_run decode server bi ui es = true ->
  batch_ok bi (run decode server ui es) /\ List.length es + work bi (run decode server ui es) <= work bi ui.
Proof.
  unfold run. revert ui. induction es as [|e es IH]; intros ui Hok Hv; simpl in *; [split; [done | lia]|].
  apply andb_true_iff in Hv as [He Hv].
  destruct (enabled_progress decode server bi ui e Hok He) as [Hok' Hw].
  destruct (IH _ Hok' Hv) as [Hr Hl]. split; [done | lia].
Qed.

(** The click starts batch number [length (ui_batches ui)] with two units
    of work per file. *)
Lemma click_batch_ok (ui : UI) :
  ui_disabled ui = false -> ui_files ui <> [] ->
  batch_ok (List.length (ui_batches ui)) (step decode server ui EvClick) /\
  work (List.length (ui_batches ui)) (step decode server ui EvClick) = 2 * List.length (ui_files ui).
Proof.
  destruct ui as [files ???????? dis ??????? batches ?]; simpl. intros -> Hf. cbn [step]. unfold click_convert.
  destruct files as [|f fs]; [done|]. unfold batch_ok, work. cbn [ui_batches].
  rewrite nth_error_app2, Nat.sub_diag by lia. unfold batch_work. simpl.
  rewrite sum_work_repeat. split; [|lia].
  eexists. split; [reflexivity|]. simpl. rewrite repeat_length. split; [done|]. split; [|done].
  intros _. split; [|done]. constructor; [done|]. apply List.Forall_forall. intros t Ht. apply repeat_spec in Ht. by subst.
Qed.

Lemma quiescent_settled (bi : nat) (ui : UI) :
  batch_ok bi ui -> quiescent bi ui = true -> batch_settled ui bi = true /\ ui_disabled ui = false.
Proof.
  intros (b & Hb & _ & Hlive & Hdis) Hq. unfold quiescent, work, batch_settled in *. rewrite Hb in Hq |- *.
  apply Nat.eqb_eq in Hq. destruct (b_settled b) eqn:Hs; [by split; [|apply Hdis]|].
  exfalso. exact (no_work_settled b Hq Hs (Hlive eq_refl)).
Qed.

Lemma enabled_exists (bi : nat) (ui : UI) :
  batch_ok bi ui -> quiescent bi ui = false -> exists e, enabled bi ui e = true.
Proof.
  intros (b & Hb & _ & _ & _) Hq. unfold quiescent, work, batch_work in Hq. rewrite Hb in Hq.
  apply Nat.eqb_neq, sum_work_pos in Hq as (i & t & Hi & Ht).
  destruct t; simpl in Ht; try lia; [exists (EvFetch bi i) | exists (EvDecoded bi i)];
    unfold enabled; by rewrite Hb, Nat.eqb_refl, Hi.
Qed.
End Schedules.

(** ** Every batch settles *)

Section Claims.
Variable decode : list Byte.byte -> option (Z * Z).
Variable server : Form -> Reply.

(** C4: liveness of a batch: along any schedule of its continuations, in
    any order and with any answers, the batch either has a continuation
    left for the browser to run, or has settled with the button enabled
    again; as a schedule has at most two continuations per file
    ([valid_run_progress]), every schedule the browser runs to the end
    settles the batch and re-enables the button. *)
Theorem batch_settles (ui : UI) (es : list Event) :
  ui_disabled ui = false -> ui_files ui <> [] ->
  valid_run decode server (List.length (ui_batches ui)) (step decode server ui EvClick) es = true ->
  let bi := List.length (ui_batches ui) in
  let ui' := run decode server (step decode server ui EvClick) es in
  (quiescent bi ui' = true -> batch_settled ui' bi = true /\ ui_disabled ui' = false) /\
  (quiescent bi ui' = false -> exists e, enabled bi ui' e = true).
Proof.
  intros Hd Hf Hv bi ui'. destruct (click_batch_ok decode server ui Hd Hf) as [Hok _].
  destruct (valid_run_progress decode server _ _ es Hok Hv) as [Hok' _].
  split; [by apply quiescent_settled | by apply enabled_exists].
Qed.
End Claims.

(** ** Sample schedules *)

Import PageSamples.

(** Two files selected; the second answer and the first decode come first. *)
Definition two_files : UI := run decode0 echo_server start [EvChange [fileA; fileB]].
Definition out_of_order : list Event := [EvFetch 0 1; EvFetch 0 0; EvDecoded 0 0; EvDecoded 0 1].

Lemma batch_settles_witness :
  (quiescent 0 (run decode0 echo_server (step decode0 echo_server two_files EvClick) out_of_order) = true ->
   batch_settled (run decode0 echo_server (step decode0 echo_server two_files EvClick) out_of_order) 0 = true /\
   ui_disabled (run decode0 echo_server (step decode0 echo_server two_files EvClick) out_of_order) = false) /\
  (quiescent 0 (run decode0 echo_server (step decode0 echo_server two_files EvClick) out_of_order) = false ->
   exists e, enabled 0 (run decode0 echo_server (step decode0 echo_server two_files EvClick) out_of_order) e = true).
Proof.
  apply (batch_settles decode0 echo_server two_files out_of_order);
    [reflexivity | vm_compute; discriminate | vm_compute; reflexivity].
Defined.
