(* ===== verification/ClientPage.v ===== *)
(** The listeners of app.js lines 86-129 over the page state of
    [ClientUI]: the quality label, the zone's click, key and drag
    listeners and the document's drag listeners.  A DOM event runs the
    listener of its target and then, as it bubbles, the document's; the
    outcome is the new page and what the listeners did to the event's
    default action ([preventDefault], [dropEffect]).  The CSS classes and
    ARIA attributes the listeners toggle are booleans of [Chrome];
    [fileInput.click()] opens the file dialog, whose choice arrives later
    as the [change] event [EvChange]. *)
From S2P Require Import Prelude JsString JsNumber Json Regex ClientFormat ClientUI.

(** ** Data *)

(** [e.dataTransfer]: its [types] and its [files]. *)
Record DataTransfer := mkDT { dt_types : list string; dt_files : list BFile }.

Record Chrome := mkChrome {
  ch_quality_label : string;   (** [qualityVal.textContent] *)
  ch_zone_dragover : bool;     (** [zone] class [dragover] *)
  ch_overlay : bool;           (** [dropOverlay] class [active]; [aria-hidden] is its negation *)
  ch_dialogs : nat             (** calls of [fileInput.click()] *)
}.

Record Page := mkPage { pg_ui : UI; pg_chrome : Chrome }.

(** What the listeners did to the event's default action. *)
Record Default := mkDefault { prevented : bool; drop_effect : option string }.

Definition untouched : Default := mkDefault false None.

Inductive Target := OnZone | Elsewhere.

Inductive DomEvent :=
  | DZoneClick
  | DZoneKey (key : string)
  | DDragOver (t : Target) (dt : option DataTransfer)
  | DDragLeave (t : Target) (related : option bool)  (** [relatedTarget]: [null], or whether the body contains it *)
  | DDrop (t : Target) (dt : option DataTransfer)
  | DCore (e : Event).

(** ** Listeners *)

Definition set_chrome (f : Chrome -> Chrome) (pg : Page) : Page := mkPage (pg_ui pg) (f (pg_chrome pg)).

Definition set_zone_dragover (v : bool) (c : Chrome) : Chrome :=
  mkChrome (ch_quality_label c) v (ch_overlay c) (ch_dialogs c).

Definition set_overlay (v : bool) (c : Chrome) : Chrome :=
  mkChrome (ch_quality_label c) (ch_zone_dragover c) v (ch_dialogs c).

Definition open_dialog (c : Chrome) : Chrome :=
  mkChrome (ch_quality_label c) (ch_zone_dragover c) (ch_overlay c) (S (ch_dialogs c)).

(** Lines 86-88: the slider's [input] event, after the browser has set
    [quality.value]. *)
Definition quality_input (v : string) (pg : Page) : Page :=
  let ui := pg_ui pg in
  let c := pg_chrome pg in
  mkPage (set_controls (ui_format ui) v (ui_maxwidth ui) ui)
         (mkChrome v (ch_zone_dragover c) (ch_overlay c) (ch_dialogs c)).

(** [e.dataTransfer?.types?.includes("Files")]. *)
Definition has_files (dt : option DataTransfer) : bool :=
  match dt with Some d => existsb (String.eqb "Files") (dt_types d) | None => false end.

(** [e.dataTransfer?.files] as [handleDropFiles] reads it. *)
Definition dt_file_list (dt : option DataTransfer) : list BFile :=
  match dt with Some d => dt_files d | None => [] end.

(** Lines 109-116. *)
Definition doc_dragover (dt : option DataTransfer) (pg : Page) : Page * Default :=
  if negb (has_files dt) then (pg, untouched)
  else (set_chrome (fun c => set_overlay true (set_zone_dragover false c)) pg, mkDefault true (Some "copy")).

(** Lines 124-129. *)
Definition doc_dragleave (related : option bool) (pg : Page) : Page :=
  match related with
  | Some true => pg
  | _ => set_chrome (set_overlay false) pg
  end.

(** Lines 117-123. *)
Definition doc_drop (dt : option DataTransfer) (pg : Page) : Page * Default :=
  let pg1 := set_chrome (set_overlay false) pg in
  if negb (has_files dt) then (pg1, untouched)
  else (mkPage (handle_drop_files (dt_file_list dt) (pg_ui pg1)) (pg_chrome pg1), mkDefault true None).

(** A drag of the given files, as the core events [EvDropZone] and
    [EvDropPage] assume. *)
Definition files_transfer (fs : list BFile) : DataTransfer := mkDT ["Files"] fs.

(** Lines 91-94, then the document's listener. *)
Definition zone_dragover (dt : option DataTransfer) (pg : Page) : Page * Default :=
  let '(pg', d) := doc_dragover dt (set_chrome (set_zone_dragover true) pg) in
  (pg', mkDefault true (drop_effect d)).

(** Line 95, then the document's listener. *)
Definition zone_dragleave (related : option bool) (pg : Page) : Page :=
  doc_dragleave related (set_chrome (set_zone_dragover false) pg).

(** Lines 96-100, then the document's listener. *)
Definition zone_drop (dt : option DataTransfer) (pg : Page) : Page * Default :=
  let pg1 := set_chrome (set_zone_dragover false) pg in
  let pg2 := mkPage (handle_drop_files (dt_file_list dt) (pg_ui pg1)) (pg_chrome pg1) in
  ((doc_drop dt pg2).1, mkDefault true None).

(** Lines 101-106. *)
Definition zone_keydown (key : string) (pg : Page) : Page * Default :=
  if String.eqb key "Enter" || String.eqb key " " then (set_chrome open_dialog pg, mkDefault true None)
  else (pg, untouched).

Section Dom.
Variable decode : list Byte.byte -> option (Z * Z).
Variable server : Form -> Reply.

(** The listeners a DOM event runs, lines 86-129; the other events of the
    page are [ClientUI.step]. *)
Definition dom_step (pg : Page) (e : DomEvent) : Page * Default :=
  match e with
  | DZoneClick => (set_chrome open_dialog pg, untouched)
  | DZoneKey k => zone_keydown k pg
  | DDragOver OnZone dt => zone_dragover dt pg
  | DDragOver Elsewhere dt => doc_dragover dt pg
  | DDragLeave OnZone r => (zone_dragleave r pg, untouched)
  | DDragLeave Elsewhere r => (doc_dragleave r pg, untouched)
  | DDrop OnZone dt => zone_drop dt pg
  | DDrop Elsewhere dt => doc_drop dt pg
  | DCore (EvQuality v) => (quality_input v pg, untouched)
  | DCore (EvDropZone fs) => zone_drop (Some (files_transfer fs)) pg
  | DCore (EvDropPage fs) => doc_drop (Some (files_transfer fs)) pg
  | DCore ev => (mkPage (step decode server (pg_ui pg) ev) (pg_chrome pg), untouched)
  end.

Definition dom_run (pg : Page) (es : list DomEvent) : Page := fold_left (fun p e => (dom_step p e).1) es pg.
End Dom.

(** ** The form controls outlive every handler but their own *)

Definition controls (ui : UI) : string * string * string := (ui_format ui, ui_quality ui, ui_maxwidth ui).

Lemma set_batches_controls (l : list Batch) (ui : UI) : controls (set_batches l ui) = controls ui.
Proof. by destruct ui. Qed.

Lemma reject_controls (m : option string) (ui : UI) : controls (reject m ui) = controls ui.
Proof. by destruct ui. Qed.

Lemma fail_task_controls (bi i : nat) (b : Batch) (m : option string) (ui : UI) :
  controls (fail_task bi i b m ui) = controls ui.
Proof. unfold fail_task. destruct (b_settled b); [|rewrite reject_controls]; apply set_batches_controls. Qed.

Lemma settle_success_controls (b : Batch) (ui : UI) : controls (settle_success b ui) = controls ui.
Proof.
  destruct ui. unfold settle_success. cbn -[fill_rows].
  destruct (fill_rows _ _ _ _ _ _) as [[rows' last'] []]; [|destruct (b_results b) as [|? []]]; reflexivity.
Qed.

Lemma update_zone_controls (ui : UI) : controls (update_zone ui) = controls ui.
Proof. destruct ui as [files ??????????????????]. by destruct files. Qed.

Lemma handle_drop_controls (fs : list BFile) (ui : UI) : controls (handle_drop_files fs ui) = controls ui.
Proof.
  unfold handle_drop_files. destruct fs; [done|]. destruct (List.filter _ _); [done|].
  rewrite update_zone_controls. by destruct ui.
Qed.

Create Rewrite HintDb controls_rw.
#[local] Hint Rewrite set_batches_controls reject_controls fail_task_controls settle_success_controls
  update_zone_controls handle_drop_controls : controls_rw.

(** The events of the page that are not edits of a control. *)
Definition control_event (e : Event) : bool :=
  match e with EvFormat _ | EvQuality _ | EvMaxWidth _ => true | _ => false end.

Lemma step_controls (decode : list Byte.byte -> option (Z * Z)) (server : Form -> Reply) (ui : UI) (e : Event) :
  control_event e = false -> controls (step decode server ui e) = controls ui.
Proof.
  destruct e as [fs|fs|fs|v|v|v|k| |bi i|bi i m|bi i| |i]; try discriminate; intros _; cbn [step];
    autorewrite with controls_rw; try reflexivity.
  - by destruct ui.
  - destruct ui. unfold dims_loaded. simpl.
    destruct (nth_error _ k) as [[[i rid] f]|]; [destruct (nth_error _ i)|]; done.
  - destruct ui as [files ???????? [] ??????? batches ?]; unfold click_convert; [done|]. by destruct files.
  - destruct (nth_error (ui_batches ui) bi); [|done]. unfold fetch_settled.
    destruct (nth_error (ui_batches ui) bi); [|done]. destruct (nth_error (b_tasks b0) i) as [[]|]; try done.
    destruct (batch_reply server b i); autorewrite with controls_rw; [done|].
    destruct (ok_status status); autorewrite with controls_rw; done.
  - unfold fetch_settled. destruct (nth_error (ui_batches ui) bi); [|done].
    destruct (nth_error (b_tasks b) i) as [[]|]; autorewrite with controls_rw; done.
  - unfold decoded. destruct (nth_error (ui_batches ui) bi); [|done].
    destruct (nth_error (b_tasks b) i) as [[]|], (nth_error (b_files b) i); try done.
    destruct (_ && _); autorewrite with controls_rw; done.
  - by destruct ui.
  - unfold row_download. destruct (nth_error (ui_rows ui) i) as [[? ? ? []]|]; by destruct ui.
Qed.

Lemma quality_step (decode : list Byte.byte -> option (Z * Z)) (server : Form -> Reply) (ui : UI) (e : Event) :
  control_event e = false -> ui_quality (step decode server ui e) = ui_quality ui.
Proof. intros He. exact (f_equal (fun c => c.1.2) (step_controls decode server ui e He)). Qed.

Lemma quality_drop (fs : list BFile) (ui : UI) : ui_quality (handle_drop_files fs ui) = ui_quality ui.
Proof. exact (f_equal (fun c => c.1.2) (handle_drop_controls fs ui)). Qed.

Lemma dom_step_label (decode : list Byte.byte -> option (Z * Z)) (server : Form -> Reply) (pg : Page) (e : DomEvent) :
  ch_quality_label (pg_chrome pg) = ui_quality (pg_ui pg) ->
  ch_quality_label (pg_chrome (dom_step decode server pg e).1) = ui_quality (pg_ui (dom_step decode server pg e).1).
Proof.
  destruct pg as [ui [lbl zd ov dl]]; cbn [pg_chrome pg_ui ch_quality_label]. intros ->.
  destruct e as [|k|[] dt|[] r|[] dt|[fs|fs|fs|v|v|v|k| |bi i|bi i m|bi i| |i]]; cbn [dom_step];
    unfold zone_keydown, zone_dragover, doc_dragover, zone_dragleave, doc_dragleave, zone_drop, doc_drop;
    repeat match goal with
           | |- context [if ?c then _ else _] => destruct c
           | |- context [match ?r with Some _ => _ | None => _ end] => destruct r as [[]|]
           end; cbn [fst pg_chrome pg_ui ch_quality_label set_chrome set_overlay set_zone_dragover open_dialog];
    rewrite ?quality_drop; try reflexivity; try (by destruct ui); symmetry; by apply quality_step.
Qed.

Lemma handle_drop_pending (fs : list BFile) (ui : UI) :
  List.filter (fun f => img_reg_test (bf_name f)) fs <> [] ->
  List.length (ui_pending (handle_drop_files fs ui)) =
    (List.length (ui_pending ui) + List.length (List.filter (fun f => img_reg_test (bf_name f)) fs))%nat.
Proof.
  unfold handle_drop_files. destruct fs as [|f fs]; [done|].
  destruct (List.filter _ _) as [|g gs]; [done|]. intros _.
  destruct ui. cbn -[imap]. by rewrite length_app, imap_length.
Qed.

(** ** Properties *)

Section Props.
Variable decode : list Byte.byte -> option (Z * Z).
Variable server : Form -> Reply.

(** The label next to the quality slider always shows the slider's
    value: every event keeps them equal once they are (lines 86-88). *)
Theorem quality_label_run (pg : Page) (es : list DomEvent) :
  ch_quality_label (pg_chrome pg) = ui_quality (pg_ui pg) ->
  ch_quality_label (pg_chrome (dom_run decode server pg es)) = ui_quality (pg_ui (dom_run decode server pg es)).
Proof.
  unfold dom_run. revert pg. induction es as [|e es IH]; intros pg H; simpl; [done|].
  apply IH, dom_step_label, H.
Qed.

(** C30: a drag carrying files is always taken by the page, wherever it is
    dropped: the drag-over is cancelled with the drop effect "copy", the
    drop is cancelled (the browser never opens the file in place of the
    page), and the overlay is hidden afterwards. *)
Theorem file_drag_handled (pg : Page) (t : Target) (d : DataTransfer) :
  has_files (Some d) = true ->
  (dom_step decode server pg (DDragOver t (Some d))).2 = mkDefault true (Some "copy") /\
  prevented (dom_step decode server pg (DDrop t (Some d))).2 = true /\
  ch_overlay (pg_chrome (dom_step decode server pg (DDrop t (Some d))).1) = false.
Proof.
  intros Hf. destruct t; cbn [dom_step]; unfold zone_dragover, zone_drop, doc_dragover, doc_drop;
    rewrite Hf; simpl; done.
Qed.

(** The zone's [dragover] highlight is added by the zone's listener
    and removed by the document's as the event bubbles, whenever the drag
    carries files: during a drag of files the zone is never highlighted
    (the overlay is shown instead), only during a drag of something the
    page cannot use. *)
Theorem zone_highlight_files (pg : Page) (dt : option DataTransfer) :
  ch_zone_dragover (pg_chrome (dom_step decode server pg (DDragOver OnZone dt)).1) = negb (has_files dt) /\
  (dom_step decode server pg (DDragOver OnZone dt)).2 = mkDefault true (if has_files dt then Some "copy" else None).
Proof. cbn [dom_step]. unfold zone_dragover, doc_dragover. by destruct (has_files dt). Qed.

(** C31: a drop of images on the zone runs [handleDropFiles] twice, once
    in the zone's listener and once in the document's as the event
    bubbles: the table is built twice and every accepted file is decoded
    twice. *)
Theorem zone_drop_twice (pg : Page) (fs : list BFile) :
  List.filter (fun f => img_reg_test (bf_name f)) fs <> [] ->
  List.length (ui_pending (pg_ui (dom_step decode server pg (DDrop OnZone (Some (files_transfer fs)))).1)) =
    (List.length (ui_pending (pg_ui pg)) + 2 * List.length (List.filter (fun f => img_reg_test (bf_name f)) fs))%nat.
Proof.
  intros Hv. cbn [dom_step]. unfold zone_drop, doc_drop. simpl.
  rewrite !handle_drop_pending by done. lia.
Qed.
End Props.

(** ** Samples *)

Import PageSamples.

Definition page0 : Page := mkPage start (mkChrome "80" false false 0).
Definition files_ab : DataTransfer := files_transfer [fileA; fileB].
Definition session : list DomEvent :=
  [DDragOver Elsewhere (Some files_ab); DDrop OnZone (Some files_ab); DCore (EvQuality "55"); DCore EvClick].

Lemma quality_label_run_witness :
  ch_quality_label (pg_chrome (dom_run decode0 echo_server page0 session)) =
    ui_quality (pg_ui (dom_run decode0 echo_server page0 session)).
Proof. apply quality_label_run. reflexivity. Defined.

Lemma file_drag_handled_witness :
  (dom_step decode0 echo_server page0 (DDragOver OnZone (Some files_ab))).2 = mkDefault true (Some "copy") /\
  prevented (dom_step decode0 echo_server page0 (DDrop OnZone (Some files_ab))).2 = true /\
  ch_overlay (pg_chrome (dom_step decode0 echo_server page0 (DDrop OnZone (Some files_ab))).1) = false.
Proof. apply file_drag_handled. reflexivity. Defined.

Lemma zone_drop_twice_witness :
  List.length (ui_pending (pg_ui (dom_step decode0 echo_server page0 (DDrop OnZone (Some (files_transfer [fileA; fileB])))).1)) =
    (List.length (ui_pending (pg_ui page0)) + 2 * List.length (List.filter (fun f => img_reg_test (bf_name f)) [fileA; fileB]))%nat.
Proof. apply zone_drop_twice. vm_compute. discriminate. Defined.
