(* ===== verification/ClientDownloads.v ===== *)
(** The browser resources of app.js lines 49-74: object URLs, the
    temporary anchor of [triggerDownload] and the [Image] of
    [getImageDimensions], over a [Browser] state (the blob URL store as a
    [gmap] from URL to blob, the anchors in [document.body], the files
    saved).  [getImageDimensions] is what the page model's [decode]
    parameter stands for: whatever order the images load in, each promise
    resolves with the decoded size of its own blob and every URL it
    created is revoked ([images_any_order]).  The bulk download of lines
    184-188 sets one timer per file, 150 ms apart; the timers fire in
    order of delay (HTML's timer ordering), so the files are saved in the
    order of [lastConvertedResults] and leave no URL or anchor behind
    ([download_all_order]). *)
From stdpp Require Import gmap sorting.
From S2P Require Import Prelude JsString JsNumber Json Regex ClientFormat ClientUI.

(** ** The browser *)

Record Browser := mkBrowser {
  br_urls : gmap nat (list Byte.byte);       (** live blob URLs and the blob each names *)
  br_next : nat;                             (** the next URL [createObjectURL] returns *)
  br_body : list nat;                        (** anchors in [document.body], by [href] *)
  br_saved : list (string * list Byte.byte)  (** files saved, in order *)
}.

(** [URL.createObjectURL(blob)]. *)
Definition create_object_url (blob : list Byte.byte) (br : Browser) : nat * Browser :=
  (br_next br, mkBrowser (<[br_next br := blob]> (br_urls br)) (S (br_next br)) (br_body br) (br_saved br)).

(** [URL.revokeObjectURL(url)]. *)
Definition revoke_object_url (u : nat) (br : Browser) : Browser :=
  mkBrowser (delete u (br_urls br)) (br_next br) (br_body br) (br_saved br).

(** [document.body.appendChild(a)] and [a.remove()]. *)
Definition append_anchor (u : nat) (br : Browser) : Browser :=
  mkBrowser (br_urls br) (br_next br) (br_body br ++ [u]) (br_saved br).

Definition remove_anchor (u : nat) (br : Browser) : Browser :=
  mkBrowser (br_urls br) (br_next br) (List.remove Nat.eq_dec u (br_body br)) (br_saved br).

(** [a.click()] on an anchor with [href] [u] and [download] [name]: the
    browser saves the blob the URL names under that name. *)
Definition click_anchor (u : nat) (name : string) (br : Browser) : Browser :=
  mkBrowser (br_urls br) (br_next br) (br_body br)
            (match br_urls br !! u with Some blob => br_saved br ++ [(name, blob)] | None => br_saved br end).

(** ** triggerDownload (lines 49-58) *)

Definition trigger_download (blob : list Byte.byte) (name : string) (br : Browser) : Browser :=
  let '(u, br1) := create_object_url blob br in
  revoke_object_url u (remove_anchor u (click_anchor u name (append_anchor u br1))).

(** ** getImageDimensions (lines 60-74) *)

(** Up to [img.src = url]: the URL the promise holds. *)
Definition image_start (blob : list Byte.byte) (br : Browser) : nat * Browser := create_object_url blob br.

(** [img.onload] (lines 64-67) and [img.onerror] (lines 68-71): revoke the
    URL, resolve with the natural size or [null]. *)
Definition image_onload (u : nat) (dims : Z * Z) (br : Browser) : option (Z * Z) * Browser :=
  (Some dims, revoke_object_url u br).

Definition image_onerror (u : nat) (br : Browser) : option (Z * Z) * Browser :=
  (None, revoke_object_url u br).

Section Images.
Variable decode : list Byte.byte -> option (Z * Z).

(** The image behind [u] loads when its blob decodes. *)
Definition image_settle (u : nat) (br : Browser) : option (Z * Z) * Browser :=
  match br_urls br !! u with
  | Some blob => match decode blob with Some d => image_onload u d br | None => image_onerror u br end
  | None => image_onerror u br
  end.

(** [getImageDimensions] called on each blob in turn (the [forEach] of
    lines 159-181), then the loads settling in the order [us]. *)
Fixpoint start_images (bs : list (list Byte.byte)) (br : Browser) : list nat * Browser :=
  match bs with
  | [] => ([], br)
  | b :: bs' => let '(u, br1) := image_start b br in let '(us, br2) := start_images bs' br1 in (u :: us, br2)
  end.

Fixpoint settle_images (us : list nat) (br : Browser) : list (option (Z * Z)) * Browser :=
  match us with
  | [] => ([], br)
  | u :: us' => let '(r, br1) := image_settle u br in let '(rs, br2) := settle_images us' br1 in (r :: rs, br2)
  end.
End Images.

(** ** Timers of the bulk download (lines 184-188) *)

(** HTML timers set by one task fire in order of their delay, equal delays
    in the order they were set. *)
Fixpoint timer_insert (d : Download) (q : list Download) : list Download :=
  match q with
  | [] => [d]
  | x :: q' => if (dl_delay d <? dl_delay x)%Z then d :: q else x :: timer_insert d q'
  end.

Definition timer_order (ds : list Download) : list Download := fold_left (fun q d => timer_insert d q) ds [].

(** The timers of [ds] fire, each calling [triggerDownload]. *)
Definition fire_downloads (ds : list Download) (br : Browser) : Browser :=
  fold_left (fun br d => trigger_download (dl_blob d) (dl_name d) br) (timer_order ds) br.

(** The downloads a click on "download all" sets. *)
Definition scheduled (ui : UI) : list Download :=
  drop (List.length (ui_downloads ui)) (ui_downloads (download_all ui)).

(** ** Fresh URLs *)

(** Every live URL and every anchor's [href] is below the counter, so the
    next [createObjectURL] returns a URL nothing uses. *)
Definition fresh_ok (br : Browser) : Prop :=
  map_Forall (fun k _ => (k < br_next br)%nat) (br_urls br) /\ Forall (fun k => (k < br_next br)%nat) (br_body br).

#[export] Instance fresh_ok_dec (br : Browser) : Decision (fresh_ok br).
Proof. unfold fresh_ok. apply _. Defined.

Lemma fresh_ok_lookup (br : Browser) (k : nat) :
  fresh_ok br -> (br_next br <= k)%nat -> br_urls br !! k = None.
Proof.
  intros [Hu _] Hk. destruct (br_urls br !! k) eqn:E; [|done].
  apply (map_Forall_lookup_1 _ _ _ _ Hu) in E. lia.
Qed.

Lemma create_fresh_ok (blob : list Byte.byte) (br : Browser) :
  fresh_ok br -> fresh_ok (create_object_url blob br).2.
Proof.
  intros [Hu Hb]. split; simpl.
  - apply map_Forall_insert_2; [lia|]. eapply map_Forall_impl; [exact Hu|]. simpl. lia.
  - eapply Forall_impl; [exact Hb|]. simpl. lia.
Qed.

(** [triggerDownload] saves the file and leaves the URLs and the body as
    they were: its URL is revoked and its anchor removed. *)
Lemma trigger_download_spec (blob : list Byte.byte) (name : string) (br : Browser) :
  fresh_ok br ->
  trigger_download blob name br =
  mkBrowser (br_urls br) (S (br_next br)) (br_body br) (br_saved br ++ [(name, blob)]).
Proof.
  intros Hf. pose proof (fresh_ok_lookup br (br_next br) Hf (le_n _)) as Hn. destruct Hf as [_ Hb].
  unfold trigger_download, create_object_url, revoke_object_url, remove_anchor, click_anchor, append_anchor.
  simpl. rewrite lookup_insert_eq, delete_insert_id by done. f_equal.
  rewrite remove_app. simpl. destruct (Nat.eq_dec (br_next br) (br_next br)); [|done].
  rewrite app_nil_r. apply notin_remove. intros Hin.
  apply (proj1 (List.Forall_forall _ _) Hb) in Hin. lia.
Qed.

Lemma trigger_fresh_ok (blob : list Byte.byte) (name : string) (br : Browser) :
  fresh_ok br -> fresh_ok (trigger_download blob name br).
Proof.
  intros Hf. rewrite trigger_download_spec by done. destruct Hf as [Hu Hb]. split; simpl.
  - eapply map_Forall_impl; [exact Hu|]. simpl. lia.
  - eapply Forall_impl; [exact Hb|]. simpl. lia.
Qed.

(** ** Images *)

Lemma start_images_spec (bs : list (list Byte.byte)) (br : Browser) :
  start_images bs br =
  (seq (br_next br) (List.length bs),
   mkBrowser (map_seq (br_next br) bs ∪ br_urls br) (br_next br + List.length bs) (br_body br) (br_saved br)).
Proof.
  revert br. induction bs as [|b bs IH]; intros br; simpl.
  - rewrite (left_id_L ∅ union), Nat.add_0_r. by destruct br.
  - rewrite IH. simpl. f_equal. f_equal; [|lia].
    rewrite <- insert_union_r by apply map_seq_cons_disjoint. by rewrite insert_union_l.
Qed.

Section Settle.
Variable decode : list Byte.byte -> option (Z * Z).

Definition decode_at (P : gmap nat (list Byte.byte)) (k : nat) : option (Z * Z) :=
  match P !! k with Some b => decode b | None => None end.

(** Settling the loads of URLs [ks] from the pending map [P]: each
    resolves with its blob's size, and each URL is revoked. *)
Lemma settle_images_spec (ks : list nat) (P U : gmap nat (list Byte.byte)) (n : nat) body saved :
  NoDup ks -> Forall (fun k => U !! k = None) ks ->
  settle_images decode ks (mkBrowser (P ∪ U) n body saved) =
  (decode_at P <$> ks, mkBrowser (fold_left (fun m k => delete k m) ks P ∪ U) n body saved).
Proof.
  revert P. induction ks as [|k ks IH]; intros P Hnd HU; simpl; [done|].
  inversion Hnd as [|? ? Hk Hnd']; subst. inversion HU as [|? ? HUk HU']; subst.
  assert (Hs : image_settle decode k (mkBrowser (P ∪ U) n body saved) =
               (decode_at P k, mkBrowser (delete k P ∪ U) n body saved)).
  { unfold image_settle, image_onload, image_onerror, revoke_object_url, decode_at. simpl.
    rewrite lookup_union_l by done. rewrite delete_union, (delete_id U k HUk).
    destruct (P !! k); [destruct (decode l)|]; reflexivity. }
  rewrite Hs, IH by done. f_equal. f_equal. apply list_fmap_ext. intros _ k' Hk'%list_elem_of_lookup_2.
  unfold decode_at. rewrite lookup_delete_ne; [done|]. by intros ->.
Qed.

Lemma fold_delete_lookup (ks : list nat) (P : gmap nat (list Byte.byte)) (k : nat) :
  fold_left (fun m k => delete k m) ks P !! k = if decide (k ∈ ks) then None else P !! k.
Proof.
  revert P. induction ks as [|k' ks IH]; intros P; simpl; [done|]. rewrite IH.
  destruct (decide (k ∈ ks)); [rewrite decide_True by set_solver; done|].
  destruct (decide (k' = k)) as [->|Hne].
  - rewrite decide_True by set_solver. apply lookup_delete_eq.
  - rewrite decide_False by (rewrite elem_of_cons; intros [-> | ?]; auto). by apply lookup_delete_ne.
Qed.
End Settle.

(** ** Timers *)

Definition delay_le (x y : Download) : Prop := (dl_delay x <= dl_delay y)%Z.

(** A timer whose delay is not below any pending one fires after them all. *)
Lemma timer_insert_last (d : Download) (q : list Download) :
  Forall (fun x => delay_le x d) q -> timer_insert d q = q ++ [d].
Proof.
  induction 1 as [|x q Hx _ IH]; simpl; [done|].
  unfold delay_le in Hx. destruct (dl_delay d <? dl_delay x)%Z eqn:E; [lia|]. by rewrite IH.
Qed.

(** Timers set in order of their delays fire in the order they were set. *)
Lemma timer_order_sorted (ds : list Download) :
  StronglySorted delay_le ds -> timer_order ds = ds.
Proof.
  unfold timer_order. change ds with ([] ++ ds) at 1 3. generalize (@nil Download) as acc.
  induction ds as [|d ds IH]; intros acc Hs; simpl; [by rewrite !app_nil_r|].
  rewrite timer_insert_last.
  - rewrite (IH (acc ++ [d])); rewrite <- app_assoc; done.
  - apply Forall_forall. intros x Hx. eapply StronglySorted_app_1_elem_of; [exact Hs|done|]. by left.
Qed.

(** Each timer's [triggerDownload] saves its file; URLs and anchors are
    left as they were. *)
Lemma fire_in_order (ds : list Download) (br : Browser) :
  fresh_ok br ->
  fold_left (fun br d => trigger_download (dl_blob d) (dl_name d) br) ds br =
  mkBrowser (br_urls br) (br_next br + List.length ds) (br_body br)
            (br_saved br ++ ((fun d => (dl_name d, dl_blob d)) <$> ds)).
Proof.
  revert br. induction ds as [|d ds IH]; intros br Hf; simpl.
  - rewrite Nat.add_0_r, app_nil_r. by destruct br.
  - rewrite IH by (by apply trigger_fresh_ok). rewrite trigger_download_spec by done. simpl.
    f_equal; [lia|]. by rewrite <- app_assoc.
Qed.

(** The downloads [downloadAll] schedules, one per result, [i]-th at
    [150 * i] ms. *)
Definition stagger (k : nat) (l : list (string * list Byte.byte)) : list Download :=
  zip_with (fun i nb => mkDownload (150 * Z.of_nat i) nb.1 nb.2) (seq k (List.length l)) l.

Lemma scheduled_stagger (ui : UI) : scheduled ui = stagger 0 (ui_last ui).
Proof.
  unfold scheduled, download_all, add_downloads. destruct ui as [files fmt q mw meta rows nr pend last dis btn msg hf fname mh conv ah batches dls].
  simpl. apply drop_app_length.
Qed.

Lemma stagger_cons (k : nat) (nb : string * list Byte.byte) (l : list (string * list Byte.byte)) :
  stagger k (nb :: l) = mkDownload (150 * Z.of_nat k) nb.1 nb.2 :: stagger (S k) l.
Proof. done. Qed.

Lemma stagger_delays (k : nat) (l : list (string * list Byte.byte)) :
  dl_delay <$> stagger k l = (fun i => 150 * Z.of_nat i)%Z <$> seq k (List.length l).
Proof. revert k. induction l as [|nb l IH]; intros k; [done|]. rewrite stagger_cons. simpl. by rewrite IH. Qed.

Lemma stagger_files (k : nat) (l : list (string * list Byte.byte)) :
  (fun d => (dl_name d, dl_blob d)) <$> stagger k l = l.
Proof. revert k. induction l as [|[n b] l IH]; intros k; [done|]. rewrite stagger_cons. simpl. by rewrite IH. Qed.

Lemma stagger_sorted (k : nat) (l : list (string * list Byte.byte)) : StronglySorted delay_le (stagger k l).
Proof.
  revert k. induction l as [|nb l IH]; intros k; [constructor|]. rewrite stagger_cons.
  constructor; [apply IH|]. apply Forall_forall. intros d Hd.
  assert (Hd' : dl_delay d ∈ dl_delay <$> stagger (S k) l) by (by apply list_elem_of_fmap_2).
  rewrite stagger_delays, list_elem_of_fmap in Hd'. destruct Hd' as (i & Heq & Hi).
  rewrite elem_of_seq in Hi. unfold delay_le. simpl. lia.
Qed.

(** * Properties *)

(** C13: whatever order the images [getImageDimensions] starts for the
    blobs [bs] load in, each promise resolves with the decoded size of its
    own blob ([null] when it does not decode), and every object URL they
    created is revoked: the URL store is back to what it was. *)
Theorem images_any_order (decode : list Byte.byte -> option (Z * Z)) (bs : list (list Byte.byte))
    (br : Browser) (order : list nat) :
  fresh_ok br -> order ≡ₚ seq 0 (List.length bs) ->
  settle_images decode ((fun i => nth i (start_images bs br).1 0) <$> order) (start_images bs br).2 =
  ((fun i => decode (nth i bs [])) <$> order,
   mkBrowser (br_urls br) (br_next br + List.length bs) (br_body br) (br_saved br)).
Proof.
  intros Hf Hp. rewrite start_images_spec. simpl. set (n := br_next br).
  assert (Hin : forall i, i ∈ order -> (i < List.length bs)%nat).
  { intros i Hi. rewrite Hp, elem_of_seq in Hi. lia. }
  assert (Hks : (fun i => nth i (seq n (List.length bs)) 0) <$> order = Nat.add n <$> order).
  { apply list_fmap_ext. intros _ i Hi%list_elem_of_lookup_2. apply seq_nth, Hin, Hi. }
  rewrite Hks, settle_images_spec.
  - f_equal; [|f_equal].
    + rewrite <- list_fmap_compose. apply list_fmap_ext. intros _ i Hi%list_elem_of_lookup_2.
      unfold compose, decode_at. rewrite lookup_map_seq, option_guard_True by lia.
      destruct (lookup_lt_is_Some_2 bs i) as [b Hb]; [by apply Hin|]. simpl.
      replace (n + i - n)%nat with i by lia. by rewrite Hb, (nth_lookup_Some _ _ _ _ Hb).
    + rewrite <- (left_id_L ∅ union (br_urls br)) at 2. f_equal. apply map_eq. intros k.
      rewrite fold_delete_lookup, lookup_empty. case_decide as Hk; [done|].
      apply lookup_map_seq_None. destruct (decide (n <= k < n + List.length bs)%nat); [|lia].
      exfalso. apply Hk. apply list_elem_of_fmap. exists (k - n)%nat. split; [lia|].
      rewrite Hp, elem_of_seq. lia.
  - apply NoDup_fmap_2; [intros ? ? ?; lia|]. rewrite Hp. apply NoDup_seq.
  - apply Forall_fmap, Forall_true. intros i. apply fresh_ok_lookup; [done|]. simpl. lia.
Qed.

(** C14: a click on "download all" sets one timer per converted file, the
    [i]-th at [150 * i] ms; when they have fired, the files are saved in
    the order of [lastConvertedResults], and no object URL and no anchor
    is left behind. *)
Theorem download_all_order (ui : UI) (br : Browser) :
  fresh_ok br ->
  dl_delay <$> scheduled ui = (fun i => 150 * Z.of_nat i)%Z <$> seq 0 (List.length (ui_last ui)) /\
  fire_downloads (scheduled ui) br =
  mkBrowser (br_urls br) (br_next br + List.length (ui_last ui)) (br_body br) (br_saved br ++ ui_last ui).
Proof.
  intros Hf. rewrite scheduled_stagger. split; [apply stagger_delays|].
  unfold fire_downloads. rewrite timer_order_sorted by apply stagger_sorted.
  rewrite fire_in_order, stagger_files by done. f_equal.
  by rewrite <- (length_fmap (fun d => (dl_name d, dl_blob d))), stagger_files.
Qed.

(** ** Witnesses *)

Definition blank_browser : Browser := mkBrowser ∅ 0 [] [].

Definition size_decode (b : list Byte.byte) : option (Z * Z) :=
  match b with [] => None | _ => Some (Z.of_nat (List.length b), 1%Z) end.

Definition three_blobs : list (list Byte.byte) := [[Byte.x01]; []; [Byte.x02; Byte.x03]].

Lemma images_any_order_witness :
  fresh_ok blank_browser /\ [2; 0; 1]%nat ≡ₚ seq 0 (List.length three_blobs) /\
  settle_images size_decode ((fun i => nth i (start_images three_blobs blank_browser).1 0%nat) <$> [2; 0; 1]%nat)
    (start_images three_blobs blank_browser).2 =
  ((fun i => size_decode (nth i three_blobs [])) <$> [2; 0; 1]%nat,
   mkBrowser (br_urls blank_browser) (br_next blank_browser + List.length three_blobs)
             (br_body blank_browser) (br_saved blank_browser)).
Proof.
  assert (Hf : fresh_ok blank_browser) by (split; [apply map_Forall_empty | constructor]).
  assert (Hp : [2; 0; 1]%nat ≡ₚ seq 0 (List.length three_blobs)).
  { simpl. apply (bool_decide_unpack _). vm_compute. reflexivity. }
  split; [exact Hf|]. split; [exact Hp|]. exact (images_any_order size_decode three_blobs blank_browser _ Hf Hp).
Defined.

Definition converted_two : UI :=
  mkUI [] "webp" "80" "" [] [] 0 [] [("a.webp", [Byte.x01]); ("b.webp", [Byte.x02])]
       false BtnConvert (mkBanner None MsgPlain false) false "" true true false [] [].

Lemma download_all_order_witness :
  fresh_ok blank_browser /\
  fire_downloads (scheduled converted_two) blank_browser =
  mkBrowser ∅ 2 [] [("a.webp", [Byte.x01]); ("b.webp", [Byte.x02])].
Proof.
  assert (Hf : fresh_ok blank_browser) by (split; [apply map_Forall_empty | constructor]).
  split; [exact Hf|]. exact (proj2 (download_all_order converted_two blank_browser Hf)).
Defined.
