(* ===== verification/Contract.v ===== *)
(** The page and the server together: the request the page sends for a
    file ([ClientUI.client_form]) as the multipart body the server parses
    ([Server.Payload]), the server's response as the bytes the page reads
    ([wire_reply]: a converted file as its bytes, an error as the JSON text
    [res.json] writes), and the two properties the spec puts on the pair:
    the name a converted file is saved under, and the error message a user
    sees. *)
From stdpp Require Import gmap.
From S2P Require Import Prelude JsString JsNumber Json Regex NodePath Codec Express Convert Upload Server ClientFormat ClientUI.

Local Open Scope Z_scope.

(** ** The wire *)

Definition string_bytes (s : string) : list Byte.byte := map byte_of_ascii (list_ascii_of_string s).

(** The body Express sends. *)
Definition wire_body (b : option Body) : list Byte.byte :=
  match b with
  | Some (BodyBytes d) => d
  | Some (BodyJsonError m) => string_bytes (error_json_text m)
  | None => []
  end.

Definition wire_reply (r : Response) : Reply := RResponse (res_status r) (wire_body (res_body r)).

(** [FormData] as multer receives it: the file part first, then the fields. *)
Definition form_payload (f : Form) : Payload :=
  Multipart (PFile "image" (bf_name (form_file f)) (bf_data (form_file f)) ::
             map (fun kv => PField kv.1 kv.2) (form_fields f)).

Section Deployed.
Context `{Codec}.
Variable env : Env.
Variable fs0 : gmap string Buffer.

(** The server as the page reaches it: a fresh response for each request. *)
Definition deployed_server (f : Form) : Reply :=
  wire_reply (w_res (post_convert env (form_payload f) (mkWorld fresh_response fs0 [])).2).
End Deployed.

(** ** Lemmas *)

Lemma bytes_text_string_bytes (s : string) : bytes_text (string_bytes s) = s.
Proof.
  unfold bytes_text, string_bytes. rewrite map_map.
  rewrite (map_ext _ id) by (intros a; apply ascii_of_byte_of_ascii).
  rewrite map_id. apply string_of_list_ascii_of_string.
Qed.

Lemma error_text_nonempty (m : string) : error_text m <> "".
Proof. unfold error_text. by destruct (String.eqb_spec m ""). Qed.

Lemma contract_error (req : Request) (st : Z) (ct msg : string) `{Codec} :
  (convert_contract req).1 = AnsError st ct msg -> (st = 400 \/ st = 500) /\ msg <> "".
Proof.
  unfold convert_contract, fail500, deliver.
  destruct (req_file req); [|intros [= <- <- <-]; by split; [left|]].
  destruct (requested_format req) as [m|format]; [intros [= <- <- <-]; split; [by right | apply error_text_nonempty]|].
  destruct (negb (format_ok format)); [intros [= <- <- <-]; by split; [left|]|].
  destruct (String.eqb format "ico").
  - destruct (sharps_to_ico _ _); [destruct (valid_header_value _) | |];
      intros [= <- <- <-]; split; try (by right); apply error_text_nonempty.
  - destruct (to_buffer _); [intros [= <- <- <-]; split; [by right | apply error_text_nonempty]|].
    destruct (mime_of format); [destruct (valid_header_value _)|];
      intros [= <- <- <-]; split; try (by right); apply error_text_nonempty.
Qed.

Lemma post_contract_error (pl : Payload) (st : Z) (ct msg : string) `{Codec} :
  (post_contract pl).1 = AnsError st ct msg -> (st = 400 \/ st = 500) /\ msg <> "".
Proof.
  unfold post_contract. destruct (parse_request pl) as [req | err]; [apply contract_error|].
  unfold upload_answer. destruct err as [[] f | m]; simpl;
    try (intros [= <- <- <-]; split; [by left | done]);
    intros [= <- <- <-]; (split; [by right|]); try done.
  destruct (String.eqb_spec m ""); done.
Qed.

(** The page reads a JSON error back as its message. *)
Lemma response_error_json (st : Z) (msg : string) :
  msg <> "" -> response_error st (error_json_text msg) = Some msg.
Proof.
  intros Hm. unfold response_error. rewrite json_error_roundtrip. simpl.
  apply String.eqb_neq in Hm. by rewrite Hm.
Qed.

(** ** Error messages *)

Section Errors.
Context `{Codec}.
Variable env : Env.
Variable fs0 : gmap string Buffer.

(** What the page reads of an error answer of the server. *)
Lemma error_answer_parsed (f : Form) (st : Z) (ct msg : string) :
  (post_contract (form_payload f)).1 = AnsError st ct msg ->
  deployed_server env fs0 f = RResponse st (string_bytes (error_json_text msg)) /\ ok_status st = false /\
  option_map banner_error (response_error st (bytes_text (string_bytes (error_json_text msg)))) = Some msg.
Proof.
  intros Ha. destruct (post_contract_error _ st ct msg Ha) as [Hst Hm].
  destruct (post_run env (form_payload f) (mkWorld fresh_response fs0 []) eq_refl) as (r' & E & A).
  rewrite Ha in A. destruct A as (Hs & _ & Hb). split; [|split].
  - unfold deployed_server. rewrite E. simpl. unfold wire_reply. by rewrite Hs, Hb.
  - destruct Hst as [-> | ->]; reflexivity.
  - rewrite bytes_text_string_bytes, response_error_json by done. simpl. unfold banner_error.
    apply String.eqb_neq in Hm. by rewrite Hm.
Qed.

(** C3: every error the server answers to a request of the page reaches
    the page as exactly its message: the status is 400 or 500 (not ok),
    the body is the JSON [res.json] writes, and the page's [JSON.parse]
    and [j.error || text || ...] recover the message, which the banner
    shows unchanged. *)
Theorem error_reaches_page (f : Form) (st : Z) (ct msg : string) :
  (post_contract (form_payload f)).1 = AnsError st ct msg ->
  deployed_server env fs0 f = RResponse st (string_bytes (error_json_text msg)) /\ ok_status st = false /\
  option_map banner_error (response_error st (bytes_text (string_bytes (error_json_text msg)))) = Some msg.
Proof. exact (error_answer_parsed f st ct msg). Qed.

(** On the page, the fetch of a file the server refuses settles the
    batch with the server's message in the error banner. *)
Theorem page_shows_server_error (decode : list Byte.byte -> option (Z * Z)) (ui : UI) (bi i : nat)
    (b : Batch) (file : BFile) (st : Z) (ct msg : string) :
  nth_error (ui_batches ui) bi = Some b -> b_settled b = false ->
  nth_error (b_tasks b) i = Some TFetching -> nth_error (b_files b) i = Some file ->
  (post_contract (form_payload (client_form file (b_format b) (b_quality b) (b_mw b)))).1 = AnsError st ct msg ->
  let ui' := step decode (deployed_server env fs0) ui (EvFetch bi i) in
  ui_msg ui' = mkBanner (Some msg) MsgError true /\ ui_disabled ui' = false.
Proof.
  intros Hb Hs Ht Hf Ha. destruct (error_answer_parsed _ st ct msg Ha) as (Hr & Hok & Hmsg).
  cbn [step]. rewrite Hb. unfold fetch_settled. rewrite Hb, Ht.
  unfold batch_reply. rewrite Hf, Hr, Hok. unfold fail_task. rewrite Hs.
  unfold reject. rewrite Hmsg. by destruct ui.
Qed.
End Errors.

(** ** Names *)







(** ** On the reference codec *)

Import Samples PageSamples.

Definition photo : BFile := mkBFile "photo.png" 20 (RefCodec.image FmtPng (100, 50)).

Definition ref_server : Form -> Reply := @deployed_server RefCodec.ref_codec env0 ∅.

Lemma error_reaches_page_witness :
  ref_server (client_form photo "gif" "80" "") = RResponse 400 (string_bytes (error_json_text invalid_format_msg)) /\
  ok_status 400 = false /\
  option_map banner_error (response_error 400 (bytes_text (string_bytes (error_json_text invalid_format_msg)))) =
    Some invalid_format_msg.
Proof. apply (@error_reaches_page RefCodec.ref_codec env0 ∅ (client_form photo "gif" "80" "") 400 json_type). vm_compute. reflexivity. Defined.

Lemma page_shows_server_error_witness :
  let ui' := step decode0 ref_server (run decode0 ref_server (init_ui "gif" "80" "") [EvChange [photo]; EvClick]) (EvFetch 0 0) in
  ui_msg ui' = mkBanner (Some invalid_format_msg) MsgError true /\ ui_disabled ui' = false.
Proof.
  apply (@page_shows_server_error RefCodec.ref_codec env0 ∅ decode0 _ 0 0
           (mkBatch [photo] "gif" "80" "" [TFetching] [] false) photo 400 json_type); vm_compute; reflexivity.
Defined.


