(* ===== verification/App.v ===== *)
(** The Express application of server.js as a whole (lines 9 and 23-26
    with 124-134): every request goes through [express.json()], then
    [express.static] (answering GET and HEAD for the files of [public]),
    then the router, whose only route is [POST /api/convert]
    ([Server.post_convert]: multer, the handler and the error middleware),
    and finally Express's [finalhandler], which answers 404 "Cannot
    METHOD path".  A body [express.json] cannot parse skips everything up
    to the error middleware.  The router also answers an OPTIONS request
    for the route's path with the methods it allows.  The route's path is
    matched by the pattern path-to-regexp builds,
    [/^\/api\/convert\/?$/i], run on the regex engine of [Regex].  The
    libraries are those of Express 5 (router 2, finalhandler 2,
    serve-static 2), modelled from their documentation and source. *)
From stdpp Require Import gmap.
From S2P Require Import Prelude JsString Regex Codec Express Convert Upload Server Url Static Contract.

Local Open Scope Z_scope.

(** ** Requests *)

Record HttpRequest := mkHttpRequest {
  rq_method : Method;
  rq_url : string;       (** [req.url]: the request target *)
  rq_body : Payload      (** the body as the parsers see it *)
}.

(** ** The route *)

(** path-to-regexp for ["/api/convert"] with Express's defaults
    ([sensitive: false], [strict: false], [end: true]). *)
Definition route_re : regex := RSeq (RSeq (word "/api/convert") (ROpt (RChar "/"))) REnd.

(** [layer.match(path)]: the pattern, anchored by [^], matches at the
    start of the pathname. *)
Definition route_match (p : string) : bool :=
  match rmatch true route_re p with [] => false | _ => true end.

(** ** Responses of the libraries *)

Definition nl : string := String (ascii_of_nat 10) EmptyString.

(** The HTML document of serve-static and finalhandler. *)
Definition html_document (title body : string) : string :=
  "<!DOCTYPE html>" +++ nl +++ "<html lang=" +++ dq +++ "en" +++ dq +++ ">" +++ nl +++
  "<head>" +++ nl +++ "<meta charset=" +++ dq +++ "utf-8" +++ dq +++ ">" +++ nl +++
  "<title>" +++ title +++ "</title>" +++ nl +++ "</head>" +++ nl +++
  "<body>" +++ nl +++ "<pre>" +++ body +++ "</pre>" +++ nl +++ "</body>" +++ nl +++ "</html>" +++ nl.

(** finalhandler's [body.replace(/\n/g, "<br>").replace(/\x20{2}/g, " &nbsp;")]. *)
Fixpoint br_newlines (s : string) : string :=
  match s with
  | EmptyString => EmptyString
  | String c s' => if Ascii.eqb c (ascii_of_nat 10) then "<br>" +++ br_newlines s' else String c (br_newlines s')
  end.

Fixpoint nbsp_spaces (s : string) : string :=
  match s with
  | String a s' =>
      match s' with
      | String b s'' =>
          if Ascii.eqb a " " && Ascii.eqb b " " then " &nbsp;" +++ nbsp_spaces s''
          else String a (nbsp_spaces s')
      | EmptyString => String a EmptyString
      end
  | EmptyString => EmptyString
  end.

(** The message of finalhandler's 404: [Cannot METHOD path], the path
    encoded. *)
Definition not_found_text (m : Method) (p : string) : string :=
  nbsp_spaces (br_newlines (escape_html ("Cannot " +++ method_name m +++ " " +++ encode_url p))).

Definition csp_none : string := "default-src 'none'".

(** The body of [res.end(doc)]: none for a HEAD request. *)
Definition end_body (m : Method) (doc : string) : M unit :=
  modify_res (fun r => mkResponse (res_status r) (res_headers r)
                                  (Some (BodyBytes (match m with MHead => [] | _ => string_bytes doc end)))).

(** finalhandler with no error: 404 and the page. *)
Definition not_found (m : Method) (p : string) : M unit :=
  res_set_status 404 ;;
  set_header "Content-Security-Policy" csp_none ;;
  set_header "X-Content-Type-Options" "nosniff" ;;
  set_header "Content-Type" "text/html; charset=utf-8" ;;
  end_body m (html_document "Error" (not_found_text m p)).

(** serve-static's directory redirect. *)
Definition send_redirect (m : Method) (loc : string) : M unit :=
  res_set_status 301 ;;
  set_header "Content-Type" "text/html; charset=UTF-8" ;;
  set_header "Content-Security-Policy" csp_none ;;
  set_header "X-Content-Type-Options" "nosniff" ;;
  set_header "Location" loc ;;
  end_body m (html_document "Redirecting" ("Redirecting to " +++ escape_html loc)).

(** send's 200 for a file: the headers that do not depend on the file's
    times, then its bytes (none for HEAD). *)
Definition send_file (m : Method) (key : string) (data : Buffer) : M unit :=
  set_header "Accept-Ranges" "bytes" ;;
  set_header "Cache-Control" "public, max-age=0" ;;
  set_header "Content-Type" (static_type key) ;;
  modify_res (fun r => mkResponse (res_status r) (res_headers r)
                                  (Some (BodyBytes (match m with MHead => [] | _ => data end)))).

(** The router's automatic OPTIONS answer for the route's path: [Allow]
    and the same list as the body ([res.send("POST")]). *)
Definition send_options : M unit :=
  set_header "Allow" "POST" ;;
  set_header "Content-Type" "text/html; charset=utf-8" ;;
  modify_res (fun r => mkResponse (res_status r) (res_headers r) (Some (BodyBytes (string_bytes "POST")))).

(** ** The application *)

Section App.
Context `{Codec}.
Variable pub : Public.

(** [app.handle(req, res)]: [None] when the request target is outside
    what [parseurl]'s fast path reads. *)
Definition app_handle (env : Env) (rq : HttpRequest) : option (M unit) :=
  match url_pathname (rq_url rq) with
  | None => None
  | Some p =>
      Some (match rq_body rq with
            | JsonMalformed msg => error_middleware (PlainError msg)
            | body =>
                match serve_static pub (rq_method rq) p (url_search (rq_url rq)) with
                | SFile key data => send_file (rq_method rq) key data
                | SRedirect loc => send_redirect (rq_method rq) loc
                | SNext =>
                    match rq_method rq with
                    | MPost => if route_match p then post_convert env body else not_found MPost p
                    | MOther "OPTIONS" => if route_match p then send_options else not_found (rq_method rq) p
                    | m => not_found m p
                    end
                end
            end)
  end.
End App.

(** ** The route's pattern *)

Lemma route_words : words (RSeq (word "/api/convert") (ROpt (RChar "/"))) = ["/api/convert/"; "/api/convert"].
Proof. reflexivity. Qed.

Lemma route_match_rm (p : string) : route_match p = true <-> rm true route_re p EmptyString.
Proof.
  unfold route_match. split.
  - destruct (rmatch true route_re p) as [|t ts] eqn:E; [done|]. intros _.
    assert (Ht : In t (rmatch true route_re p)) by (rewrite E; by left).
    apply rmatch_spec in Ht. unfold route_re in Ht |- *. apply rm_seq_end in Ht as [-> Ht]. by apply rm_seq_end.
  - intros H. apply rmatch_spec in H. by destruct (rmatch true route_re p).
Qed.

(** ** Responses *)

(** ** The 404 page *)

Lemma escape_html_char_check :
  forallb (fun c => negb (str_has "<" (escape_html_char c)) && negb (str_has ">" (escape_html_char c)) &&
                    Bool.eqb (str_has (ascii_of_nat 10) (escape_html_char c)) (Ascii.eqb c (ascii_of_nat 10)))
          all_chars = true.
Proof. vm_compute. reflexivity. Qed.

Lemma escape_html_safe (s : string) :
  str_has "<" (escape_html s) = false /\ str_has ">" (escape_html s) = false /\
  str_has (ascii_of_nat 10) (escape_html s) = str_has (ascii_of_nat 10) s.
Proof.
  pose proof escape_html_char_check as H. rewrite forallb_forall in H.
  induction s as [|c s (IH1 & IH2 & IH3)]; [done|]. specialize (H c (all_chars_complete c)).
  apply andb_true_iff in H as [H H3]. apply andb_true_iff in H as [H1 H2].
  apply negb_true_iff in H1, H2. apply Bool.eqb_prop in H3.
  simpl. rewrite !str_has_append, H1, H2, H3, IH1, IH2, IH3. done.
Qed.

Lemma br_newlines_none (s : string) : str_has (ascii_of_nat 10) s = false -> br_newlines s = s.
Proof.
  induction s as [|c s IH]; [done|]. simpl. intros H. apply orb_false_iff in H as [-> H]. by rewrite IH.
Qed.

Lemma nbsp_spaces_has_fuel (n : nat) (c : ascii) (s : string) :
  (String.length s < n)%nat -> str_has c " &nbsp;" = false -> str_has c (nbsp_spaces s) = str_has c s.
Proof.
  revert s. induction n as [|n IH]; intros s Hs Hc; [lia|].
  destruct s as [|a [|b s]]; [done|done|]. simpl in Hs.
  assert (Hn : nbsp_spaces (String a (String b s)) =
               if Ascii.eqb a " " && Ascii.eqb b " " then " &nbsp;" +++ nbsp_spaces s
               else String a (nbsp_spaces (String b s))) by reflexivity.
  rewrite Hn. destruct (Ascii.eqb a " " && Ascii.eqb b " ") eqn:E.
  - apply andb_true_iff in E as [Ea Eb]. apply Ascii.eqb_eq in Ea as ->, Eb as ->.
    rewrite str_has_append, Hc, IH by (done || lia). cbn [str_has orb].
    destruct (Ascii.eqb " " c) eqn:E; [|done]. apply Ascii.eqb_eq in E as <-. discriminate Hc.
  - cbn [str_has]. rewrite IH by (done || simpl; lia). done.
Qed.

Lemma nbsp_spaces_has (c : ascii) (s : string) :
  str_has c " &nbsp;" = false -> str_has c (nbsp_spaces s) = str_has c s.
Proof. apply (nbsp_spaces_has_fuel (S (String.length s))). lia. Qed.

Lemma not_found_text_safe (m : Method) (p : string) :
  str_has (ascii_of_nat 10) (method_name m) = false ->
  str_has "<" (not_found_text m p) = false /\ str_has ">" (not_found_text m p) = false.
Proof.
  intros Hm. unfold not_found_text.
  set (msg := "Cannot " +++ method_name m +++ " " +++ encode_url p).
  assert (Hmsg : str_has (ascii_of_nat 10) msg = false).
  { subst msg. rewrite !str_has_append, Hm. simpl.
    assert (Hp := encode_url_printable p). generalize dependent (encode_url p). intros e He.
    induction e as [|c e IH]; [done|]. simpl in He |- *. apply andb_true_iff in He as [Hc He].
    rewrite IH by done. unfold printable, code_in in Hc. destruct (Ascii.eqb_spec c (ascii_of_nat 10)) as [->|]; [done|done]. }
  destruct (escape_html_safe msg) as (H1 & H2 & H3).
  rewrite br_newlines_none by (by rewrite H3). rewrite !nbsp_spaces_has by done. done.
Qed.

(** ** Properties *)

Section Props.
Context `{Codec}.
Variable pub : Public.

(** C16: the router takes exactly the pathnames [/api/convert] and
    [/api/convert/] in any case of letters: path-to-regexp's pattern,
    run by the backtracking matcher, is equivalent to comparing the
    lower-cased pathname with the two words. *)
Theorem route_match_spec (p : string) :
  route_match p = true <-> to_lower p = "/api/convert" \/ to_lower p = "/api/convert/".
Proof.
  rewrite route_match_rm. unfold route_re. rewrite rm_seq_end, rm_star_free by reflexivity. rewrite route_words.
  assert (Hw : forall w, In w ["/api/convert/"; "/api/convert"] ->
                         str_eq_ci true p w = true <-> to_lower p = w).
  { intros w Hw. rewrite str_eq_ci_plain; [apply String.eqb_eq|]. by destruct Hw as [<-|[<-|[]]]. }
  split.
  - intros [_ (w & e & Hin & Hp & He)]. rewrite js_append_nil_r in Hp. subst e.
    apply Hw in He; [|done]. destruct Hin as [<-|[<-|[]]]; tauto.
  - intros Hp. split; [done|].
    destruct Hp as [Hp|Hp]; [exists "/api/convert" | exists "/api/convert/"]; exists p;
      (split; [simpl; tauto|]); (split; [by rewrite js_append_nil_r|]); apply Hw; simpl; tauto.
Qed.

(** C15: the application as a whole answers a POST whose path the route
    takes exactly as the route's chain does (multer, the handler, the
    error middleware): [express.json] and [express.static] pass it on, so
    the answer, the file system and the log are those of [post_contract].
    A POST to any other path gets finalhandler's 404, unless its JSON
    body is malformed, which the error middleware answers first. *)
Theorem app_post_route (env : Env) (u p : string) (pl : Payload) :
  url_pathname u = Some p ->
  (route_match p = true -> forall w, w_res w = fresh_response ->
     exists r', option_map (fun m => m w) (app_handle pub env (mkHttpRequest MPost u pl)) =
                Some (Ret tt, mkWorld r' (post_fs env pl (w_fs w)) (w_log w ++ (post_contract pl).2)) /\
                answers r' (post_contract pl).1) /\
  (route_match p = false -> (forall msg, pl <> JsonMalformed msg) ->
     app_handle pub env (mkHttpRequest MPost u pl) = Some (not_found MPost p)).
Proof.
  intros Hu. unfold app_handle. cbn [rq_url rq_body rq_method]. rewrite Hu. split.
  - intros Hr w Hw. destruct (post_run env pl w Hw) as (r' & E & A). exists r'. split; [|done].
    simpl. rewrite <- E, Hr. by destruct pl.
  - intros Hr Hpl. rewrite Hr. destruct pl as [| | msg |]; try done. by destruct (Hpl msg).
Qed.

(** the 404 page finalhandler writes for a standard method never
    carries markup taken from the request: whatever the path, its text
    holds no [<] and no [>] (the path is percent-encoded, then
    HTML-escaped). *)
Theorem not_found_no_markup (m : Method) (p : string) :
  (forall n, m <> MOther n) ->
  str_has "<" (not_found_text m p) = false /\ str_has ">" (not_found_text m p) = false.
Proof. intros Hm. apply not_found_text_safe. destruct m; try done. by destruct (Hm name). Qed.

(** [express.json()] comes first: a malformed JSON body sends any
    request, whatever its method and path, to the error middleware, so
    even a GET of a public file is answered 500. *)
Lemma app_malformed_json_first (env : Env) (rq : HttpRequest) (p msg : string) :
  url_pathname (rq_url rq) = Some p -> rq_body rq = JsonMalformed msg ->
  app_handle pub env rq = Some (error_middleware (PlainError msg)).
Proof. intros Hu Hb. unfold app_handle. by rewrite Hu, Hb. Qed.
End Props.

(** ** Witnesses *)

Import Samples.

Definition photo_form : Payload := form "photo.png" png100x50 [("format", "webp")].

Lemma app_post_route_witness :
  url_pathname "/API/Convert/" = Some "/API/Convert/" /\ route_match "/API/Convert/" = true /\
  exists r', option_map (fun m => m w0) (@app_handle RefCodec.ref_codec demo_pub env0 (mkHttpRequest MPost "/API/Convert/" photo_form)) =
             Some (Ret tt, mkWorld r' (@post_fs RefCodec.ref_codec env0 photo_form (w_fs w0))
                                      (w_log w0 ++ (@post_contract RefCodec.ref_codec photo_form).2)) /\
             answers r' (@post_contract RefCodec.ref_codec photo_form).1.
Proof.
  assert (Hu : url_pathname "/API/Convert/" = Some "/API/Convert/") by reflexivity.
  assert (Hr : route_match "/API/Convert/" = true) by (vm_compute; reflexivity).
  split; [exact Hu|]. split; [exact Hr|].
  exact (proj1 (@app_post_route RefCodec.ref_codec demo_pub env0 _ _ photo_form Hu) Hr w0 eq_refl).
Defined.

Lemma not_found_no_markup_witness :
  (forall n, MGet <> MOther n) /\
  str_has "<" (not_found_text MGet "/<script>") = false /\ str_has ">" (not_found_text MGet "/<script>") = false.
Proof.
  assert (Hm : forall n, MGet <> MOther n) by (intros n; discriminate).
  split; [exact Hm|]. exact (not_found_no_markup MGet "/<script>" Hm).
Defined.
